(** * CloudForge agent: terminal sessions, scrollback and connection handlers

    A shallow embedding of [src/terminal.ts] (ScrollbackBuffer,
    TerminalSession, TerminalManager) and of the connection and terminal
    handlers of [src/websocket.ts] (WebSocketManager), followed by the
    properties of the session relay stated in the specification.

    Conventions of the embedding:
    - a JavaScript [number] that holds a size, a dimension or a timestamp is a
      [Z]; an optional number ([number | undefined], [number | null]) is an
      [option Z], and JavaScript truthiness is written out ([truthyZ]);
    - a JavaScript string is a [string]; [s.length] is [String.length s];
    - [Date.now()] is an explicit argument [now] of every operation that
      reads the clock;
    - [console.log] output (and therefore [config.debug]) is not modelled;
    - the [Map<string, TerminalSession>] of the manager holds references to
      session objects that stay alive (and stay wired to their PTY) after the
      entry is deleted: the manager is a store of session objects ([heap],
      addressed by allocation index) and a [gmap] from session ids to
      references. *)

From Stdlib Require Import ZArith Lia Ascii.
From stdpp Require Import gmap strings list fin_maps sorting.

Local Open Scope Z_scope.

(** ** Strings and truthiness *)

(** [data.length] *)
Definition strlen (s : string) : Z := Z.of_nat (String.length s).

(** [chunks.join('')] *)
Definition join (chunks : list string) : string :=
  foldr String.append EmptyString chunks.

(** Sum of the lengths of a list of chunks. *)
Definition chunks_size (chunks : list string) : Z :=
  foldr (fun c acc => strlen c + acc) 0 chunks.

(** Truthiness of an optional number: [undefined], [null] and [0] are falsy. *)
Definition truthyZ (n : option Z) : bool :=
  match n with
  | Some v => negb (v =? 0)
  | None => false
  end.

(** [n || d] on an optional number. *)
Definition orZ (n : option Z) (d : Z) : Z :=
  if truthyZ n then default d n else d.

(** [s || d] on an optional string: [undefined] and [''] are falsy. *)
Definition orString (s : option string) (d : string) : string :=
  match s with
  | Some EmptyString | None => d
  | Some v => v
  end.

(** ** ScrollbackBuffer (terminal.ts, lines 18-46) *)

Module ScrollbackBuffer.

Record t := mk {
  buffer : list string;
  totalSize : Z;
  maxSize : Z
}.

(** [constructor(maxSize = 100 * 1024)] *)
Definition default_maxSize : Z := 100 * 1024.

Definition new (maxSize : Z) : t := mk [] 0 maxSize.

(** The loop of [write]:
    [while (totalSize > maxSize && buffer.length > 1)
       { removed = buffer.shift(); totalSize -= removed.length }] *)
Fixpoint trim (maxSize : Z) (buffer : list string) (totalSize : Z)
  : list string * Z :=
  match buffer with
  | removed :: ((_ :: _) as rest) =>
      if totalSize >? maxSize
      then trim maxSize rest (totalSize - strlen removed)
      else (buffer, totalSize)
  | _ => (buffer, totalSize)
  end.

Definition write (data : string) (b : t) : t :=
  let pushed := buffer b ++ [data] in
  let total := totalSize b + strlen data in
  let '(kept, size) := trim (maxSize b) pushed total in
  mk kept size (maxSize b).

Definition getContents (b : t) : string := join (buffer b).

Definition clear (b : t) : t := mk [] 0 (maxSize b).

(** A call on a buffer, and a sequence of calls run in order. *)
Inductive op := Write (data : string) | Clear.

Definition step (b : t) (o : op) : t :=
  match o with
  | Write data => write data b
  | Clear => clear b
  end.

Definition run (ops : list op) (b : t) : t := foldl step b ops.

(** Total size of what the buffer retains. *)
Definition retained (b : t) : Z := chunks_size (buffer b).

(** The size field counts what is retained. *)
Definition accounted (b : t) : Prop := totalSize b = retained b.

End ScrollbackBuffer.

(** ** The PTY handle and the callbacks of a session *)

(** What the code does with a handle returned by node-pty's [pty.spawn]: the
    options it was spawned with, and the calls made on it, in order. The
    process behind the handle is not part of the program. *)
Inductive PtyCall :=
| PtyWrite (data : string)
| PtyResize (cols rows : Z)
| PtyKill.

Record IPty := mkPty {
  ptyFile : string;
  ptyCols : Z;
  ptyRows : Z;
  ptyCwd : string;
  ptyCalls : list PtyCall
}.

(** Outcome of [pty.spawn(...)]: a handle, or an exception with a message. *)
Inductive PtySpawn :=
| PtySpawned
| PtySpawnThrows (message : string).

(** The closures passed to [session.onData] and [session.onExit]. The only
    ones in the program are those of websocket.ts: the output forwarder
    (lines 167-173 and 298-304) and the exit forwarder (lines 176-183), each
    closed over [msg.sessionId]. *)
Inductive DataCallback := ForwardOutput (sessionId : string).
Inductive ExitCallback := ForwardClosed (sessionId : string).

Inductive SessionState := attached | detached.

Inductive Error := mkError (message : string).

Definition message (e : Error) : string := let 'mkError m := e in m.

(** The fields of [AgentConfig] that the modelled code reads. *)
Record AgentConfig := mkConfig {
  cfgShell : string;
  cfgHomeDir : string
}.

(** ** TerminalSession (terminal.ts, lines 60-77 and 116-178)

    The session object built by [spawn], with the two callback arrays its
    closures share ([dataCallbacks], [exitCallbacks]) as fields. *)

Module TerminalSession.

Record t := mk {
  pty : IPty;
  sessionId : string;
  state : SessionState;
  scrollback : ScrollbackBuffer.t;
  createdAt : Z;
  detachedAt : option Z;
  shell : string;
  cols : Z;
  rows : Z;
  idleTimeoutMs : Z;
  dataCallbacks : list DataCallback;
  exitCallbacks : list ExitCallback
}.

Definition call (c : PtyCall) (s : t) : t :=
  let p := pty s in
  mk (mkPty (ptyFile p) (ptyCols p) (ptyRows p) (ptyCwd p) (ptyCalls p ++ [c]))
     (sessionId s) (state s) (scrollback s) (createdAt s) (detachedAt s)
     (shell s) (cols s) (rows s) (idleTimeoutMs s)
     (dataCallbacks s) (exitCallbacks s).

Definition set_attachment (st : SessionState) (at_ : option Z) (s : t) : t :=
  mk (pty s) (sessionId s) st (scrollback s) (createdAt s) at_
     (shell s) (cols s) (rows s) (idleTimeoutMs s)
     (dataCallbacks s) (exitCallbacks s).

Definition set_scrollback (b : ScrollbackBuffer.t) (s : t) : t :=
  mk (pty s) (sessionId s) (state s) b (createdAt s) (detachedAt s)
     (shell s) (cols s) (rows s) (idleTimeoutMs s)
     (dataCallbacks s) (exitCallbacks s).

Definition set_size (c r : Z) (s : t) : t :=
  mk (pty s) (sessionId s) (state s) (scrollback s) (createdAt s)
     (detachedAt s) (shell s) c r (idleTimeoutMs s)
     (dataCallbacks s) (exitCallbacks s).

Definition set_dataCallbacks (cbs : list DataCallback) (s : t) : t :=
  mk (pty s) (sessionId s) (state s) (scrollback s) (createdAt s)
     (detachedAt s) (shell s) (cols s) (rows s) (idleTimeoutMs s)
     cbs (exitCallbacks s).

Definition set_exitCallbacks (cbs : list ExitCallback) (s : t) : t :=
  mk (pty s) (sessionId s) (state s) (scrollback s) (createdAt s)
     (detachedAt s) (shell s) (cols s) (rows s) (idleTimeoutMs s)
     (dataCallbacks s) cbs.

(** [onData: (callback) => { dataCallbacks.push(callback) }] *)
Definition onData (callback : DataCallback) (s : t) : t :=
  set_dataCallbacks (dataCallbacks s ++ [callback]) s.

(** [onExit: (callback) => { exitCallbacks.push(callback) }] *)
Definition onExit (callback : ExitCallback) (s : t) : t :=
  set_exitCallbacks (exitCallbacks s ++ [callback]) s.

(** [write: (data) => { ptyProcess.write(data) }] *)
Definition write (data : string) (s : t) : t := call (PtyWrite data) s.

(** [resize]: records the dimensions on the session, then
    [ptyProcess.resize(cols, rows)]. *)
Definition resize (c r : Z) (s : t) : t := call (PtyResize c r) (set_size c r s).

(** [kill: () => { ptyProcess.kill() }] *)
Definition kill (s : t) : t := call PtyKill s.

(** [clearDataCallbacks: () => { dataCallbacks.length = 0 }] *)
Definition clearDataCallbacks (s : t) : t := set_dataCallbacks [] s.

(** The first statement of the listener wired on the PTY by [spawn]
    (line 124): [scrollback.write(data)], whatever the attachment state. *)
Definition record_output (data : string) (s : t) : t :=
  set_scrollback (ScrollbackBuffer.write data (scrollback s)) s.

End TerminalSession.

(** ** TerminalManager (terminal.ts, lines 79-320) *)

Module TerminalManager.

Record t := mk {
  config : AgentConfig;
  heap : list TerminalSession.t;
  sessions : gmap string nat
}.

Definition new (config : AgentConfig) : t := mk config [] ∅.

(** A method call or a field assignment on the session object behind a
    reference. *)
Definition update (ref : nat) (f : TerminalSession.t -> TerminalSession.t)
    (m : t) : t :=
  mk (config m) (alter f ref (heap m)) (sessions m).

(** [get(sessionId)]: the session object (its reference and its current
    contents), or [undefined]. *)
Definition get (sessionId : string) (m : t) : option (nat * TerminalSession.t) :=
  ref ← sessions m !! sessionId;
  session ← heap m !! ref;
  Some (ref, session).

(** [has(sessionId)] *)
Definition has (sessionId : string) (m : t) : bool :=
  match get sessionId m with
  | Some _ => true
  | None => false
  end.

(** [remove(sessionId)] is [this.sessions.delete(sessionId)]. *)
Definition remove (sessionId : string) (m : t) : bool * t :=
  (has sessionId m, mk (config m) (heap m) (delete sessionId (sessions m))).

(** [spawn]: the duplicate check, then [pty.spawn], then the session
    object, then [this.sessions.set]. Returns the new session (its
    reference) or the exception thrown. *)
Definition spawn (sessionId shell : string) (cols rows : Z)
    (cwd : option string) (idleTimeoutMs : option Z)
    (now : Z) (ptyResult : PtySpawn) (m : t) : (Error + nat) * t :=
  if has sessionId m then
    (inl (mkError ("Session " +:+ sessionId +:+ " already exists")), m)
  else
    match ptyResult with
    | PtySpawnThrows msg => (inl (mkError msg), m)
    | PtySpawned =>
        let ptyProcess :=
          mkPty shell cols rows (orString cwd (cfgHomeDir (config m))) [] in
        let session :=
          TerminalSession.mk ptyProcess sessionId attached
            (ScrollbackBuffer.new ScrollbackBuffer.default_maxSize)
            now None shell cols rows (orZ idleTimeoutMs 0) [] [] in
        let ref := length (heap m) in
        (inr ref,
         mk (config m) (heap m ++ [session]) (<[sessionId := ref]> (sessions m)))
    end.

(** The three statements of [detach] on the session (lines 195-197):
    [session.state = 'detached'; session.detachedAt = Date.now();
     session.clearDataCallbacks()]. *)
Definition mark_detached (now : Z) (session : TerminalSession.t)
  : TerminalSession.t :=
  TerminalSession.clearDataCallbacks
    (TerminalSession.set_attachment detached (Some now) session).

(** [detach(sessionId)] *)
Definition detach (now : Z) (sessionId : string) (m : t) : bool * t :=
  match get sessionId m with
  | None => (false, m)
  | Some (ref, _) => (true, update ref (mark_detached now) m)
  end.

(** [reattach(sessionId)]: the scrollback contents, or [null]. *)
Definition reattach (sessionId : string) (m : t) : option string * t :=
  match get sessionId m with
  | None => (None, m)
  | Some (ref, session) =>
      (Some (ScrollbackBuffer.getContents (TerminalSession.scrollback session)),
       update ref (TerminalSession.set_attachment attached None) m)
  end.

(** The condition of [cleanupIdleSessions] (lines 242-247):
    [state === 'detached' && idleTimeoutMs > 0 && detachedAt &&
     now - detachedAt > idleTimeoutMs]. *)
Definition idle_expired (now : Z) (session : TerminalSession.t) : bool :=
  match TerminalSession.state session with
  | detached =>
      (TerminalSession.idleTimeoutMs session >? 0)
      && truthyZ (TerminalSession.detachedAt session)
      && match TerminalSession.detachedAt session with
         | Some at_ => now - at_ >? TerminalSession.idleTimeoutMs session
         | None => false
         end
  | attached => false
  end.

(** One turn of the loop of [cleanupIdleSessions]. *)
Definition cleanup_entry (now : Z) (sessionId : string) (ref : nat) (m : t) : t :=
  match heap m !! ref with
  | Some session =>
      if idle_expired now session then
        mk (config m) (alter TerminalSession.kill ref (heap m))
           (delete sessionId (sessions m))
      else m
  | None => m
  end.

(** [cleanupIdleSessions()]: every entry of the map is visited once;
    deleting the entry being visited does not disturb the iteration. *)
Definition cleanupIdleSessions (now : Z) (m : t) : t :=
  map_fold (cleanup_entry now) m (sessions m).

(** What the loop has done once it has visited the entries [visited], on
    a manager that was [m] when the loop started. *)
Definition visited_inv (now : Z) (m : t) (r : t) (visited : gmap string nat) : Prop :=
  (forall sessionId,
     sessions r !! sessionId =
     match visited !! sessionId ≫= (fun ref => heap m !! ref) with
     | Some session =>
         if idle_expired now session then None else sessions m !! sessionId
     | None => sessions m !! sessionId
     end)
  /\ (forall ref,
        match heap m !! ref with
        | Some session =>
            exists session',
              heap r !! ref = Some session'
              /\ idle_expired now session' = idle_expired now session
              /\ (idle_expired now session = false -> session' = session)
        | None => heap r !! ref = None
        end).

(** [kill(sessionId)] *)
Definition kill (sessionId : string) (m : t) : bool * t :=
  match get sessionId m with
  | Some (ref, _) =>
      (true,
       mk (config m) (alter TerminalSession.kill ref (heap m))
          (delete sessionId (sessions m)))
  | None => (false, m)
  end.

(** [killAll()] *)
Definition killAll (m : t) : t :=
  mk (config m)
     (map_fold (fun _ ref h => alter TerminalSession.kill ref h) (heap m) (sessions m))
     ∅.

End TerminalManager.

(** ** JavaScript string operations used by the code below

    The characters of a [string] stand for the code units of the JavaScript
    string. *)

Module JsString.

(** The double quote character. *)
Definition dquote : ascii := ascii_of_nat 34.

(** The line feed character. *)
Definition newline : ascii := ascii_of_nat 10.

(** [s.startsWith(p)] *)
Definition startsWith (p s : string) : bool := String.prefix p s.

(** [s.includes(c)] for a one-character [c]. *)
Fixpoint includes (c : ascii) (s : string) : bool :=
  match s with
  | EmptyString => false
  | String a rest => Ascii.eqb a c || includes c rest
  end.

(** [s.slice(n)] for [n >= 0]. *)
Fixpoint slice (n : nat) (s : string) : string :=
  match n, s with
  | O, _ => s
  | S n', String _ rest => slice n' rest
  | S _, EmptyString => EmptyString
  end.

(** [s.split(sep)] for a one-character separator: the pieces between the
    separators, empty ones included; [''.split(sep)] is [['']]. *)
Fixpoint split (sep : ascii) (s : string) : list string :=
  match s with
  | EmptyString => [EmptyString]
  | String c rest =>
      if Ascii.eqb c sep then EmptyString :: split sep rest
      else match split sep rest with
           | piece :: pieces => String c piece :: pieces
           | [] => [String c EmptyString]
           end
  end.

(** [Boolean(s)] on a string. *)
Definition truthy (s : string) : bool :=
  match s with
  | EmptyString => false
  | String _ _ => true
  end.

(** [a || b] on optional strings. *)
Definition or_else (a b : option string) : option string :=
  match a with
  | Some (String _ _) => a
  | _ => b
  end.

(** The text put in place of a match by [String.prototype.replace] when the
    pattern is a string (no capture groups): in the replacement, [$$] stands
    for a dollar sign, [$&] for the matched text, [$`] for the text before the
    match and [$'] for the text after it; any other character, a dollar sign
    followed by anything else included, stands for itself. *)
Fixpoint substitution (matched before after replacement : string) : string :=
  match replacement with
  | EmptyString => EmptyString
  | String c rest =>
      if Ascii.eqb c "$"%char then
        match rest with
        | String d rest' =>
            if Ascii.eqb d "$"%char then
              String "$"%char (substitution matched before after rest')
            else if Ascii.eqb d "&"%char then
              matched +:+ substitution matched before after rest'
            else if Ascii.eqb d "`"%char then
              before +:+ substitution matched before after rest'
            else if Ascii.eqb d "'"%char then
              after +:+ substitution matched before after rest'
            else String "$"%char (substitution matched before after rest)
        | EmptyString => String "$"%char EmptyString
        end
      else String c (substitution matched before after rest)
  end.

(** [s.replace(c, replacement)] for a one-character string pattern [c]: the
    first occurrence is replaced; [before] is what precedes [s]. *)
Fixpoint replace_from (before : string) (c : ascii) (replacement s : string)
  : string :=
  match s with
  | EmptyString => EmptyString
  | String a rest =>
      if Ascii.eqb a c
      then substitution (String c EmptyString) before rest replacement +:+ rest
      else String a (replace_from (before +:+ String a EmptyString) c replacement rest)
  end.

Definition replace (c : ascii) (replacement s : string) : string :=
  replace_from EmptyString c replacement s.

End JsString.

(** ** WebSocketManager (websocket.ts): connection and terminal handlers *)

(** Messages of the server, as the terminal handlers read them. *)
Module SpawnMsg.
Record t := mk {
  sessionId : string;
  shell : option string;
  cols : option Z;
  rows : option Z;
  cwd : option string;
  idleTimeoutMs : option Z
}.
End SpawnMsg.

Module ReattachMsg.
Record t := mk {
  sessionId : string;
  cols : option Z;
  rows : option Z
}.
End ReattachMsg.

(** What a handler reads from the host while it runs: the clock, the outcome
    of [pty.spawn] and [os.homedir()]. *)
Record Env := mkEnv {
  now : Z;
  ptyResult : PtySpawn;
  osHomedir : string
}.

(** Messages passed to [socket.emit], in the order of the calls. The payload
    of [system:info] and [heartbeat] is host information and is left out. *)
Inductive OutMsg :=
| SystemInfo
| Heartbeat
| TerminalOutput (sessionId data : string)
| TerminalClosed (sessionId : string) (exitCode : Z)
| TerminalError (sessionId error : string)
| TerminalScrollback (sessionId data : string).

(** State of the promise returned by [connect()]. *)
Inductive Settled :=
| Pending
| Resolved
| Rejected (attempts : Z) (message : string).

Module WebSocketManager.

Record t := mk {
  config : AgentConfig;
  socket : bool;                 (* [this.socket] is not [null] *)
  terminalManager : TerminalManager.t;
  reconnectAttempts : Z;
  heartbeatTimer : bool;         (* [this.heartbeatTimer] is not [null] *)
  isConnected : bool;
  outbox : list OutMsg;          (* what was given to [socket.emit] *)
  connectPromise : Settled;
  reconnectTimers : list Z;      (* delays given to [setTimeout] *)
  socketConnects : nat           (* calls of [socket.connect()] *)
}.

Definition set_terminalManager (tm : TerminalManager.t) (w : t) : t :=
  mk (config w) (socket w) tm (reconnectAttempts w) (heartbeatTimer w)
     (isConnected w) (outbox w) (connectPromise w) (reconnectTimers w)
     (socketConnects w).

Definition set_socket (b : bool) (w : t) : t :=
  mk (config w) b (terminalManager w) (reconnectAttempts w) (heartbeatTimer w)
     (isConnected w) (outbox w) (connectPromise w) (reconnectTimers w)
     (socketConnects w).

Definition set_reconnectAttempts (n : Z) (w : t) : t :=
  mk (config w) (socket w) (terminalManager w) n (heartbeatTimer w)
     (isConnected w) (outbox w) (connectPromise w) (reconnectTimers w)
     (socketConnects w).

Definition set_heartbeatTimer (b : bool) (w : t) : t :=
  mk (config w) (socket w) (terminalManager w) (reconnectAttempts w) b
     (isConnected w) (outbox w) (connectPromise w) (reconnectTimers w)
     (socketConnects w).

Definition set_isConnected (b : bool) (w : t) : t :=
  mk (config w) (socket w) (terminalManager w) (reconnectAttempts w)
     (heartbeatTimer w) b (outbox w) (connectPromise w) (reconnectTimers w)
     (socketConnects w).

Definition set_outbox (o : list OutMsg) (w : t) : t :=
  mk (config w) (socket w) (terminalManager w) (reconnectAttempts w)
     (heartbeatTimer w) (isConnected w) o (connectPromise w)
     (reconnectTimers w) (socketConnects w).

Definition set_connectPromise (p : Settled) (w : t) : t :=
  mk (config w) (socket w) (terminalManager w) (reconnectAttempts w)
     (heartbeatTimer w) (isConnected w) (outbox w) p (reconnectTimers w)
     (socketConnects w).

Definition set_reconnectTimers (l : list Z) (w : t) : t :=
  mk (config w) (socket w) (terminalManager w) (reconnectAttempts w)
     (heartbeatTimer w) (isConnected w) (outbox w) (connectPromise w) l
     (socketConnects w).

Definition set_socketConnects (n : nat) (w : t) : t :=
  mk (config w) (socket w) (terminalManager w) (reconnectAttempts w)
     (heartbeatTimer w) (isConnected w) (outbox w) (connectPromise w)
     (reconnectTimers w) n.

(** The manager as constructed, once [connect()] has created the socket. *)
Definition new (config : AgentConfig) (tm : TerminalManager.t) : t :=
  mk config true tm 0 false false [] Pending [] 0%nat.

(** [this.socket?.emit(...)] *)
Definition emit (msg : OutMsg) (w : t) : t :=
  if socket w then set_outbox (outbox w ++ [msg]) w else w.

(** A method call on a session object of the terminal manager. *)
Definition on_session (ref : nat)
    (f : TerminalSession.t -> TerminalSession.t) (w : t) : t :=
  set_terminalManager (TerminalManager.update ref f (terminalManager w)) w.

(** [resolve()] and [reject(...)]: a settled promise stays as it is. *)
Definition settle (p : Settled) (w : t) : t :=
  match connectPromise w with
  | Pending => set_connectPromise p w
  | _ => w
  end.

Definition sendSystemInfo (w : t) : t := emit SystemInfo w.

Definition stopHeartbeat (w : t) : t :=
  if heartbeatTimer w then set_heartbeatTimer false w else w.

Definition startHeartbeat (w : t) : t :=
  set_heartbeatTimer true (stopHeartbeat w).

(** The callback of the heartbeat interval. *)
Definition heartbeatTick (w : t) : t :=
  if negb (isConnected w) then w else emit Heartbeat w.

(** [socket.on('connect', ...)] (lines 51-63) *)
Definition onConnect (w : t) : t :=
  settle Resolved
    (startHeartbeat
      (sendSystemInfo
        (set_reconnectAttempts 0 (set_isConnected true w)))).

(** [socket.on('connect_error', ...)] (lines 65-74) *)
Definition onConnectError (errMessage : string) (w : t) : t :=
  let w1 := set_reconnectAttempts (reconnectAttempts w + 1) w in
  if (reconnectAttempts w1 >=? 5) && negb (isConnected w1)
  then settle (Rejected (reconnectAttempts w1) errMessage) w1
  else w1.

(** [socket.on('disconnect', ...)] (lines 76-95) *)
Definition onDisconnect (reason : string) (w : t) : t :=
  let w1 := stopHeartbeat (set_isConnected false w) in
  if bool_decide (reason = "io server disconnect")
     || bool_decide (reason = "io client disconnect")
  then
    let delay :=
      if bool_decide (reason = "io client disconnect") then 2000 else 1000 in
    set_reconnectTimers (reconnectTimers w1 ++ [delay]) w1
  else w1.

(** The callback given to [setTimeout] by the disconnect handler. *)
Definition reconnectTimer (w : t) : t :=
  if negb (isConnected w) && socket w
  then set_socketConnects (S (socketConnects w)) w
  else w.

(** [socket.on('reconnect', ...)] (lines 97-101) *)
Definition onReconnect (w : t) : t := startHeartbeat (sendSystemInfo w).

(** [socket.disconnect()] of socket.io-client: a connected socket closes
    with the reason ['io client disconnect'] and runs its ['disconnect']
    listener before the call returns; a socket that is not connected runs no
    listener. The socket is connected from its ['connect'] event to its
    ['disconnect'] event, which is when [isConnected] holds. *)
Definition socket_disconnect (w : t) : t :=
  if isConnected w then onDisconnect "io client disconnect" w else w.

(** [disconnect()] (lines 996-1001) *)
Definition disconnect (w : t) : t :=
  let w1 := stopHeartbeat w in
  let w2 := if socket w1 then socket_disconnect w1 else w1 in
  set_isConnected false (set_socket false w2).

(** The closures registered on a session, applied. *)
Definition applyData (callback : DataCallback) (data : string) (w : t) : t :=
  match callback with
  | ForwardOutput sessionId => emit (TerminalOutput sessionId data) w
  end.

Definition applyExit (callback : ExitCallback) (exitCode : Z) (w : t) : t :=
  match callback with
  | ForwardClosed sessionId =>
      let w1 := emit (TerminalClosed sessionId exitCode) w in
      set_terminalManager
        (TerminalManager.remove sessionId (terminalManager w1)).2 w1
  end.

(** What a forwarder gives to [socket.emit]. *)
Definition forwarded (data : string) (callback : DataCallback) : OutMsg :=
  match callback with
  | ForwardOutput sessionId => TerminalOutput sessionId data
  end.

Definition closed (exitCode : Z) (callback : ExitCallback) : OutMsg :=
  match callback with
  | ForwardClosed sessionId => TerminalClosed sessionId exitCode
  end.

(** The listener wired on the PTY by [spawn] (terminal.ts, lines 122-128):
    write to the scrollback, then call every data callback. *)
Definition ptyOnData (ref : nat) (data : string) (w : t) : t :=
  match TerminalManager.heap (terminalManager w) !! ref with
  | None => w
  | Some session =>
      foldl (fun acc callback => applyData callback data acc)
        (on_session ref (TerminalSession.record_output data) w)
        (TerminalSession.dataCallbacks session)
  end.

(** The exit listener wired by [spawn] (terminal.ts, lines 131-138). *)
Definition ptyOnExit (ref : nat) (exitCode : Z) (w : t) : t :=
  match TerminalManager.heap (terminalManager w) !! ref with
  | None => w
  | Some session =>
      foldl (fun acc callback => applyExit callback exitCode acc) w
        (TerminalSession.exitCallbacks session)
  end.

(** [if (expanded === '~' || expanded.startsWith('~/'))
      expanded = expanded.replace('~', os.homedir())] (lines 150-152) *)
Definition expand_home (home cwd : string) : string :=
  if bool_decide (cwd = "~") || JsString.startsWith "~/" cwd
  then JsString.replace "~"%char home cwd
  else cwd.

(** [terminal:spawn] (lines 134-193) *)
Definition onTerminalSpawn (env : Env) (msg : SpawnMsg.t) (w : t) : t :=
  let sessionId := SpawnMsg.sessionId msg in
  let cwd :=
    match SpawnMsg.cwd msg with
    | None | Some EmptyString => cfgHomeDir (config w)
    | Some given => expand_home (osHomedir env) given
    end in
  match TerminalManager.spawn sessionId
          (orString (SpawnMsg.shell msg) (cfgShell (config w)))
          (orZ (SpawnMsg.cols msg) 80) (orZ (SpawnMsg.rows msg) 24)
          (Some cwd) (SpawnMsg.idleTimeoutMs msg)
          (now env) (ptyResult env) (terminalManager w) with
  | (inr session, tm) =>
      on_session session (TerminalSession.onExit (ForwardClosed sessionId))
        (on_session session (TerminalSession.onData (ForwardOutput sessionId))
          (set_terminalManager tm w))
  | (inl err, tm) =>
      emit (TerminalError sessionId (message err)) (set_terminalManager tm w)
  end.

(** [terminal:input] (lines 196-210) *)
Definition onTerminalInput (sessionId data : string) (w : t) : t :=
  match TerminalManager.get sessionId (terminalManager w) with
  | Some (session, _) => on_session session (TerminalSession.write data) w
  | None => w
  end.

(** [terminal:resize] (lines 213-222) *)
Definition onTerminalResize (sessionId : string) (cols rows : Z) (w : t) : t :=
  match TerminalManager.get sessionId (terminalManager w) with
  | Some (session, _) => on_session session (TerminalSession.resize cols rows) w
  | None => w
  end.

(** [terminal:kill] (lines 225-229) *)
Definition onTerminalKill (sessionId : string) (w : t) : t :=
  set_terminalManager
    (TerminalManager.kill sessionId (terminalManager w)).2 w.

(** [terminal:detach] (lines 246-253) *)
Definition onTerminalDetach (env : Env) (sessionId : string) (w : t) : t :=
  set_terminalManager
    (TerminalManager.detach (now env) sessionId (terminalManager w)).2 w.

(** [terminal:reattach] (lines 268-311) *)
Definition onTerminalReattach (msg : ReattachMsg.t) (w : t) : t :=
  let sessionId := ReattachMsg.sessionId msg in
  match TerminalManager.reattach sessionId (terminalManager w) with
  | (None, _) => emit (TerminalError sessionId "Session not found") w
  | (Some scrollback, tm) =>
      let w1 :=
        emit (TerminalScrollback sessionId scrollback)
          (set_terminalManager tm w) in
      match TerminalManager.get sessionId (terminalManager w1) with
      | Some (session, _) =>
          let w2 :=
            on_session session (TerminalSession.onData (ForwardOutput sessionId))
              (on_session session TerminalSession.clearDataCallbacks w1) in
          if truthyZ (ReattachMsg.cols msg) && truthyZ (ReattachMsg.rows msg)
          then on_session session
                 (TerminalSession.resize
                    (default 0 (ReattachMsg.cols msg))
                    (default 0 (ReattachMsg.rows msg))) w2
          else w2
      | None => w1
      end
  end.

(** The tick of the interval set by the constructor of the terminal
    manager (terminal.ts, line 87). *)
Definition idleCheck (env : Env) (w : t) : t :=
  set_terminalManager
    (TerminalManager.cleanupIdleSessions (now env) (terminalManager w)) w.

(** Everything that can run a piece of the modelled code: events of the
    socket, messages of the server, timers, and events of a PTY. *)
Inductive Event :=
| Connect
| ConnectError (errMessage : string)
| Disconnect (reason : string)
| Reconnect
| ReconnectTimer
| HeartbeatTick
| TerminalSpawn (msg : SpawnMsg.t)
| TerminalInput (sessionId data : string)
| TerminalResize (sessionId : string) (cols rows : Z)
| TerminalKill (sessionId : string)
| TerminalDetach (sessionId : string)
| TerminalReattach (msg : ReattachMsg.t)
| IdleCheck
| PtyData (ref : nat) (data : string)
| PtyExit (ref : nat) (exitCode : Z).

Definition handle (env : Env) (ev : Event) (w : t) : t :=
  match ev with
  | Connect => onConnect w
  | ConnectError errMessage => onConnectError errMessage w
  | Disconnect reason => onDisconnect reason w
  | Reconnect => onReconnect w
  | ReconnectTimer => reconnectTimer w
  | HeartbeatTick => heartbeatTick w
  | TerminalSpawn msg => onTerminalSpawn env msg w
  | TerminalInput sessionId data => onTerminalInput sessionId data w
  | TerminalResize sessionId cols rows => onTerminalResize sessionId cols rows w
  | TerminalKill sessionId => onTerminalKill sessionId w
  | TerminalDetach sessionId => onTerminalDetach env sessionId w
  | TerminalReattach msg => onTerminalReattach msg w
  | IdleCheck => idleCheck env w
  | PtyData ref data => ptyOnData ref data w
  | PtyExit ref exitCode => ptyOnExit ref exitCode w
  end.

(** A run: each event comes with what the host returns while it is
    handled. *)
Definition run (evs : list (Env * Event)) (w : t) : t :=
  foldl (fun acc '(env, ev) => handle env ev acc) w evs.

(** Number of [system:info] announcements among emitted messages. *)
Definition isSystemInfo (msg : OutMsg) : bool :=
  match msg with
  | SystemInfo => true
  | _ => false
  end.

Definition announcements (msgs : list OutMsg) : nat :=
  length (List.filter isSystemInfo msgs).

(** Number of [connect] events of the socket in a run. *)
Definition isConnect (ev : Event) : bool :=
  match ev with
  | Connect => true
  | _ => false
  end.

Definition connects (evs : list (Env * Event)) : nat :=
  length (List.filter (fun e => isConnect e.2) evs).

(** Two states of the manager with the same socket, the same connection
    flag and as many announcements sent. *)
Definition same_link (w w' : t) : Prop :=
  socket w' = socket w
  /\ isConnected w' = isConnected w
  /\ announcements (outbox w') = announcements (outbox w).

End WebSocketManager.

(** ** Concrete states used to exercise the statements *)

Module Examples.

Definition cfg : AgentConfig := mkConfig "/bin/sh" "/home/u".

Definition at_time (now : Z) : Env := mkEnv now PtySpawned "/home/u".

Definition spawn_s1 : SpawnMsg.t :=
  SpawnMsg.mk "s1" (Some "/bin/sh") (Some 80) (Some 24) (Some "/home/u")
    (Some 5000).

(** A manager whose registry holds one session, ["s1"], spawned by the
    [terminal:spawn] handler (output and exit forwarders registered). *)
Definition connected : WebSocketManager.t :=
  WebSocketManager.onTerminalSpawn (at_time 1000) spawn_s1
    (WebSocketManager.onConnect
       (WebSocketManager.new cfg (TerminalManager.new cfg))).

Definition one_session : TerminalManager.t :=
  WebSocketManager.terminalManager connected.

(** The session object of ["s1"] in [one_session]; its reference is 0. *)
Definition s1 : TerminalSession.t :=
  TerminalSession.mk (mkPty "/bin/sh" 80 24 "/home/u" []) "s1" attached
    (ScrollbackBuffer.new ScrollbackBuffer.default_maxSize) 1000 None
    "/bin/sh" 80 24 5000 [ForwardOutput "s1"] [ForwardClosed "s1"].


(** ["s1"] detached when the clock reads 1000. *)
Definition detached_once : TerminalManager.t :=
  (TerminalManager.detach 1000 "s1" one_session).2.

(** ["s1"] killed by a [terminal:kill] message. *)
Definition killed : WebSocketManager.t :=
  WebSocketManager.onTerminalKill "s1" connected.

End Examples.

(** ** Three statements of the specification, word for word

    Each is compared below with what the code does. *)

Module AsStated.

(** What a caller can observe of a session across a [detach]. *)
Definition observable (s : TerminalSession.t)
  : SessionState * option Z * list DataCallback * ScrollbackBuffer.t :=
  (TerminalSession.state s, TerminalSession.detachedAt s,
   TerminalSession.dataCallbacks s, TerminalSession.scrollback s).

(** "[detach] on a session that is already Detached returns the same result
    as the first detach and leaves the state, [detachedAt], the subscriber
    list and the scrollback unchanged." *)
Definition detach_idempotent
    (m : TerminalManager.t) (sessionId : string) (now : Z) : Prop :=
  forall ref s,
    TerminalManager.get sessionId m = Some (ref, s) ->
    TerminalSession.state s = detached ->
    (TerminalManager.detach now sessionId m).1 = true
    /\ exists s',
         TerminalManager.get sessionId (TerminalManager.detach now sessionId m).2
         = Some (ref, s')
         /\ observable s' = observable s.

(** "No further output or exit callbacks fire for S after the kill":
    whatever the PTY of S still delivers, nothing is forwarded. *)
Definition silent_after_kill
    (w : WebSocketManager.t) (sessionId : string) : Prop :=
  forall ref s,
    TerminalManager.get sessionId (WebSocketManager.terminalManager w)
    = Some (ref, s) ->
    let w' := WebSocketManager.onTerminalKill sessionId w in
    (forall data,
       WebSocketManager.outbox (WebSocketManager.ptyOnData ref data w')
       = WebSocketManager.outbox w')
    /\ (forall exitCode,
          WebSocketManager.outbox (WebSocketManager.ptyOnExit ref exitCode w')
          = WebSocketManager.outbox w').

(** "state = Detached and idleTimeoutMs > 0 and
     now − detachedAt > idleTimeoutMs" *)
Definition reaper_condition (now : Z) (s : TerminalSession.t) : Prop :=
  TerminalSession.state s = detached
  /\ TerminalSession.idleTimeoutMs s > 0
  /\ exists at_,
       TerminalSession.detachedAt s = Some at_
       /\ now - at_ > TerminalSession.idleTimeoutMs s.


End AsStated.

(** ** TerminalManager: listing and counting
       (terminal.ts, lines 217-234 and 315-327) *)

Module SessionInfo.

Record t := mk {
  sessionId : string;
  state : SessionState;
  shell : string;
  cols : Z;
  rows : Z;
  createdAt : Z;
  detachedAt : option Z
}.

End SessionInfo.

Module TerminalQueries.

(** Order of two entries of the map. A [Map] iterates in insertion order;
    [spawn] is the only code that inserts, always under a key that is absent
    and with a reference larger than every earlier one, so the insertion
    order of the entries is the order of their references. *)
Definition by_ref (a b : string * nat) : Prop := (a.2 <= b.2)%nat.

#[global] Instance by_ref_dec : RelDecision by_ref :=
  fun a b => decide (a.2 <= b.2)%nat.

(** The entries of [this.sessions], in iteration order. *)
Definition entries (m : TerminalManager.t) : list (string * nat) :=
  merge_sort by_ref (map_to_list (TerminalManager.sessions m)).

(** The object pushed by the loop of [listSessions] for one session. *)
Definition info_of (session : TerminalSession.t) : SessionInfo.t :=
  SessionInfo.mk (TerminalSession.sessionId session)
    (TerminalSession.state session) (TerminalSession.shell session)
    (TerminalSession.cols session) (TerminalSession.rows session)
    (TerminalSession.createdAt session) (TerminalSession.detachedAt session).

(** [listSessions()] *)
Definition listSessions (m : TerminalManager.t) : list SessionInfo.t :=
  omap (fun e => info_of <$> TerminalManager.heap m !! e.2) (entries m).

(** [get count()] is [this.sessions.size]. *)
Definition count (m : TerminalManager.t) : nat :=
  size (TerminalManager.sessions m).

(** [get sessionIds()] is [Array.from(this.sessions.keys())]. *)
Definition sessionIds (m : TerminalManager.t) : list string :=
  (entries m).*1.

End TerminalQueries.

(** ** The wiring of the sessions of the registry

    What the handlers of websocket.ts establish for every session they
    leave in the registry. *)

Module Wiring.

(** The session object registered under [sessionId]: it carries that id, has
    the exit forwarder as its only exit callback, a scrollback buffer of the
    default size whose size field is right, and the output forwarder as its
    only data callback exactly when it is attached. *)
Definition session_wired (sessionId : string) (s : TerminalSession.t) : Prop :=
  TerminalSession.sessionId s = sessionId
  /\ TerminalSession.exitCallbacks s = [ForwardClosed sessionId]
  /\ ScrollbackBuffer.accounted (TerminalSession.scrollback s)
  /\ ScrollbackBuffer.maxSize (TerminalSession.scrollback s)
     = ScrollbackBuffer.default_maxSize
  /\ match TerminalSession.state s with
     | attached =>
         TerminalSession.dataCallbacks s = [ForwardOutput sessionId]
         /\ TerminalSession.detachedAt s = None
     | detached =>
         TerminalSession.dataCallbacks s = []
         /\ is_Some (TerminalSession.detachedAt s)
     end.

Definition registry_wired (m : TerminalManager.t) : Prop :=
  forall sessionId ref,
    TerminalManager.sessions m !! sessionId = Some ref ->
    exists s, TerminalManager.heap m !! ref = Some s /\ session_wired sessionId s.

(** Calls that leave the wiring of a session alone. *)
Definition keeps_wiring (f : TerminalSession.t -> TerminalSession.t) : Prop :=
  forall sessionId s, session_wired sessionId s -> session_wired sessionId (f s).

(** The manager when [connect()] has created the socket and nothing has
    happened yet. *)
Definition fresh (config : AgentConfig) : WebSocketManager.t :=
  WebSocketManager.new config (TerminalManager.new config).

(** The [shutdown] function of index.ts:
    [terminalManager.killAll(); wsManager.disconnect()]. *)
Definition shutdown (w : WebSocketManager.t) : WebSocketManager.t :=
  WebSocketManager.disconnect
    (WebSocketManager.set_terminalManager
       (TerminalManager.killAll (WebSocketManager.terminalManager w)) w).

(** The session object left by the [terminal:reattach] handler. *)
Definition reattached (msg : ReattachMsg.t) (s : TerminalSession.t)
  : TerminalSession.t :=
  let s1 :=
    TerminalSession.onData (ForwardOutput (ReattachMsg.sessionId msg))
      (TerminalSession.clearDataCallbacks
         (TerminalSession.set_attachment attached None s)) in
  if truthyZ (ReattachMsg.cols msg) && truthyZ (ReattachMsg.rows msg)
  then TerminalSession.resize (default 0 (ReattachMsg.cols msg))
         (default 0 (ReattachMsg.rows msg)) s1
  else s1.

(** [n] calls of [kill()] on a session. *)
Definition killed_times (n : nat) (s : TerminalSession.t) : TerminalSession.t :=
  Nat.iter n TerminalSession.kill s.

End Wiring.

(** ** The connection side of the manager *)

Module Link.

(** Everything the connection code keeps, apart from what was emitted. *)
Definition connection_state (w : WebSocketManager.t)
  : bool * bool * bool * Settled * Z * list Z * nat :=
  (WebSocketManager.socket w, WebSocketManager.isConnected w,
   WebSocketManager.heartbeatTimer w, WebSocketManager.connectPromise w,
   WebSocketManager.reconnectAttempts w, WebSocketManager.reconnectTimers w,
   WebSocketManager.socketConnects w).

(** Events of the socket and of the two connection timers, as opposed to
    messages for the terminal manager, ticks of the reaper and PTY events. *)
Definition is_connection_event (ev : WebSocketManager.Event) : bool :=
  match ev with
  | WebSocketManager.Connect
  | WebSocketManager.ConnectError _
  | WebSocketManager.Disconnect _
  | WebSocketManager.Reconnect
  | WebSocketManager.ReconnectTimer
  | WebSocketManager.HeartbeatTick => true
  | _ => false
  end.

(** A run of [connect_error] events. *)
Definition connect_errors (errs : list string) (w : WebSocketManager.t)
  : WebSocketManager.t :=
  foldl (fun acc err => WebSocketManager.onConnectError err acc) w errs.

End Link.

(** ** [resolveGitCwd] (websocket.ts, lines 540-546) *)

Module GitCwd.

(** [cwd === '~' || cwd.startsWith('~/')] *)
Definition is_home_relative (cwd : string) : bool :=
  bool_decide (cwd = "~") || JsString.startsWith "~/" cwd.

(** [msg.cwd || msg.path || os.homedir()] *)
Definition chosen (home : string) (cwd path : option string) : string :=
  default home (JsString.or_else (JsString.or_else cwd path) (Some home)).

Definition resolveGitCwd (home : string) (cwd path : option string) : string :=
  let c := chosen home cwd path in
  if is_home_relative c then JsString.replace "~"%char home c else c.

End GitCwd.

(** ** [createConfig] (config.ts) *)

Module Config.

(** The options of the command line. *)
Record Options := mkOptions {
  optToken : option string;
  optServerUrl : option string;
  optDebug : option bool
}.

(** What [createConfig] reads from the process and the host. *)
Record Host := mkHost {
  CLOUDFORGE_TOKEN : option string;
  CLOUDFORGE_SERVER_URL : option string;
  CLOUDFORGE_DEBUG : option string;
  SHELL : option string;
  COMSPEC : option string;
  platform : string;
  homedir : string
}.

Record t := mk {
  token : string;
  serverUrl : string;
  heartbeatInterval : Z;
  reconnectDelay : Z;
  maxReconnectDelay : Z;
  shell : string;
  homeDir : string;
  debug : bool
}.

Definition DEFAULT_SERVER_URL : string := "https://cloud-forge.me".
Definition DEFAULT_HEARTBEAT_INTERVAL : Z := 30000.
Definition DEFAULT_RECONNECT_DELAY : Z := 1000.
Definition MAX_RECONNECT_DELAY : Z := 30000.

(** The class [[a-f0-9]]. *)
Definition is_token_char (c : ascii) : bool :=
  let n := nat_of_ascii c in
  ((97 <=? n) && (n <=? 102) || (48 <=? n) && (n <=? 57))%nat.

(** [/^cf_[a-f0-9]{32}$/.test(token)] *)
Definition valid_token (token : string) : bool :=
  match token with
  | String "c"%char (String "f"%char (String "_"%char rest)) =>
      (String.length rest =? 32)%nat
      && forallb is_token_char (String.list_ascii_of_string rest)
  | _ => false
  end.

(** [getDefaultShell()] *)
Definition getDefaultShell (host : Host) : string :=
  if bool_decide (platform host = "win32")
  then orString (COMSPEC host) "cmd.exe"
  else orString (SHELL host) "/bin/bash".

(** [createConfig(options)]: the configuration, or the exception thrown. *)
Definition createConfig (options : Options) (host : Host) : Error + t :=
  match JsString.or_else (optToken options) (CLOUDFORGE_TOKEN host) with
  | Some (String c rest) =>
      let token := String c rest in
      if valid_token token then
        inr (mk token
               (default DEFAULT_SERVER_URL
                  (JsString.or_else
                     (JsString.or_else (optServerUrl options)
                        (CLOUDFORGE_SERVER_URL host))
                     (Some DEFAULT_SERVER_URL)))
               DEFAULT_HEARTBEAT_INTERVAL DEFAULT_RECONNECT_DELAY
               MAX_RECONNECT_DELAY
               (getDefaultShell host) (homedir host)
               (default false (optDebug options)
                || bool_decide (CLOUDFORGE_DEBUG host = Some "true")))
      else
        inl (mkError
               ("Invalid token format. Token should start with "
                +:+ String JsString.dquote ("cf_" +:+ String JsString.dquote
                      " followed by 32 hex characters.")))
  | _ =>
      inl (mkError "Agent token is required. Use --token flag or set CLOUDFORGE_TOKEN environment variable.")
  end.

End Config.

(** ** Parsing the output of git (git.ts) *)

Module Git.

(** [out.split('\n').filter(Boolean)] *)
Definition lines (out : string) : list string :=
  List.filter JsString.truthy (JsString.split JsString.newline out).

(** [x === c] for a character [x] that may be [undefined]. *)
Definition is_char (c : ascii) (x : option ascii) : bool :=
  match x with
  | Some a => Ascii.eqb a c
  | None => false
  end.

Record StatusLists := mkLists {
  modified : list string;
  staged : list string;
  untracked : list string
}.

(** The body of the loop over the lines of [git status --porcelain -u]
    (lines 116-135). *)
Definition classify (acc : StatusLists) (line : string) : StatusLists :=
  let indexStatus := String.get 0 line in
  let workingStatus := String.get 1 line in
  let file := JsString.slice 3 line in
  let staged' :=
    if negb (is_char " "%char indexStatus) && negb (is_char "?"%char indexStatus)
    then staged acc ++ [file] else staged acc in
  let modified' :=
    if is_char "M"%char workingStatus || is_char "D"%char workingStatus
    then modified acc ++ [file] else modified acc in
  let untracked' :=
    if is_char "?"%char indexStatus && is_char "?"%char workingStatus
    then untracked acc ++ [file] else untracked acc in
  mkLists modified' staged' untracked'.

(** The three lists computed by [status] from the output of
    [git status --porcelain -u]. *)
Definition status_lists (statusOut : string) : StatusLists :=
  foldl classify (mkLists [] [] []) (lines statusOut).

(** One entry of the porcelain format: the two status letters, a space,
    the path, a line feed. *)
Record Entry := mkEntry {
  index_letter : ascii;
  worktree_letter : ascii;
  path : string
}.

Definition render (e : Entry) : string :=
  String (index_letter e) (String (worktree_letter e) (String " "%char (path e)))
  +:+ String JsString.newline EmptyString.

Definition porcelain (entries : list Entry) : string :=
  foldr (fun e out => render e +:+ out) EmptyString entries.

Definition is_staged (e : Entry) : bool :=
  negb (Ascii.eqb (index_letter e) " "%char) && negb (Ascii.eqb (index_letter e) "?"%char).

Definition is_modified (e : Entry) : bool :=
  Ascii.eqb (worktree_letter e) "M"%char || Ascii.eqb (worktree_letter e) "D".

Definition is_untracked (e : Entry) : bool :=
  Ascii.eqb (index_letter e) "?"%char && Ascii.eqb (worktree_letter e) "?".

(** A commit as [log] returns it: a field is [undefined] when the line has
    too few separators. *)
Record GitLog := mkLog {
  hash : option string;
  shortHash : option string;
  author : option string;
  date : option string;
  message : option string
}.

(** [line => { const [hash, shortHash, author, date, message] =
     line.split('|'); return {...} }] (lines 302-305) *)
Definition parse_log_line (line : string) : GitLog :=
  let fields := JsString.split "|"%char line in
  mkLog (fields !! 0%nat) (fields !! 1%nat) (fields !! 2%nat) (fields !! 3%nat)
    (fields !! 4%nat).

(** A line of [git log --format=%H|%h|%an|%aI|%s]. *)
Definition log_line (h sh a d subject : string) : string :=
  h +:+ String "|"%char (sh +:+ String "|"%char (a +:+ String "|"%char (d +:+ String "|"%char subject))).

End Git.

(** ** Facts about strings and chunk lists *)

Lemma strlen_nonneg s : 0 <= strlen s.
Proof. unfold strlen. lia. Qed.

Lemma strlen_append s1 s2 : strlen (s1 +:+ s2) = strlen s1 + strlen s2.
Proof.
  unfold strlen. rewrite <- Nat2Z.inj_add. f_equal.
  induction s1 as [|c s1 IH]; simpl; [done|]. by rewrite IH.
Qed.

Lemma chunks_size_nonneg l : 0 <= chunks_size l.
Proof.
  unfold chunks_size. induction l as [|c l IH]; simpl; [lia|].
  pose proof (strlen_nonneg c). lia.
Qed.

Lemma chunks_size_app l1 l2 :
  chunks_size (l1 ++ l2) = chunks_size l1 + chunks_size l2.
Proof. unfold chunks_size. induction l1 as [|c l1 IH]; simpl; lia. Qed.

Lemma append_cons a s1 s2 : String a s1 +:+ s2 = String a (s1 +:+ s2).
Proof. reflexivity. Qed.

Lemma append_assoc s1 s2 s3 : (s1 +:+ s2) +:+ s3 = s1 +:+ (s2 +:+ s3).
Proof.
  induction s1 as [|a s1 IH]; [done|].
  by rewrite !append_cons, IH.
Qed.

Lemma join_app l1 l2 : join (l1 ++ l2) = join l1 +:+ join l2.
Proof.
  induction l1 as [|c l1 IH]; simpl; [done|].
  by rewrite IH, append_assoc.
Qed.

Lemma strlen_join l : strlen (join l) = chunks_size l.
Proof.
  unfold chunks_size. induction l as [|c l IH]; simpl; [done|].
  rewrite strlen_append. lia.
Qed.

(** ** Facts about the eviction loop *)

Section Trim.
Import ScrollbackBuffer.

Variable cap : Z.

(** One turn of the loop, on a buffer of at least two chunks. *)
Lemma trim_cons c c' l n :
  trim cap (c :: c' :: l) n =
  if n >? cap then trim cap (c' :: l) (n - strlen c) else (c :: c' :: l, n).
Proof. reflexivity. Qed.

Lemma chunks_size_cons c l : chunks_size (c :: l) = strlen c + chunks_size l.
Proof. reflexivity. Qed.

(** The loop keeps the size field equal to the size of what is kept. *)
Lemma trim_size l n :
  n = chunks_size l -> (trim cap l n).2 = chunks_size (trim cap l n).1.
Proof.
  revert n. induction l as [|c l IH]; intros n Hn; [done|].
  destruct l as [|c' l]; [done|].
  rewrite trim_cons. destruct (n >? cap) eqn:E; [|done].
  apply IH. rewrite Hn, (chunks_size_cons c). lia.
Qed.

(** The loop drops a prefix of whole chunks. *)
Lemma trim_suffix l n : exists k : nat, (trim cap l n).1 = drop k l.
Proof.
  revert n. induction l as [|c l IH]; intros n; [by exists 0%nat|].
  destruct l as [|c' l]; [by exists 0%nat|].
  rewrite trim_cons. destruct (n >? cap); [|by exists 0%nat].
  destruct (IH (n - strlen c)) as [k Hk]. exists (S k). by rewrite Hk.
Qed.

(** The loop never empties a non-empty buffer, and keeps its last chunk. *)
Lemma trim_last l n x : last l = Some x -> last (trim cap l n).1 = Some x.
Proof.
  revert n. induction l as [|c l IH]; intros n Hl; [done|].
  destruct l as [|c' l]; [done|].
  rewrite trim_cons. destruct (n >? cap); [|done].
  apply IH. by rewrite last_cons_cons in Hl.
Qed.

(** On exit the loop condition is false. *)
Lemma trim_exit l n :
  (trim cap l n).2 <= cap \/ (length (trim cap l n).1 <= 1)%nat.
Proof.
  revert n. induction l as [|c l IH]; intros n; [right; simpl; lia|].
  destruct l as [|c' l]; [right; simpl; lia|].
  rewrite trim_cons. destruct (n >? cap) eqn:E; [apply IH|].
  left. simpl. lia.
Qed.

(** Under the cap the loop body never runs. *)
Lemma trim_under l n : n <= cap -> trim cap l n = (l, n).
Proof.
  intros Hn. destruct l as [|c [|c' l]]; [done..|].
  rewrite trim_cons. destruct (n >? cap) eqn:E; [lia|done].
Qed.

End Trim.

(** ** ScrollbackBuffer: size accounting, eviction and contents *)

Section Scrollback.
Import ScrollbackBuffer.

Lemma write_unfold data b :
  write data b =
  mk (trim (maxSize b) (buffer b ++ [data]) (totalSize b + strlen data)).1
     (trim (maxSize b) (buffer b ++ [data]) (totalSize b + strlen data)).2
     (maxSize b).
Proof. unfold write. by destruct (trim _ _ _). Qed.

Lemma maxSize_step b o : maxSize (step b o) = maxSize b.
Proof. destruct o; simpl; [by rewrite write_unfold | done]. Qed.

Lemma maxSize_run ops b : maxSize (run ops b) = maxSize b.
Proof.
  revert b. induction ops as [|o ops IH]; intros b; [done|].
  unfold run in *. simpl. by rewrite IH, maxSize_step.
Qed.

Lemma accounted_new cap : accounted (new cap).
Proof. reflexivity. Qed.

Lemma accounted_write data b : accounted b -> accounted (write data b).
Proof.
  unfold accounted, retained. intros Hb. rewrite write_unfold. simpl.
  apply trim_size. rewrite chunks_size_app, Hb. unfold chunks_size. simpl. lia.
Qed.

Lemma accounted_step b o : accounted b -> accounted (step b o).
Proof. destruct o; [apply accounted_write | reflexivity]. Qed.

Lemma accounted_run ops b : accounted b -> accounted (run ops b).
Proof.
  revert b. induction ops as [|o ops IH]; intros b Hb; [done|].
  apply IH, accounted_step, Hb.
Qed.

(** While the chunks still fit, a run of writes appends them all. *)
Lemma writes_under_cap chunks b :
  accounted b ->
  retained b + chunks_size chunks <= maxSize b ->
  buffer (foldl (fun acc c => write c acc) b chunks) = buffer b ++ chunks.
Proof.
  revert b. induction chunks as [|c chunks IH]; intros b Hb Hfit.
  { simpl. by rewrite app_nil_r. }
  pose proof (chunks_size_nonneg chunks) as Hpos.
  pose proof (strlen_nonneg c) as Hc.
  rewrite chunks_size_cons in Hfit.
  assert (write c b = mk (buffer b ++ [c]) (totalSize b + strlen c) (maxSize b))
    as Hw.
  { rewrite write_unfold, trim_under; [done|]. rewrite Hb. lia. }
  simpl. rewrite IH.
  - rewrite Hw. simpl. by rewrite <- app_assoc.
  - by apply accounted_write.
  - rewrite Hw. unfold retained. simpl.
    rewrite chunks_size_app, (chunks_size_cons c []).
    unfold retained in Hfit. change (chunks_size []) with 0. lia.
Qed.

End Scrollback.

(** C10. Starting from a fresh buffer, after any sequence of [write] and
    [clear] calls the [totalSize] field equals the sum of the lengths of the
    retained chunks, which is the length of [getContents()]. *)
Theorem scrollback_totalSize_accounted (cap : Z) (ops : list ScrollbackBuffer.op) :
  let b := ScrollbackBuffer.run ops (ScrollbackBuffer.new cap) in
  ScrollbackBuffer.totalSize b = chunks_size (ScrollbackBuffer.buffer b)
  /\ ScrollbackBuffer.totalSize b = strlen (ScrollbackBuffer.getContents b).
Proof.
  intros b.
  assert (ScrollbackBuffer.accounted b) as Hb by apply accounted_run, accounted_new.
  split; [exact Hb|].
  unfold ScrollbackBuffer.getContents. by rewrite strlen_join.
Qed.

(** C2. After each [write] on a buffer obtained from a fresh one by any
    sequence of calls (cap not negative): the retained size is at most the
    cap or exactly one chunk is held; the retained size exceeds the cap by at
    most the length of the chunk just written; what is held is what was held
    before followed by the new chunk, minus some whole chunks at the oldest
    end; the chunk just written is always kept. *)
Theorem scrollback_write_bounded
    (cap : Z) (ops : list ScrollbackBuffer.op) (data : string) :
  0 <= cap ->
  let b := ScrollbackBuffer.run ops (ScrollbackBuffer.new cap) in
  let b' := ScrollbackBuffer.write data b in
  (ScrollbackBuffer.retained b' <= cap
     \/ length (ScrollbackBuffer.buffer b') = 1%nat)
  /\ ScrollbackBuffer.retained b' - cap <= strlen data
  /\ (exists k : nat,
        ScrollbackBuffer.buffer b'
        = drop k (ScrollbackBuffer.buffer b ++ [data]))
  /\ last (ScrollbackBuffer.buffer b') = Some data.
Proof.
  intros Hcap b b'.
  assert (ScrollbackBuffer.accounted b) as Hb by apply accounted_run, accounted_new.
  assert (ScrollbackBuffer.accounted b') as Hb' by by apply accounted_write.
  assert (ScrollbackBuffer.maxSize b = cap) as Hmax by apply maxSize_run.
  pose proof (strlen_nonneg data) as Hdata.
  unfold ScrollbackBuffer.accounted in Hb'. subst b'. rewrite write_unfold in *. simpl in *.
  rewrite Hmax in *.
  set (l := ScrollbackBuffer.buffer b ++ [data]) in *.
  set (n := ScrollbackBuffer.totalSize b + strlen data) in *.
  assert (last (ScrollbackBuffer.trim cap l n).1 = Some data) as Hlast.
  { apply trim_last. subst l. by rewrite last_snoc. }
  assert (ScrollbackBuffer.retained
            (ScrollbackBuffer.mk (ScrollbackBuffer.trim cap l n).1
               (ScrollbackBuffer.trim cap l n).2 cap)
          = (ScrollbackBuffer.trim cap l n).2) as Hret by by rewrite <- Hb'.
  rewrite Hret.
  assert ((ScrollbackBuffer.trim cap l n).2 <= cap
          \/ length (ScrollbackBuffer.trim cap l n).1 = 1%nat) as Hexit.
  { destruct (trim_exit cap l n) as [H|H]; [by left|right].
    destruct (ScrollbackBuffer.trim cap l n).1 as [|x [|y k]]; simpl in *;
      [done | done | lia]. }
  repeat split; [exact Hexit | | apply trim_suffix | exact Hlast].
  destruct Hexit as [H|H]; [lia|].
  rewrite Hb'.
  destruct (ScrollbackBuffer.trim cap l n).1 as [|x [|y k]]; simpl in *;
    try done.
  injection Hlast as ->.
  unfold ScrollbackBuffer.retained, chunks_size. simpl. lia.
Qed.

Lemma scrollback_write_bounded_witness :
  let b := ScrollbackBuffer.run
             [ScrollbackBuffer.Write "abc"; ScrollbackBuffer.Write "de"]
             (ScrollbackBuffer.new 4) in
  let b' := ScrollbackBuffer.write "fghijk" b in
  (ScrollbackBuffer.retained b' <= 4
     \/ length (ScrollbackBuffer.buffer b') = 1%nat)
  /\ ScrollbackBuffer.retained b' - 4 <= strlen "fghijk"
  /\ (exists k : nat,
        ScrollbackBuffer.buffer b'
        = drop k (ScrollbackBuffer.buffer b ++ ["fghijk"]))
  /\ last (ScrollbackBuffer.buffer b') = Some "fghijk".
Proof.
  apply (scrollback_write_bounded 4
           [ScrollbackBuffer.Write "abc"; ScrollbackBuffer.Write "de"] "fghijk").
  lia.
Defined.

(** C6. Chunks [c1 ... cn] written to a fresh buffer whose total size is at
    most the cap are all retained, one chunk each and in arrival order, and
    [getContents()] is their concatenation. *)
Theorem scrollback_lossless_under_cap (cap : Z) (chunks : list string) :
  chunks_size chunks <= cap ->
  let b := foldl (fun acc c => ScrollbackBuffer.write c acc)
             (ScrollbackBuffer.new cap) chunks in
  ScrollbackBuffer.buffer b = chunks
  /\ ScrollbackBuffer.getContents b = join chunks.
Proof.
  intros Hfit b.
  assert (ScrollbackBuffer.buffer b = chunks) as Hbuf.
  { subst b. rewrite writes_under_cap; [done | apply accounted_new |].
    unfold ScrollbackBuffer.retained. simpl. change (chunks_size []) with 0. lia. }
  split; [exact Hbuf|]. unfold ScrollbackBuffer.getContents. by rewrite Hbuf.
Qed.

Lemma scrollback_lossless_under_cap_witness :
  let b := foldl (fun acc c => ScrollbackBuffer.write c acc)
             (ScrollbackBuffer.new 8) ["ab"; "cde"; "f"] in
  ScrollbackBuffer.buffer b = ["ab"; "cde"; "f"]
  /\ ScrollbackBuffer.getContents b = join ["ab"; "cde"; "f"].
Proof.
  apply (scrollback_lossless_under_cap 8 ["ab"; "cde"; "f"]).
  vm_compute. discriminate.
Defined.

(** ** TerminalManager: lookups *)

Section Registry.
Import TerminalManager.

Lemma get_Some sessionId m ref session :
  get sessionId m = Some (ref, session)
  <-> sessions m !! sessionId = Some ref /\ heap m !! ref = Some session.
Proof.
  unfold get. destruct (sessions m !! sessionId) as [r|]; simpl.
  - destruct (heap m !! r) as [s|] eqn:E; simpl; split.
    + intros [= <- <-]. done.
    + intros [[= <-] H]. congruence.
    + done.
    + intros [[= <-] H]. congruence.
  - split; [done | intros [? _]; done].
Qed.

Lemma get_absent sessionId m :
  sessions m !! sessionId = None -> get sessionId m = None.
Proof. unfold get. by intros ->. Qed.

Lemma has_true sessionId m :
  has sessionId m = true <-> exists ref session, get sessionId m = Some (ref, session).
Proof.
  unfold has. destruct (get sessionId m) as [[r s]|]; split;
    [by eauto | done | done | by intros (? & ? & ?)].
Qed.

(** A call on the object behind [ref], seen through [get]. *)
Lemma get_update sessionId ref f m session :
  get sessionId m = Some (ref, session) ->
  get sessionId (update ref f m) = Some (ref, f session).
Proof.
  rewrite !get_Some. intros [Hs Hh]. split; [done|].
  simpl. by rewrite list_lookup_alter_eq, Hh.
Qed.

End Registry.

Lemma example_one_session :
  TerminalManager.get "s1" Examples.one_session = Some (0%nat, Examples.s1).
Proof. vm_compute. reflexivity. Qed.

(** C1. For a session of the registry, [detach] succeeds and leaves the
    scrollback buffer as it is, and a [reattach] right after it returns
    [getContents()] of that buffer: what [reattach] returns when the session
    was never detached. *)
Theorem detach_reattach_scrollback
    (m : TerminalManager.t) (sessionId : string) (ref : nat)
    (session : TerminalSession.t) (now : Z) :
  TerminalManager.get sessionId m = Some (ref, session) ->
  let m1 := (TerminalManager.detach now sessionId m).2 in
  (TerminalManager.detach now sessionId m).1 = true
  /\ (exists session1,
        TerminalManager.get sessionId m1 = Some (ref, session1)
        /\ TerminalSession.scrollback session1 = TerminalSession.scrollback session)
  /\ (TerminalManager.reattach sessionId m1).1
     = Some (ScrollbackBuffer.getContents (TerminalSession.scrollback session))
  /\ (TerminalManager.reattach sessionId m1).1
     = (TerminalManager.reattach sessionId m).1.
Proof.
  intros Hget m1.
  assert (TerminalManager.detach now sessionId m
          = (true,
             TerminalManager.update ref (TerminalManager.mark_detached now) m))
    as Hdetach.
  { unfold TerminalManager.detach. by rewrite Hget. }
  subst m1. rewrite Hdetach. simpl.
  pose proof (get_update _ _ (TerminalManager.mark_detached now) _ _ Hget)
    as Hget1.
  split; [done|]. split; [by eexists|].
  unfold TerminalManager.reattach. by rewrite Hget1, Hget.
Qed.

Lemma detach_reattach_scrollback_witness :
  let m1 := (TerminalManager.detach 2000 "s1" Examples.one_session).2 in
  (TerminalManager.detach 2000 "s1" Examples.one_session).1 = true
  /\ (exists session1,
        TerminalManager.get "s1" m1 = Some (0%nat, session1)
        /\ TerminalSession.scrollback session1
           = TerminalSession.scrollback Examples.s1)
  /\ (TerminalManager.reattach "s1" m1).1
     = Some (ScrollbackBuffer.getContents (TerminalSession.scrollback Examples.s1))
  /\ (TerminalManager.reattach "s1" m1).1
     = (TerminalManager.reattach "s1" Examples.one_session).1.
Proof.
  apply (detach_reattach_scrollback Examples.one_session "s1" 0 Examples.s1 2000).
  vm_compute. reflexivity.
Defined.

(** C4. [spawn] with a session id that is in the registry throws
    "Session <id> already exists" before anything else happens: the manager
    (every session object with its state, scrollback and PTY handle, and the
    registry) is returned as it was. The [terminal:spawn] handler reports the
    error and leaves the manager as it was. *)
Theorem spawn_duplicate_rejected
    (m : TerminalManager.t) (sessionId shell : string) (cols rows : Z)
    (cwd : option string) (idleTimeoutMs : option Z) (now : Z)
    (ptyResult : PtySpawn) :
  TerminalManager.has sessionId m = true ->
  TerminalManager.spawn sessionId shell cols rows cwd idleTimeoutMs now ptyResult m
  = (inl (mkError ("Session " +:+ sessionId +:+ " already exists")), m)
  /\ forall (env : Env) (msg : SpawnMsg.t) (w : WebSocketManager.t),
       WebSocketManager.terminalManager w = m ->
       SpawnMsg.sessionId msg = sessionId ->
       WebSocketManager.terminalManager (WebSocketManager.onTerminalSpawn env msg w) = m.
Proof.
  intros Hhas. split.
  - unfold TerminalManager.spawn. by rewrite Hhas.
  - intros env msg w <- Hid. unfold WebSocketManager.onTerminalSpawn.
    rewrite Hid. unfold TerminalManager.spawn at 1. rewrite Hhas.
    unfold WebSocketManager.emit. simpl.
    by destruct (WebSocketManager.socket w), w.
Qed.

Lemma spawn_duplicate_rejected_witness :
  TerminalManager.spawn "s1" "/bin/bash" 120 40 None None 2000 PtySpawned
    Examples.one_session
  = (inl (mkError ("Session " +:+ "s1" +:+ " already exists")),
     Examples.one_session)
  /\ forall (env : Env) (msg : SpawnMsg.t) (w : WebSocketManager.t),
       WebSocketManager.terminalManager w = Examples.one_session ->
       SpawnMsg.sessionId msg = "s1" ->
       WebSocketManager.terminalManager (WebSocketManager.onTerminalSpawn env msg w)
       = Examples.one_session.
Proof.
  apply (spawn_duplicate_rejected Examples.one_session "s1" "/bin/bash" 120 40
           None None 2000 PtySpawned).
  vm_compute. reflexivity.
Defined.

(** ** Detaching twice *)

Lemma alter_twice {A} (f g : A -> A) (i : nat) (l : list A) :
  alter g i (alter f i l) = alter (fun x => g (f x)) i l.
Proof. revert i. induction l as [|x l IH]; intros [|i]; f_equal/=; auto. Qed.

Lemma detach_present
    (m : TerminalManager.t) (sessionId : string) (ref : nat)
    (s : TerminalSession.t) (now : Z) :
  TerminalManager.get sessionId m = Some (ref, s) ->
  TerminalManager.detach now sessionId m
  = (true, TerminalManager.update ref (TerminalManager.mark_detached now) m).
Proof. intros Hget. unfold TerminalManager.detach. by rewrite Hget. Qed.

(** C8, as stated, fails: a second [detach] of ["s1"], detached when the
    clock read 1000, at clock reading 2000 moves [detachedAt] to 2000. *)
Lemma detach_again_moves_detachedAt :
  ~ AsStated.detach_idempotent Examples.detached_once "s1" 2000.
Proof.
  intros H.
  destruct (TerminalManager.get "s1" Examples.detached_once) as [[r s]|] eqn:E;
    vm_compute in E; [|discriminate].
  injection E as <- <-.
  destruct (H 0%nat _ eq_refl eq_refl) as [_ (s' & Hget & Hobs)].
  vm_compute in Hget. injection Hget as <-.
  vm_compute in Hobs. discriminate.
Qed.

(** C8, amended. On a session of the registry a second [detach] returns
    [true] like the first and leaves the state (detached), the subscriber list
    (empty) and the scrollback as the first left them, but overwrites
    [detachedAt] with the clock reading of the second call; the manager is left
    unchanged when both calls read the same clock value. [detach] on an absent
    session id returns [false] and changes nothing. *)
Theorem detach_again_restamps
    (m : TerminalManager.t) (sessionId : string) (now1 now2 : Z) :
  let m1 := (TerminalManager.detach now1 sessionId m).2 in
  let m2 := (TerminalManager.detach now2 sessionId m1).2 in
  (forall ref s,
     TerminalManager.get sessionId m = Some (ref, s) ->
     (TerminalManager.detach now1 sessionId m).1 = true
     /\ (TerminalManager.detach now2 sessionId m1).1 = true
     /\ (exists s1 s2,
           TerminalManager.get sessionId m1 = Some (ref, s1)
           /\ TerminalManager.get sessionId m2 = Some (ref, s2)
           /\ TerminalSession.state s1 = detached
           /\ TerminalSession.state s2 = detached
           /\ TerminalSession.dataCallbacks s1 = []
           /\ TerminalSession.dataCallbacks s2 = []
           /\ TerminalSession.scrollback s1 = TerminalSession.scrollback s
           /\ TerminalSession.scrollback s2 = TerminalSession.scrollback s
           /\ TerminalSession.detachedAt s1 = Some now1
           /\ TerminalSession.detachedAt s2 = Some now2)
     /\ (now2 = now1 -> m2 = m1))
  /\ (TerminalManager.get sessionId m = None ->
      TerminalManager.detach now1 sessionId m = (false, m)).
Proof.
  intros m1 m2. split.
  - intros ref s Hget.
    pose proof (detach_present m sessionId ref s now1 Hget) as H1.
    assert (TerminalManager.get sessionId m1
            = Some (ref, TerminalManager.mark_detached now1 s)) as Hget1.
    { subst m1. rewrite H1. simpl. by apply get_update. }
    pose proof (detach_present m1 sessionId ref _ now2 Hget1) as H2.
    split; [by rewrite H1|]. split; [by rewrite H2|]. split.
    + eexists _, _. split; [exact Hget1|]. split.
      * subst m2. rewrite H2. simpl. by apply get_update.
      * done.
    + intros ->. subst m2. rewrite H2. simpl. subst m1. rewrite H1. simpl.
      unfold TerminalManager.update. simpl. f_equal.
      rewrite alter_twice. apply list_alter_ext; [|done]. by intros [].
  - intros Hget. unfold TerminalManager.detach. by rewrite Hget.
Qed.

Lemma detach_again_restamps_witness :
  let m1 := (TerminalManager.detach 1000 "s1" Examples.one_session).2 in
  let m2 := (TerminalManager.detach 2000 "s1" m1).2 in
  (TerminalManager.detach 1000 "s1" Examples.one_session).1 = true
  /\ (TerminalManager.detach 2000 "s1" m1).1 = true
  /\ (exists s1 s2,
        TerminalManager.get "s1" m1 = Some (0%nat, s1)
        /\ TerminalManager.get "s1" m2 = Some (0%nat, s2)
        /\ TerminalSession.state s1 = detached
        /\ TerminalSession.state s2 = detached
        /\ TerminalSession.dataCallbacks s1 = []
        /\ TerminalSession.dataCallbacks s2 = []
        /\ TerminalSession.scrollback s1 = TerminalSession.scrollback Examples.s1
        /\ TerminalSession.scrollback s2 = TerminalSession.scrollback Examples.s1
        /\ TerminalSession.detachedAt s1 = Some 1000
        /\ TerminalSession.detachedAt s2 = Some 2000)
  /\ (2000 = 1000 -> m2 = m1).
Proof.
  apply (proj1 (detach_again_restamps Examples.one_session "s1" 1000 2000)
           0%nat Examples.s1).
  vm_compute. reflexivity.
Defined.

(** ** The idle reaper *)

Section Reaper.
Import TerminalManager.

Variable now : Z.

(** [kill()] on a session touches only its PTY handle. *)
Lemma idle_expired_kill session :
  idle_expired now (TerminalSession.kill session) = idle_expired now session.
Proof. reflexivity. Qed.

(** The condition of the loop, as a proposition. *)
Lemma idle_expired_true session :
  idle_expired now session = true
  <-> TerminalSession.state session = detached
      /\ TerminalSession.idleTimeoutMs session > 0
      /\ exists at_,
           TerminalSession.detachedAt session = Some at_
           /\ at_ <> 0
           /\ now - at_ > TerminalSession.idleTimeoutMs session.
Proof.
  unfold idle_expired, truthyZ.
  destruct (TerminalSession.state session);
    [split; [intros [=] | intros [[=] _]]|].
  destruct (TerminalSession.detachedAt session) as [at_|].
  - rewrite !andb_true_iff, negb_true_iff, Z.eqb_neq, !Z.gtb_gt. split.
    + intros [[? ?] ?]. repeat split; [lia|]. exists at_. repeat split; [done|lia].
    + intros (_ & ? & at' & [= <-] & ? & ?). repeat split; [lia | done | lia].
  - rewrite andb_false_r. split; [done | by intros (_ & _ & ? & ? & _)].
Qed.

Lemma cleanup_visits (m : t) (visited : gmap string nat) :
  visited_inv now m (map_fold (cleanup_entry now) m visited) visited.
Proof.
  apply (map_fold_weak_ind (fun r visited => visited_inv now m r visited)).
  - split; [intros sessionId; by rewrite lookup_empty|].
    intros ref. destruct (heap m !! ref) as [s|]; [|done]. by exists s.
  - intros i x visited' r Hi [Hs Hh]. unfold cleanup_entry.
    pose proof (Hh x) as Hx.
    destruct (heap m !! x) as [s|] eqn:Hmx.
    + destruct Hx as (s' & Hrx & Hexp & Hsame). rewrite Hrx, Hexp.
      destruct (idle_expired now s) eqn:Hs'.
      * split; simpl.
        -- intros sessionId. destruct (decide (sessionId = i)) as [->|Hne].
           ++ rewrite lookup_delete_eq, lookup_insert_eq. simpl.
              by rewrite Hmx, Hs'.
           ++ rewrite lookup_delete_ne, lookup_insert_ne by done. apply Hs.
        -- intros ref. destruct (decide (ref = x)) as [->|Hne].
           ++ rewrite Hmx, list_lookup_alter_eq, Hrx. simpl.
              eexists. split; [done|].
              split; [rewrite idle_expired_kill|]; congruence.
           ++ rewrite list_lookup_alter_ne by done. apply Hh.
      * split; [|exact Hh].
        intros sessionId. destruct (decide (sessionId = i)) as [->|Hne].
        -- rewrite lookup_insert_eq. simpl. rewrite Hmx, Hs'.
           rewrite Hs, Hi. done.
        -- rewrite lookup_insert_ne by done. apply Hs.
    + rewrite Hx. split; [|exact Hh].
      intros sessionId. destruct (decide (sessionId = i)) as [->|Hne].
      * rewrite lookup_insert_eq. simpl. rewrite Hmx, Hs, Hi. done.
      * rewrite lookup_insert_ne by done. apply Hs.
Qed.

(** The reaper, entry by entry. *)
Lemma cleanup_get (m : t) sessionId ref session :
  get sessionId m = Some (ref, session) ->
  get sessionId (cleanupIdleSessions now m)
  = if idle_expired now session then None else Some (ref, session).
Proof.
  intros [Hs Hh]%get_Some.
  destruct (cleanup_visits m (sessions m)) as [Hs' Hh'].
  fold (cleanupIdleSessions now m) in Hs', Hh'.
  specialize (Hs' sessionId). rewrite Hs in Hs'. simpl in Hs'.
  rewrite Hh in Hs'.
  specialize (Hh' ref). rewrite Hh in Hh'.
  destruct Hh' as (s' & Hr & _ & Hsame).
  destruct (idle_expired now session) eqn:E.
  - by apply get_absent.
  - apply get_Some. split; [exact Hs' | by rewrite Hr, (Hsame eq_refl)].
Qed.

Lemma cleanup_sessions_absent (m : t) sessionId :
  sessions m !! sessionId = None ->
  sessions (cleanupIdleSessions now m) !! sessionId = None.
Proof.
  intros Hs. destruct (cleanup_visits m (sessions m)) as [Hs' _].
  fold (cleanupIdleSessions now m) in Hs'.
  rewrite Hs', Hs. done.
Qed.

End Reaper.


(** X22. Away from a [detachedAt] of 0 the reaper does what is stated of it:
    a tick removes a session of the registry whose [detachedAt] is not 0
    exactly when [state = detached], [idleTimeoutMs > 0] and
    [now - detachedAt > idleTimeoutMs]. Whatever its [detachedAt], a session
    that is not removed stays in the registry as it was, and a session with
    [idleTimeoutMs = 0] or an attached session is never removed. *)
Theorem reaper_exact_unless_detached_at_zero
    (now : Z) (m : TerminalManager.t) (sessionId : string) (ref : nat)
    (s : TerminalSession.t) :
  TerminalManager.get sessionId m = Some (ref, s) ->
  let m' := TerminalManager.cleanupIdleSessions now m in
  (TerminalSession.detachedAt s <> Some 0 ->
   (TerminalManager.get sessionId m' = None <-> AsStated.reaper_condition now s))
  /\ (TerminalManager.get sessionId m' = None
      \/ TerminalManager.get sessionId m' = Some (ref, s))
  /\ (TerminalSession.idleTimeoutMs s = 0 ->
      TerminalManager.get sessionId m' = Some (ref, s))
  /\ (TerminalSession.state s = attached ->
      TerminalManager.get sessionId m' = Some (ref, s)).
Proof.
  intros Hget m'. subst m'. rewrite (cleanup_get now m sessionId ref s Hget).
  destruct (TerminalManager.idle_expired now s) eqn:E.
  - apply idle_expired_true in E as (Hst & Hidle & at_ & Hat & Hne & Hgt).
    split.
    { intros _. split; [intros _|done].
      split; [done|]. split; [done|]. by exists at_. }
    split; [by left|]. split; [intros; lia | intros; congruence].
  - split.
    { intros Hnz. split; [intros [=]|].
      intros (Hst & Hidle & at_ & Hat & Hgt).
      assert (TerminalManager.idle_expired now s = true) as E'; [|congruence].
      apply idle_expired_true. split; [done|]. split; [done|].
      exists at_. split; [done|]. split; [|done].
      intros ->. by apply Hnz. }
    split; [by right|]. by split.
Qed.

Lemma reaper_exact_unless_detached_at_zero_witness :
  TerminalManager.get "s1"
    (TerminalManager.cleanupIdleSessions 7000 Examples.detached_once)
  = None.
Proof.
  destruct (reaper_exact_unless_detached_at_zero 7000 Examples.detached_once
              "s1" 0%nat (TerminalManager.mark_detached 1000 Examples.s1))
    as (Hiff & _).
  - vm_compute. reflexivity.
  - apply Hiff; [vm_compute; discriminate|].
    split; [reflexivity|]. split; [vm_compute; reflexivity|].
    exists 1000. split; [reflexivity | vm_compute; reflexivity].
Defined.

(** ** Killing a session *)

Section Kill.
Import WebSocketManager.

Lemma kill_present (m : TerminalManager.t) sessionId ref s :
  TerminalManager.get sessionId m = Some (ref, s) ->
  TerminalManager.kill sessionId m
  = (true,
     TerminalManager.mk (TerminalManager.config m)
       (alter TerminalSession.kill ref (TerminalManager.heap m))
       (delete sessionId (TerminalManager.sessions m))).
Proof. intros Hget. unfold TerminalManager.kill. by rewrite Hget. Qed.

Lemma kill_sessions (m : TerminalManager.t) sessionId :
  TerminalManager.sessions (TerminalManager.kill sessionId m).2
  = match TerminalManager.get sessionId m with
    | Some _ => delete sessionId (TerminalManager.sessions m)
    | None => TerminalManager.sessions m
    end.
Proof.
  unfold TerminalManager.kill.
  by destruct (TerminalManager.get sessionId m) as [[ref s]|].
Qed.

(** The connection helpers leave the terminal manager alone. *)
Lemma terminalManager_emit msg w :
  terminalManager (emit msg w) = terminalManager w.
Proof. unfold emit. by destruct (socket w). Qed.

Lemma terminalManager_settle p w :
  terminalManager (settle p w) = terminalManager w.
Proof. unfold settle. by destruct (connectPromise w). Qed.

Lemma terminalManager_stopHeartbeat w :
  terminalManager (stopHeartbeat w) = terminalManager w.
Proof. unfold stopHeartbeat. by destruct (heartbeatTimer w). Qed.

Lemma terminalManager_startHeartbeat w :
  terminalManager (startHeartbeat w) = terminalManager w.
Proof. unfold startHeartbeat. simpl. apply terminalManager_stopHeartbeat. Qed.

Lemma sessions_on_session ref f w :
  TerminalManager.sessions (terminalManager (on_session ref f w))
  = TerminalManager.sessions (terminalManager w).
Proof. reflexivity. Qed.

Lemma terminalManager_applyData data callbacks w :
  terminalManager
    (foldl (fun acc callback => applyData callback data acc) w callbacks)
  = terminalManager w.
Proof.
  revert w. induction callbacks as [|[sid] callbacks IH]; intros w; [done|].
  simpl. by rewrite IH, terminalManager_emit.
Qed.

(** The exit forwarders only ever delete entries of the registry. *)
Lemma sessions_applyExit exitCode callbacks w sessionId :
  TerminalManager.sessions (terminalManager w) !! sessionId = None ->
  TerminalManager.sessions
    (terminalManager
       (foldl (fun acc callback => applyExit callback exitCode acc) w callbacks))
  !! sessionId = None.
Proof.
  revert w. induction callbacks as [|[sid] callbacks IH]; intros w Hw; [done|].
  simpl. apply IH. simpl. rewrite terminalManager_emit.
  destruct (decide (sid = sessionId)) as [->|Hne];
    [apply lookup_delete_eq | by rewrite lookup_delete_ne].
Qed.

(** With a socket, the PTY listeners call every registered callback once,
    in order of registration. *)
Lemma outbox_applyData data callbacks w :
  socket w = true ->
  outbox (foldl (fun acc callback => applyData callback data acc) w callbacks)
  = outbox w ++ map (forwarded data) callbacks.
Proof.
  revert w. induction callbacks as [|[sid] callbacks IH]; intros w Hsock.
  { simpl. by rewrite app_nil_r. }
  simpl. rewrite IH.
  - unfold emit. rewrite Hsock. simpl. by rewrite <- app_assoc.
  - unfold emit. by rewrite Hsock.
Qed.

Lemma outbox_applyExit exitCode callbacks w :
  socket w = true ->
  outbox (foldl (fun acc callback => applyExit callback exitCode acc) w callbacks)
  = outbox w ++ map (closed exitCode) callbacks.
Proof.
  revert w. induction callbacks as [|[sid] callbacks IH]; intros w Hsock.
  { simpl. by rewrite app_nil_r. }
  simpl. rewrite IH.
  - unfold emit. rewrite Hsock. simpl. by rewrite <- app_assoc.
  - unfold emit. by rewrite Hsock.
Qed.

Lemma outbox_ptyOnData ref data w s :
  socket w = true ->
  TerminalManager.heap (terminalManager w) !! ref = Some s ->
  outbox (ptyOnData ref data w)
  = outbox w ++ map (forwarded data) (TerminalSession.dataCallbacks s).
Proof.
  intros Hsock Hs. unfold ptyOnData. rewrite Hs.
  by rewrite outbox_applyData.
Qed.

Lemma outbox_ptyOnExit ref exitCode w s :
  socket w = true ->
  TerminalManager.heap (terminalManager w) !! ref = Some s ->
  outbox (ptyOnExit ref exitCode w)
  = outbox w ++ map (closed exitCode) (TerminalSession.exitCallbacks s).
Proof.
  intros Hsock Hs. unfold ptyOnExit. rewrite Hs.
  by rewrite outbox_applyExit.
Qed.

(** Only a [terminal:spawn] for the same id brings an absent id back. *)
Lemma handle_keeps_absent env ev w sessionId :
  TerminalManager.sessions (terminalManager w) !! sessionId = None ->
  (forall msg, ev = TerminalSpawn msg -> SpawnMsg.sessionId msg <> sessionId) ->
  TerminalManager.sessions (terminalManager (handle env ev w)) !! sessionId
  = None.
Proof.
  intros Hw Hev. destruct ev; cbn [handle].
  - unfold onConnect, sendSystemInfo.
    by rewrite terminalManager_settle, terminalManager_startHeartbeat,
      terminalManager_emit.
  - unfold onConnectError. destruct (_ && _); [|done].
    by rewrite terminalManager_settle.
  - unfold onDisconnect. destruct (_ || _); simpl;
      by rewrite terminalManager_stopHeartbeat.
  - unfold onReconnect, sendSystemInfo.
    by rewrite terminalManager_startHeartbeat, terminalManager_emit.
  - unfold reconnectTimer. by destruct (_ && _).
  - unfold heartbeatTick. destruct (negb _); [done|].
    by rewrite terminalManager_emit.
  - specialize (Hev msg eq_refl). unfold onTerminalSpawn, TerminalManager.spawn.
    destruct (TerminalManager.has _ _).
    + by rewrite terminalManager_emit.
    + destruct (ptyResult env); simpl.
      * by rewrite lookup_insert_ne.
      * by rewrite terminalManager_emit.
  - unfold onTerminalInput.
    by destruct (TerminalManager.get _ _) as [[ref s]|].
  - unfold onTerminalResize.
    by destruct (TerminalManager.get _ _) as [[ref s]|].
  - unfold onTerminalKill. simpl. rewrite kill_sessions.
    destruct (TerminalManager.get _ _); [|done].
    destruct (decide (sessionId0 = sessionId)) as [->|Hne];
      [apply lookup_delete_eq | by rewrite lookup_delete_ne].
  - unfold onTerminalDetach, TerminalManager.detach. simpl.
    by destruct (TerminalManager.get _ _) as [[ref s]|].
  - unfold onTerminalReattach, TerminalManager.reattach.
    destruct (TerminalManager.get _ _) as [[ref s]|] eqn:Hget.
    + rewrite terminalManager_emit. simpl.
      rewrite (get_update _ _ _ _ _ Hget).
      destruct (_ && _); by rewrite !sessions_on_session, terminalManager_emit.
    + by rewrite terminalManager_emit.
  - unfold idleCheck. simpl. by apply cleanup_sessions_absent.
  - unfold ptyOnData.
    destruct (TerminalManager.heap _ !! ref); [|done].
    by rewrite terminalManager_applyData.
  - unfold ptyOnExit.
    destruct (TerminalManager.heap _ !! ref); [|done].
    by apply sessions_applyExit.
Qed.

Lemma run_keeps_absent evs w sessionId :
  TerminalManager.sessions (terminalManager w) !! sessionId = None ->
  (forall env msg,
     (env, TerminalSpawn msg) ∈ evs -> SpawnMsg.sessionId msg <> sessionId) ->
  TerminalManager.sessions (terminalManager (run evs w)) !! sessionId = None.
Proof.
  revert w. induction evs as [|[env ev] evs IH]; intros w Hw Hevs; [done|].
  unfold run in *. simpl. apply IH.
  - apply handle_keeps_absent; [done|].
    intros msg ->. apply (Hevs env). by left.
  - intros env' msg Hin. apply (Hevs env'). by right.
Qed.

End Kill.

(** C7, as stated, fails: after [terminal:kill] of ["s1"], the exit of its
    PTY still runs the exit forwarder registered at spawn, and
    [terminal:closed] is emitted. *)
Lemma kill_leaves_callbacks_firing :
  ~ AsStated.silent_after_kill Examples.connected "s1".
Proof.
  intros H.
  destruct (H 0%nat Examples.s1 example_one_session) as [_ Hexit].
  specialize (Hexit 0). vm_compute in Hexit. discriminate.
Qed.

(** C7, amended. [kill] on a session of the registry returns [true], calls
    [kill()] on the PTY handle and deletes the entry: [get] returns none and
    [has] returns false from then on, until the id is spawned again; the other
    entries are untouched. The callbacks of the session stay registered, and
    are called with whatever its PTY still delivers. [kill] on an absent
    session id returns [false] and changes nothing. *)
Theorem kill_removes_entry (w : WebSocketManager.t) (sessionId : string) :
  let m := WebSocketManager.terminalManager w in
  let m' := (TerminalManager.kill sessionId m).2 in
  (forall ref s,
     TerminalManager.get sessionId m = Some (ref, s) ->
     (TerminalManager.kill sessionId m).1 = true
     /\ TerminalManager.get sessionId m' = None
     /\ TerminalManager.has sessionId m' = false
     /\ (forall other, other <> sessionId ->
           TerminalManager.sessions m' !! other = TerminalManager.sessions m !! other)
     /\ TerminalManager.heap m' !! ref = Some (TerminalSession.kill s)
     /\ TerminalSession.pty (TerminalSession.kill s)
        = mkPty (ptyFile (TerminalSession.pty s)) (ptyCols (TerminalSession.pty s))
            (ptyRows (TerminalSession.pty s)) (ptyCwd (TerminalSession.pty s))
            (ptyCalls (TerminalSession.pty s) ++ [PtyKill])
     /\ TerminalSession.dataCallbacks (TerminalSession.kill s)
        = TerminalSession.dataCallbacks s
     /\ TerminalSession.exitCallbacks (TerminalSession.kill s)
        = TerminalSession.exitCallbacks s
     /\ (WebSocketManager.socket w = true ->
         let w' := WebSocketManager.onTerminalKill sessionId w in
         (forall data,
            WebSocketManager.outbox (WebSocketManager.ptyOnData ref data w')
            = WebSocketManager.outbox w'
              ++ map (WebSocketManager.forwarded data)
                   (TerminalSession.dataCallbacks s))
         /\ (forall exitCode,
               WebSocketManager.outbox (WebSocketManager.ptyOnExit ref exitCode w')
               = WebSocketManager.outbox w'
                 ++ map (WebSocketManager.closed exitCode)
                      (TerminalSession.exitCallbacks s)))
     /\ (forall evs,
           (forall env msg,
              (env, WebSocketManager.TerminalSpawn msg) ∈ evs ->
              SpawnMsg.sessionId msg <> sessionId) ->
           let w' := WebSocketManager.run evs
                       (WebSocketManager.onTerminalKill sessionId w) in
           TerminalManager.get sessionId (WebSocketManager.terminalManager w') = None
           /\ TerminalManager.has sessionId (WebSocketManager.terminalManager w')
              = false))
  /\ (TerminalManager.get sessionId m = None ->
      TerminalManager.kill sessionId m = (false, m)).
Proof.
  intros m m'. split.
  - intros ref s Hget. pose proof (kill_present m sessionId ref s Hget) as Hk.
    assert (TerminalManager.sessions m' !! sessionId = None) as Habsent.
    { subst m'. rewrite Hk. simpl. apply lookup_delete_eq. }
    assert (forall m0, TerminalManager.sessions m0 !! sessionId = None ->
              TerminalManager.get sessionId m0 = None
              /\ TerminalManager.has sessionId m0 = false) as Hgone.
    { intros m0 H0. unfold TerminalManager.has.
      by rewrite (get_absent _ _ H0). }
    split; [by rewrite Hk|].
    split; [by apply Hgone|]. split; [by apply Hgone|].
    split. { intros other Hne. subst m'. rewrite Hk. simpl.
             by rewrite lookup_delete_ne. }
    assert (TerminalManager.heap m' !! ref = Some (TerminalSession.kill s))
      as Hobj.
    { subst m'. rewrite Hk. simpl. rewrite list_lookup_alter_eq.
      apply get_Some in Hget as [_ ->]. done. }
    split; [exact Hobj|].
    split; [done|]. split; [done|]. split; [done|].
    split.
    { intros Hsock w'. split.
      - intros data.
        by rewrite (outbox_ptyOnData ref data w' _ Hsock Hobj).
      - intros exitCode.
        by rewrite (outbox_ptyOnExit ref exitCode w' _ Hsock Hobj). }
    intros evs Hevs w'. apply Hgone. subst w'.
    apply run_keeps_absent; [|done]. exact Habsent.
  - intros Hget. unfold TerminalManager.kill. by rewrite Hget.
Qed.

Lemma kill_removes_entry_witness :
  TerminalManager.kill "s1" Examples.one_session
  = (true, WebSocketManager.terminalManager Examples.killed)
  /\ TerminalManager.get "s1" (WebSocketManager.terminalManager Examples.killed)
     = None
  /\ TerminalManager.kill "s2" Examples.one_session = (false, Examples.one_session).
Proof.
  pose proof (kill_removes_entry Examples.connected "s1") as [Hpresent _].
  pose proof (kill_removes_entry Examples.connected "s2") as [_ Habsent].
  destruct (Hpresent 0%nat Examples.s1) as (Htrue & Hget & _).
  { vm_compute. reflexivity. }
  split; [|split].
  - vm_compute. reflexivity.
  - exact Hget.
  - apply Habsent. vm_compute. reflexivity.
Defined.

(** ** Reattaching: the output forwarder *)

Section Reattach.
Import WebSocketManager.

Lemma socket_emit msg w : socket (emit msg w) = socket w.
Proof. unfold emit. by destruct (socket w) eqn:E. Qed.

Lemma get_on_session sessionId ref f w s :
  TerminalManager.get sessionId (terminalManager w) = Some (ref, s) ->
  TerminalManager.get sessionId (terminalManager (on_session ref f w))
  = Some (ref, f s).
Proof. intros Hget. simpl. by apply get_update. Qed.

(** One run of the [terminal:reattach] handler on a session of the
    registry: whatever was registered before, the output forwarder is the
    only data callback afterwards. *)
Lemma reattach_handler_present msg w ref s :
  TerminalManager.get (ReattachMsg.sessionId msg) (terminalManager w)
  = Some (ref, s) ->
  exists s',
    TerminalManager.get (ReattachMsg.sessionId msg)
      (terminalManager (onTerminalReattach msg w)) = Some (ref, s')
    /\ TerminalSession.dataCallbacks s'
       = [ForwardOutput (ReattachMsg.sessionId msg)]
    /\ TerminalSession.state s' = attached
    /\ socket (onTerminalReattach msg w) = socket w.
Proof.
  intros Hget. unfold onTerminalReattach, TerminalManager.reattach.
  rewrite Hget. rewrite terminalManager_emit. cbn [terminalManager set_terminalManager].
  pose proof (get_update _ _ (TerminalSession.set_attachment attached None) _ _ Hget)
    as Hget1.
  rewrite Hget1.
  set (w1 := emit _ _).
  assert (TerminalManager.get (ReattachMsg.sessionId msg) (terminalManager w1)
          = Some (ref, TerminalSession.set_attachment attached None s)) as Hw1.
  { subst w1. by rewrite terminalManager_emit. }
  assert (socket w1 = socket w) as Hsock.
  { subst w1. by rewrite socket_emit. }
  pose proof (get_on_session _ _ TerminalSession.clearDataCallbacks _ _ Hw1)
    as Hw2.
  pose proof (get_on_session _ _
    (TerminalSession.onData (ForwardOutput (ReattachMsg.sessionId msg))) _ _ Hw2)
    as Hw3.
  destruct (_ && _).
  - eexists. split; [by apply get_on_session|]. by rewrite <- Hsock.
  - eexists. split; [exact Hw3|]. by rewrite <- Hsock.
Qed.

(** With one forwarder registered and a socket, a chunk of output is
    emitted once. *)
Lemma ptyOnData_single w ref s sessionId data :
  TerminalManager.heap (terminalManager w) !! ref = Some s ->
  TerminalSession.dataCallbacks s = [ForwardOutput sessionId] ->
  socket w = true ->
  outbox (ptyOnData ref data w) = outbox w ++ [TerminalOutput sessionId data].
Proof.
  intros Hs Hcb Hsock. unfold ptyOnData. rewrite Hs, Hcb. simpl.
  unfold emit. simpl. by rewrite Hsock.
Qed.

Lemma reattach_handlers_keep msgs w sessionId ref s :
  TerminalManager.get sessionId (terminalManager w) = Some (ref, s) ->
  Forall (fun msg => ReattachMsg.sessionId msg = sessionId) msgs ->
  let w' := foldl (fun acc msg => onTerminalReattach msg acc) w msgs in
  socket w' = socket w
  /\ exists s',
       TerminalManager.get sessionId (terminalManager w') = Some (ref, s').
Proof.
  intros Hget Hall. revert w s Hget.
  induction Hall as [|msg msgs Hid _ IH]; intros w s Hget; simpl.
  - split; [done | by exists s].
  - subst sessionId.
    destruct (reattach_handler_present msg w ref s Hget)
      as (s1 & Hget1 & _ & _ & Hsock).
    destruct (IH _ _ Hget1) as [Hsock' Hex]. split; [congruence | exact Hex].
Qed.

End Reattach.

(** C3. After the [terminal:reattach] handler has run for a session of the
    registry, once or several times in a row, the output forwarder of that
    session is its only data callback, whatever was registered before; each
    chunk the PTY then delivers is emitted to the socket exactly once. *)
Theorem reattach_registers_single_forwarder
    (w : WebSocketManager.t) (sessionId : string) (ref : nat)
    (s : TerminalSession.t) (msgs : list ReattachMsg.t) :
  TerminalManager.get sessionId (WebSocketManager.terminalManager w)
  = Some (ref, s) ->
  WebSocketManager.socket w = true ->
  msgs <> [] ->
  Forall (fun msg => ReattachMsg.sessionId msg = sessionId) msgs ->
  let w' := foldl (fun acc msg => WebSocketManager.onTerminalReattach msg acc)
              w msgs in
  exists s',
    TerminalManager.get sessionId (WebSocketManager.terminalManager w')
    = Some (ref, s')
    /\ TerminalSession.dataCallbacks s' = [ForwardOutput sessionId]
    /\ forall data,
         WebSocketManager.outbox (WebSocketManager.ptyOnData ref data w')
         = WebSocketManager.outbox w' ++ [TerminalOutput sessionId data].
Proof.
  intros Hget Hsock Hne Hall w'.
  destruct msgs as [|msg0 msgs0] using rev_ind; [done|]. clear IHmsgs0 Hne.
  apply Forall_app in Hall as [Hinit Hlast].
  apply Forall_inv in Hlast. simpl in Hlast.
  subst w'. rewrite foldl_snoc.
  destruct (reattach_handlers_keep msgs0 w sessionId ref s Hget Hinit)
    as [Hsock0 (s0 & Hget0)].
  set (w0 := foldl _ w msgs0) in *.
  subst sessionId.
  destruct (reattach_handler_present msg0 w0 ref s0 Hget0)
    as (s' & Hget' & Hcb & _ & Hsock').
  exists s'. split; [exact Hget'|]. split; [exact Hcb|].
  intros data. apply (ptyOnData_single _ ref s'); [|done|congruence].
  by apply get_Some in Hget' as [_ ?].
Qed.

Lemma reattach_registers_single_forwarder_witness :
  let msgs := [ReattachMsg.mk "s1" (Some 120) (Some 40);
               ReattachMsg.mk "s1" None None] in
  let w' := foldl (fun acc msg => WebSocketManager.onTerminalReattach msg acc)
              Examples.connected msgs in
  exists s',
    TerminalManager.get "s1" (WebSocketManager.terminalManager w')
    = Some (0%nat, s')
    /\ TerminalSession.dataCallbacks s' = [ForwardOutput "s1"]
    /\ forall data,
         WebSocketManager.outbox (WebSocketManager.ptyOnData 0%nat data w')
         = WebSocketManager.outbox w' ++ [TerminalOutput "s1" data].
Proof.
  apply (reattach_registers_single_forwarder Examples.connected "s1" 0%nat
           Examples.s1).
  - vm_compute. reflexivity.
  - vm_compute. reflexivity.
  - discriminate.
  - repeat constructor.
Defined.

(** ** Connecting: the [system:info] announcement *)

Section Announce.
Import WebSocketManager.

Lemma announcements_snoc msgs msg :
  announcements (msgs ++ [msg])
  = (announcements msgs + if isSystemInfo msg then 1 else 0)%nat.
Proof.
  unfold announcements. rewrite List.filter_app, length_app. simpl.
  by destruct (isSystemInfo msg).
Qed.

Lemma same_link_refl w : same_link w w.
Proof. by repeat split. Qed.

Lemma same_link_trans w1 w2 w3 :
  same_link w1 w2 -> same_link w2 w3 -> same_link w1 w3.
Proof. intros (? & ? & ?) (? & ? & ?). repeat split; congruence. Qed.

Lemma same_link_emit msg w : isSystemInfo msg = false -> same_link w (emit msg w).
Proof.
  intros Hmsg. unfold emit. destruct (socket w) eqn:E; [|apply same_link_refl].
  split; [done|]. split; [done|].
  simpl. rewrite announcements_snoc, Hmsg. lia.
Qed.

Lemma same_link_on_session ref f w : same_link w (on_session ref f w).
Proof. by repeat split. Qed.

Lemma same_link_set_terminalManager tm w : same_link w (set_terminalManager tm w).
Proof. by repeat split. Qed.

Lemma same_link_settle p w : same_link w (settle p w).
Proof. unfold settle. destruct (connectPromise w); by repeat split. Qed.

Lemma same_link_stopHeartbeat w : same_link w (stopHeartbeat w).
Proof. unfold stopHeartbeat. destruct (heartbeatTimer w); by repeat split. Qed.

Lemma same_link_startHeartbeat w : same_link w (startHeartbeat w).
Proof.
  unfold startHeartbeat.
  eapply same_link_trans; [apply same_link_stopHeartbeat | by repeat split].
Qed.

Lemma same_link_applyData data callbacks w :
  same_link w (foldl (fun acc callback => applyData callback data acc) w callbacks).
Proof.
  revert w. induction callbacks as [|[sid] callbacks IH]; intros w;
    [apply same_link_refl|].
  simpl. eapply same_link_trans; [|apply IH]. by apply same_link_emit.
Qed.

Lemma same_link_applyExit exitCode callbacks w :
  same_link w
    (foldl (fun acc callback => applyExit callback exitCode acc) w callbacks).
Proof.
  revert w. induction callbacks as [|[sid] callbacks IH]; intros w;
    [apply same_link_refl|].
  simpl. eapply same_link_trans; [|apply IH].
  eapply same_link_trans; [by apply (same_link_emit (TerminalClosed sid exitCode))|].
  apply same_link_set_terminalManager.
Qed.

(** Timers, messages of the server and PTY events leave the link alone. *)
Lemma handle_same_link env ev w :
  match ev with
  | Connect | Disconnect _ | Reconnect => True
  | _ => same_link w (handle env ev w)
  end.
Proof.
  destruct ev; cbn [handle]; try exact I.
  - unfold onConnectError. destruct (_ && _); [|by repeat split].
    eapply same_link_trans; [|apply same_link_settle]. by repeat split.
  - unfold reconnectTimer. destruct (_ && _); by repeat split.
  - unfold heartbeatTick. destruct (negb _); [apply same_link_refl|].
    by apply same_link_emit.
  - unfold onTerminalSpawn. destruct (TerminalManager.spawn _ _ _ _ _ _ _ _ _)
      as [[err|session] tm].
    + eapply same_link_trans; [apply (same_link_set_terminalManager tm)|].
      by apply same_link_emit.
    + by repeat split.
  - unfold onTerminalInput. destruct (TerminalManager.get _ _) as [[ref s]|];
      by repeat split.
  - unfold onTerminalResize. destruct (TerminalManager.get _ _) as [[ref s]|];
      by repeat split.
  - apply same_link_set_terminalManager.
  - apply same_link_set_terminalManager.
  - unfold onTerminalReattach.
    destruct (TerminalManager.reattach _ _) as [[scrollback|] tm].
    + set (w1 := emit _ _).
      assert (same_link w w1) as H1.
      { subst w1.
        eapply same_link_trans; [apply (same_link_set_terminalManager tm)|].
        by apply same_link_emit. }
      destruct (TerminalManager.get _ _) as [[ref s]|]; [|done].
      destruct (_ && _); (eapply same_link_trans; [exact H1|]; by repeat split).
    + by apply same_link_emit.
  - apply same_link_set_terminalManager.
  - unfold ptyOnData. destruct (_ !! _); [|apply same_link_refl].
    eapply same_link_trans; [|apply same_link_applyData]. by repeat split.
  - unfold ptyOnExit. destruct (_ !! _); [|apply same_link_refl].
    apply same_link_applyExit.
Qed.

(** The [connect] listener: connected, one announcement. *)
Lemma onConnect_link w :
  socket (onConnect w) = socket w
  /\ isConnected (onConnect w) = true
  /\ heartbeatTimer (onConnect w) = true
  /\ outbox (onConnect w)
     = if socket w then outbox w ++ [SystemInfo] else outbox w.
Proof.
  unfold onConnect, settle, startHeartbeat, stopHeartbeat, sendSystemInfo, emit.
  destruct w as [c sock tm n hb conn out pr timers k]. simpl.
  by destruct sock, hb, pr.
Qed.

(** The [reconnect] listener: one announcement, the flag untouched. *)
Lemma onReconnect_link w :
  socket (onReconnect w) = socket w
  /\ isConnected (onReconnect w) = isConnected w
  /\ outbox (onReconnect w)
     = if socket w then outbox w ++ [SystemInfo] else outbox w.
Proof.
  unfold onReconnect, startHeartbeat, stopHeartbeat, sendSystemInfo, emit.
  destruct w as [c sock tm n hb conn out pr timers k]. simpl.
  by destruct sock, hb.
Qed.

(** The [disconnect] listener: disconnected, nothing sent. *)
Lemma onDisconnect_link reason w :
  socket (onDisconnect reason w) = socket w
  /\ isConnected (onDisconnect reason w) = false
  /\ outbox (onDisconnect reason w) = outbox w.
Proof.
  unfold onDisconnect, stopHeartbeat.
  destruct w as [c sock tm n hb conn out pr timers k]. simpl.
  by destruct (_ || _), hb.
Qed.

Lemma handle_socket env ev w : socket (handle env ev w) = socket w.
Proof.
  pose proof (handle_same_link env ev w) as H.
  destruct ev; try (by destruct H as (? & _)); cbn [handle].
  - apply onConnect_link.
  - apply onDisconnect_link.
  - apply onReconnect_link.
Qed.

(** Only the [connect] listener sets the connection flag. *)
Lemma handle_enters_connected env ev w :
  isConnected w = false -> isConnected (handle env ev w) = true -> ev = Connect.
Proof.
  intros Hoff Hon. pose proof (handle_same_link env ev w) as H.
  destruct ev; try done; try (destruct H as (_ & H & _); congruence);
    cbn [handle] in Hon.
  - destruct (onDisconnect_link reason w) as (_ & ? & _). congruence.
  - destruct (onReconnect_link w) as (_ & ? & _). congruence.
Qed.

(** Announcements sent by one event. *)
Lemma handle_announcements env ev w :
  socket w = true ->
  ev <> Reconnect ->
  announcements (outbox (handle env ev w))
  = (announcements (outbox w) + if isConnect ev then 1 else 0)%nat.
Proof.
  intros Hsock Hev. pose proof (handle_same_link env ev w) as H.
  destruct ev; try done;
    try (destruct H as (_ & _ & ->); simpl; lia); cbn [handle].
  - destruct (onConnect_link w) as (_ & _ & _ & ->).
    rewrite Hsock. by rewrite announcements_snoc.
  - destruct (onDisconnect_link reason w) as (_ & _ & ->). simpl. lia.
Qed.

Lemma run_announcements evs w :
  socket w = true ->
  (forall env, (env, Reconnect) ∉ evs) ->
  announcements (outbox (run evs w))
  = (announcements (outbox w) + connects evs)%nat.
Proof.
  revert w. induction evs as [|[env ev] evs IH]; intros w Hsock Hevs.
  { unfold connects. simpl. lia. }
  unfold run in *. simpl. rewrite IH.
  - rewrite handle_announcements; [|done|].
    + unfold connects. simpl. destruct (isConnect ev); simpl; lia.
    + intros ->. apply (Hevs env). by left.
  - by rewrite handle_socket.
  - intros env' Hin. apply (Hevs env'). by right.
Qed.

End Announce.

(** C9. With the socket in place: the [connect] listener, which is the only
    code that makes the manager connected, emits [system:info] exactly once
    each time it runs; the [reconnect] listener emits it exactly once when the
    socket delivers that event; nothing else emits it, so that over any run of
    events without a [reconnect] event the number of announcements sent is
    the number of [connect] events. *)
Theorem connect_announces_once (w : WebSocketManager.t) :
  WebSocketManager.socket w = true ->
  (WebSocketManager.isConnected (WebSocketManager.onConnect w) = true
   /\ WebSocketManager.outbox (WebSocketManager.onConnect w)
      = WebSocketManager.outbox w ++ [SystemInfo]
   /\ WebSocketManager.announcements
        (WebSocketManager.outbox (WebSocketManager.onConnect w))
      = S (WebSocketManager.announcements (WebSocketManager.outbox w)))
  /\ (forall env ev,
        WebSocketManager.isConnected w = false ->
        WebSocketManager.isConnected (WebSocketManager.handle env ev w) = true ->
        ev = WebSocketManager.Connect)
  /\ WebSocketManager.outbox (WebSocketManager.onReconnect w)
     = WebSocketManager.outbox w ++ [SystemInfo]
  /\ (forall evs,
        (forall env, (env, WebSocketManager.Reconnect) ∉ evs) ->
        WebSocketManager.announcements
          (WebSocketManager.outbox (WebSocketManager.run evs w))
        = (WebSocketManager.announcements (WebSocketManager.outbox w)
           + WebSocketManager.connects evs)%nat).
Proof.
  intros Hsock.
  destruct (onConnect_link w) as (_ & Hon & _ & Hout). rewrite Hsock in Hout.
  destruct (onReconnect_link w) as (_ & _ & Hre). rewrite Hsock in Hre.
  split; [|split; [|split]].
  - split; [exact Hon|]. split; [exact Hout|].
    rewrite Hout, announcements_snoc. simpl. lia.
  - intros env ev. apply handle_enters_connected.
  - exact Hre.
  - intros evs Hevs. by apply run_announcements.
Qed.

Lemma connect_announces_once_witness :
  WebSocketManager.outbox
    (WebSocketManager.onConnect
       (WebSocketManager.new Examples.cfg (TerminalManager.new Examples.cfg)))
  = [SystemInfo]
  /\ WebSocketManager.announcements
       (WebSocketManager.outbox
          (WebSocketManager.run
             [(Examples.at_time 1000, WebSocketManager.Connect);
              (Examples.at_time 2000, WebSocketManager.TerminalSpawn Examples.spawn_s1);
              (Examples.at_time 3000, WebSocketManager.Disconnect "transport close");
              (Examples.at_time 4000, WebSocketManager.Connect)]
             (WebSocketManager.new Examples.cfg (TerminalManager.new Examples.cfg))))
     = 2%nat.
Proof.
  destruct (connect_announces_once
              (WebSocketManager.new Examples.cfg (TerminalManager.new Examples.cfg))
              eq_refl) as ((_ & Hout & _) & _ & _ & Hrun).
  split; [exact Hout|].
  rewrite Hrun; [reflexivity|].
  intros env Hin. repeat (apply elem_of_cons in Hin as [[=]|Hin]).
  by apply elem_of_nil in Hin.
Defined.

(** ** Spawning *)

Section Spawn.
Import TerminalManager.

Lemma has_false sessionId m : has sessionId m = false <-> get sessionId m = None.
Proof. unfold has. by destruct (get sessionId m). Qed.

Lemma spawn_fresh sessionId shell cols rows cwd idleTimeoutMs now m :
  has sessionId m = false ->
  spawn sessionId shell cols rows cwd idleTimeoutMs now PtySpawned m
  = (inr (length (heap m)),
     mk (config m)
        (heap m ++
         [TerminalSession.mk
            (mkPty shell cols rows (orString cwd (cfgHomeDir (config m))) [])
            sessionId attached
            (ScrollbackBuffer.new ScrollbackBuffer.default_maxSize)
            now None shell cols rows (orZ idleTimeoutMs 0) [] []])
        (<[sessionId := length (heap m)]> (sessions m))).
Proof. intros Hhas. unfold spawn. by rewrite Hhas. Qed.

Lemma spawn_throws sessionId shell cols rows cwd idleTimeoutMs now msg m :
  has sessionId m = false ->
  spawn sessionId shell cols rows cwd idleTimeoutMs now (PtySpawnThrows msg) m
  = (inl (mkError msg), m).
Proof. intros Hhas. unfold spawn. by rewrite Hhas. Qed.

End Spawn.

(** X1. [spawn] with an id that is not in the registry, when the PTY
    starts: the new session is returned and found by [get] and [has]; it is
    attached, never detached, has an empty scrollback and no callbacks, and
    its idle timeout is the one given, 0 when none (or 0) is given. Every
    session that was in the registry is still there, unchanged, and an id
    that was absent (other than the new one) is still absent. *)
Theorem spawn_registers_session
    (m : TerminalManager.t) (sessionId shell : string) (cols rows : Z)
    (cwd : option string) (idleTimeoutMs : option Z) (now : Z) :
  TerminalManager.has sessionId m = false ->
  let r := TerminalManager.spawn sessionId shell cols rows cwd idleTimeoutMs
             now PtySpawned m in
  r.1 = inr (length (TerminalManager.heap m))
  /\ TerminalManager.has sessionId r.2 = true
  /\ (exists s,
        TerminalManager.get sessionId r.2
        = Some (length (TerminalManager.heap m), s)
        /\ TerminalSession.sessionId s = sessionId
        /\ TerminalSession.state s = attached
        /\ TerminalSession.detachedAt s = None
        /\ TerminalSession.createdAt s = now
        /\ TerminalSession.idleTimeoutMs s = default 0 idleTimeoutMs
        /\ ScrollbackBuffer.getContents (TerminalSession.scrollback s) = ""
        /\ TerminalSession.dataCallbacks s = []
        /\ TerminalSession.exitCallbacks s = []
        /\ ptyCalls (TerminalSession.pty s) = [])
  /\ (forall other ref s,
        TerminalManager.get other m = Some (ref, s) ->
        TerminalManager.get other r.2 = Some (ref, s))
  /\ (forall other,
        other <> sessionId ->
        TerminalManager.sessions m !! other = None ->
        TerminalManager.get other r.2 = None).
Proof.
  intros Hhas r. subst r. rewrite (spawn_fresh _ _ _ _ _ _ _ _ Hhas). simpl.
  assert (forall (s : TerminalSession.t),
            (TerminalManager.heap m ++ [s]) !! length (TerminalManager.heap m)
            = Some s) as Hnew.
  { intros s. by rewrite list_lookup_middle. }
  split; [done|]. split.
  { apply has_true. eexists _, _. apply get_Some. simpl.
    rewrite lookup_insert_eq. split; [done|]. apply Hnew. }
  split.
  { eexists. split.
    - apply get_Some. simpl. rewrite lookup_insert_eq. split; [done|]. apply Hnew.
    - simpl. repeat split; try done.
      unfold orZ, truthyZ. destruct idleTimeoutMs as [v|]; simpl; [|done].
      destruct (Z.eqb_spec v 0); simpl; congruence. }
  split.
  - intros other ref s Hget.
    assert (other <> sessionId) as Hne.
    { intros ->. apply has_false in Hhas. congruence. }
    apply get_Some in Hget as [Hs Hh]. apply get_Some. simpl.
    rewrite lookup_insert_ne by done. split; [done|].
    by apply lookup_app_l_Some.
  - intros other Hne Hs. apply get_absent. simpl.
    by rewrite lookup_insert_ne.
Qed.

Lemma spawn_registers_session_witness :
  let r := TerminalManager.spawn "s2" "/bin/bash" 120 40 None None 2000
             PtySpawned Examples.one_session in
  r.1 = inr 1%nat
  /\ TerminalManager.get "s1" r.2 = Some (0%nat, Examples.s1)
  /\ TerminalManager.get "s3" r.2 = None.
Proof.
  destruct (spawn_registers_session Examples.one_session "s2" "/bin/bash" 120 40
              None None 2000) as (H1 & _ & _ & Hkept & Habsent).
  { vm_compute. reflexivity. }
  split; [exact H1|]. split.
  - apply Hkept. vm_compute. reflexivity.
  - apply Habsent; [discriminate | vm_compute; reflexivity].
Defined.

(** X2. The three outcomes of the [terminal:spawn] handler (socket in
    place). A duplicate id, or a PTY that fails to start, leaves the terminal
    manager untouched and emits exactly one [terminal:error] carrying the
    message of the exception. Otherwise nothing is emitted and the session is
    registered, attached, with exactly one output forwarder and one exit
    forwarder; a missing, empty or zero [shell], [cols] or [rows] of the
    message is replaced by the configured shell, 80 and 24. *)
Theorem terminal_spawn_outcomes
    (env : Env) (msg : SpawnMsg.t) (w : WebSocketManager.t) :
  WebSocketManager.socket w = true ->
  let sessionId := SpawnMsg.sessionId msg in
  let m := WebSocketManager.terminalManager w in
  let w' := WebSocketManager.onTerminalSpawn env msg w in
  let m' := WebSocketManager.terminalManager w' in
  (TerminalManager.has sessionId m = true ->
   m' = m
   /\ WebSocketManager.outbox w'
      = WebSocketManager.outbox w
        ++ [TerminalError sessionId ("Session " +:+ sessionId +:+ " already exists")])
  /\ (forall reason,
        TerminalManager.has sessionId m = false ->
        ptyResult env = PtySpawnThrows reason ->
        m' = m
        /\ WebSocketManager.outbox w'
           = WebSocketManager.outbox w ++ [TerminalError sessionId reason])
  /\ (TerminalManager.has sessionId m = false ->
      ptyResult env = PtySpawned ->
      WebSocketManager.outbox w' = WebSocketManager.outbox w
      /\ exists s,
           TerminalManager.get sessionId m'
           = Some (length (TerminalManager.heap m), s)
           /\ TerminalSession.state s = attached
           /\ TerminalSession.dataCallbacks s = [ForwardOutput sessionId]
           /\ TerminalSession.exitCallbacks s = [ForwardClosed sessionId]
           /\ TerminalSession.shell s
              = orString (SpawnMsg.shell msg)
                  (cfgShell (WebSocketManager.config w))
           /\ TerminalSession.cols s = orZ (SpawnMsg.cols msg) 80
           /\ TerminalSession.rows s = orZ (SpawnMsg.rows msg) 24
           /\ ptyCols (TerminalSession.pty s) = orZ (SpawnMsg.cols msg) 80
           /\ ptyRows (TerminalSession.pty s) = orZ (SpawnMsg.rows msg) 24).
Proof.
  intros Hsock sessionId m w' m'. subst w' m'.
  unfold WebSocketManager.onTerminalSpawn. fold sessionId. fold m.
  split; [|split].
  - intros Hhas. unfold TerminalManager.spawn. rewrite Hhas.
    unfold WebSocketManager.emit. simpl. rewrite Hsock. simpl.
    split; [by subst m | done].
  - intros reason Hhas Hpty. rewrite Hpty, spawn_throws by done.
    unfold WebSocketManager.emit. simpl. rewrite Hsock. simpl.
    split; [by subst m | done].
  - intros Hhas Hpty. rewrite Hpty, spawn_fresh by done.
    split; [done|].
    eexists. split.
    + apply get_Some. simpl. rewrite lookup_insert_eq. split; [done|].
      rewrite !list_lookup_alter_eq, list_lookup_middle by done. done.
    + done.
Qed.

Lemma terminal_spawn_outcomes_witness :
  WebSocketManager.outbox
    (WebSocketManager.onTerminalSpawn
       (mkEnv 2000 (PtySpawnThrows "spawn failed") "/home/u")
       (SpawnMsg.mk "s2" None (Some 0) None None None) Examples.connected)
  = WebSocketManager.outbox Examples.connected
    ++ [TerminalError "s2" "spawn failed"].
Proof.
  destruct (terminal_spawn_outcomes
              (mkEnv 2000 (PtySpawnThrows "spawn failed") "/home/u")
              (SpawnMsg.mk "s2" None (Some 0) None None None)
              Examples.connected eq_refl) as (_ & Hfail & _).
  apply (Hfail "spawn failed"); vm_compute; reflexivity.
Defined.

(** ** Messages for a session: input, resize, reattach *)

Section SessionMessages.
Import WebSocketManager.

Lemma set_terminalManager_same w : set_terminalManager (terminalManager w) w = w.
Proof. by destruct w. Qed.

Lemma update_heap ref f m :
  TerminalManager.heap (TerminalManager.update ref f m)
  = alter f ref (TerminalManager.heap m).
Proof. reflexivity. Qed.

(** A run of [terminal:input] messages for one session is a run of writes on
    its session object. *)
Lemma inputs_run sessionId ref s datas w :
  TerminalManager.get sessionId (terminalManager w) = Some (ref, s) ->
  foldl (fun acc data => onTerminalInput sessionId data acc) w datas
  = on_session ref
      (fun s0 => foldl (fun acc data => TerminalSession.write data acc) s0 datas) w.
Proof.
  revert w s. induction datas as [|data datas IH]; intros w s Hget.
  - simpl. unfold on_session, TerminalManager.update.
    rewrite list_alter_id by done. by destruct w as [? ? []].
  - simpl. unfold onTerminalInput at 2. rewrite Hget.
    rewrite (IH _ (TerminalSession.write data s)) by by apply get_on_session.
    unfold on_session, TerminalManager.update. simpl. by rewrite alter_twice.
Qed.

Lemma writes_calls datas s :
  ptyCalls (TerminalSession.pty
              (foldl (fun acc data => TerminalSession.write data acc) s datas))
  = ptyCalls (TerminalSession.pty s) ++ (PtyWrite <$> datas).
Proof.
  revert s. induction datas as [|data datas IH]; intros s; simpl.
  - by rewrite app_nil_r.
  - rewrite IH. simpl. by rewrite <- app_assoc.
Qed.

Lemma writes_frame datas s :
  let s' := foldl (fun acc data => TerminalSession.write data acc) s datas in
  TerminalSession.scrollback s' = TerminalSession.scrollback s
  /\ TerminalSession.state s' = TerminalSession.state s
  /\ TerminalSession.dataCallbacks s' = TerminalSession.dataCallbacks s.
Proof.
  revert s. induction datas as [|data datas IH]; intros s; simpl; [done|].
  destruct (IH (TerminalSession.write data s)) as (? & ? & ?). by repeat split.
Qed.

Lemma reattach_handler_result msg w ref s :
  TerminalManager.get (ReattachMsg.sessionId msg) (terminalManager w)
  = Some (ref, s) ->
  TerminalManager.get (ReattachMsg.sessionId msg)
    (terminalManager (onTerminalReattach msg w)) = Some (ref, Wiring.reattached msg s)
  /\ outbox (onTerminalReattach msg w)
     = outbox
         (emit (TerminalScrollback (ReattachMsg.sessionId msg)
                  (ScrollbackBuffer.getContents (TerminalSession.scrollback s))) w)
  /\ socket (onTerminalReattach msg w) = socket w.
Proof.
  intros Hget. unfold onTerminalReattach, TerminalManager.reattach.
  rewrite Hget. rewrite terminalManager_emit.
  cbn [terminalManager set_terminalManager].
  pose proof (get_update _ _ (TerminalSession.set_attachment attached None) _ _ Hget)
    as Hget1.
  rewrite Hget1. unfold Wiring.reattached.
  set (w1 := emit _ (set_terminalManager _ w)).
  assert (TerminalManager.get (ReattachMsg.sessionId msg) (terminalManager w1)
          = Some (ref, TerminalSession.set_attachment attached None s)) as Hw1.
  { subst w1. by rewrite terminalManager_emit. }
  assert (socket w1 = socket w) as Hsock.
  { subst w1. by rewrite socket_emit. }
  assert (outbox w1
          = outbox (emit (TerminalScrollback (ReattachMsg.sessionId msg)
                    (ScrollbackBuffer.getContents (TerminalSession.scrollback s))) w))
    as Hout.
  { subst w1. unfold emit. simpl. by destruct (socket w). }
  pose proof (get_on_session _ _ TerminalSession.clearDataCallbacks _ _ Hw1)
    as Hw2.
  pose proof (get_on_session _ _
    (TerminalSession.onData (ForwardOutput (ReattachMsg.sessionId msg))) _ _ Hw2)
    as Hw3.
  destruct (_ && _).
  - split; [by apply get_on_session|]. by rewrite <- Hsock, <- Hout.
  - split; [exact Hw3|]. by rewrite <- Hsock, <- Hout.
Qed.

End SessionMessages.

(** X3. A message for a session id that is not in the registry:
    [terminal:input], [terminal:resize], [terminal:kill] and
    [terminal:detach] change nothing and emit nothing; [terminal:reattach]
    emits one [terminal:error] "Session not found" and changes nothing
    else. *)
Theorem unknown_session_messages
    (env : Env) (w : WebSocketManager.t) (sessionId : string) :
  TerminalManager.get sessionId (WebSocketManager.terminalManager w) = None ->
  (forall data, WebSocketManager.onTerminalInput sessionId data w = w)
  /\ (forall cols rows, WebSocketManager.onTerminalResize sessionId cols rows w = w)
  /\ WebSocketManager.onTerminalKill sessionId w = w
  /\ WebSocketManager.onTerminalDetach env sessionId w = w
  /\ (forall msg,
        ReattachMsg.sessionId msg = sessionId ->
        WebSocketManager.onTerminalReattach msg w
        = WebSocketManager.emit (TerminalError sessionId "Session not found") w).
Proof.
  intros Hget. split; [|split; [|split; [|split]]].
  - intros data. unfold WebSocketManager.onTerminalInput. by rewrite Hget.
  - intros cols rows. unfold WebSocketManager.onTerminalResize. by rewrite Hget.
  - unfold WebSocketManager.onTerminalKill, TerminalManager.kill.
    rewrite Hget. apply set_terminalManager_same.
  - unfold WebSocketManager.onTerminalDetach, TerminalManager.detach.
    rewrite Hget. apply set_terminalManager_same.
  - intros msg <-.
    unfold WebSocketManager.onTerminalReattach, TerminalManager.reattach.
    by rewrite Hget.
Qed.

Lemma unknown_session_messages_witness :
  WebSocketManager.onTerminalInput "s9" "ls" Examples.connected
  = Examples.connected
  /\ WebSocketManager.onTerminalKill "s9" Examples.connected = Examples.connected
  /\ WebSocketManager.outbox
       (WebSocketManager.onTerminalReattach (ReattachMsg.mk "s9" None None)
          Examples.connected)
     = [SystemInfo; TerminalError "s9" "Session not found"].
Proof.
  destruct (unknown_session_messages (Examples.at_time 2000) Examples.connected
              "s9") as (Hin & _ & Hkill & _ & Hre).
  { vm_compute. reflexivity. }
  split; [apply Hin|]. split; [exact Hkill|].
  rewrite (Hre (ReattachMsg.mk "s9" None None) eq_refl). vm_compute. reflexivity.
Defined.

(** X4. [terminal:input] messages for a session of the registry reach its
    PTY as [write] calls, one per message, in the order of the messages; the
    scrollback, the attachment state and the callbacks of the session, the
    registry and the outbox are left as they were. *)
Theorem terminal_inputs_in_order
    (w : WebSocketManager.t) (sessionId : string) (ref : nat)
    (s : TerminalSession.t) (datas : list string) :
  TerminalManager.get sessionId (WebSocketManager.terminalManager w)
  = Some (ref, s) ->
  let w' := foldl (fun acc data => WebSocketManager.onTerminalInput sessionId data acc)
              w datas in
  (exists s',
     TerminalManager.get sessionId (WebSocketManager.terminalManager w')
     = Some (ref, s')
     /\ ptyCalls (TerminalSession.pty s')
        = ptyCalls (TerminalSession.pty s) ++ (PtyWrite <$> datas)
     /\ TerminalSession.scrollback s' = TerminalSession.scrollback s
     /\ TerminalSession.state s' = TerminalSession.state s
     /\ TerminalSession.dataCallbacks s' = TerminalSession.dataCallbacks s)
  /\ TerminalManager.sessions (WebSocketManager.terminalManager w')
     = TerminalManager.sessions (WebSocketManager.terminalManager w)
  /\ WebSocketManager.outbox w' = WebSocketManager.outbox w.
Proof.
  intros Hget w'. subst w'. rewrite (inputs_run sessionId ref s datas w Hget).
  split; [|done].
  eexists. split; [by apply get_on_session|].
  split; [apply writes_calls | apply writes_frame].
Qed.

Lemma terminal_inputs_in_order_witness :
  let w' := foldl (fun acc data => WebSocketManager.onTerminalInput "s1" data acc)
              Examples.connected ["ls"; "pwd"] in
  (exists s',
     TerminalManager.get "s1" (WebSocketManager.terminalManager w')
     = Some (0%nat, s')
     /\ ptyCalls (TerminalSession.pty s')
        = ptyCalls (TerminalSession.pty Examples.s1) ++ (PtyWrite <$> ["ls"; "pwd"])
     /\ TerminalSession.scrollback s' = TerminalSession.scrollback Examples.s1
     /\ TerminalSession.state s' = TerminalSession.state Examples.s1
     /\ TerminalSession.dataCallbacks s'
        = TerminalSession.dataCallbacks Examples.s1)
  /\ TerminalManager.sessions (WebSocketManager.terminalManager w')
     = TerminalManager.sessions
         (WebSocketManager.terminalManager Examples.connected)
  /\ WebSocketManager.outbox w' = WebSocketManager.outbox Examples.connected.
Proof.
  apply (terminal_inputs_in_order Examples.connected "s1" 0%nat Examples.s1).
  vm_compute. reflexivity.
Defined.

(** X5. The [terminal:reattach] handler on a session of the registry
    (socket in place) emits exactly one [terminal:scrollback] with the
    contents of the buffer and leaves the buffer as it is, so that a second
    reattach replays the same contents; the session ends attached with
    [detachedAt] cleared. The PTY is resized, and the size recorded on the
    session, only when the message carries both [cols] and [rows] and neither
    is 0: otherwise the size is unchanged and the PTY receives no call. *)
Theorem terminal_reattach_outcome
    (w : WebSocketManager.t) (msg : ReattachMsg.t) (ref : nat)
    (s : TerminalSession.t) :
  TerminalManager.get (ReattachMsg.sessionId msg)
    (WebSocketManager.terminalManager w) = Some (ref, s) ->
  WebSocketManager.socket w = true ->
  let contents := ScrollbackBuffer.getContents (TerminalSession.scrollback s) in
  let w' := WebSocketManager.onTerminalReattach msg w in
  WebSocketManager.outbox w'
  = WebSocketManager.outbox w
    ++ [TerminalScrollback (ReattachMsg.sessionId msg) contents]
  /\ WebSocketManager.outbox (WebSocketManager.onTerminalReattach msg w')
     = WebSocketManager.outbox w'
       ++ [TerminalScrollback (ReattachMsg.sessionId msg) contents]
  /\ exists s',
       TerminalManager.get (ReattachMsg.sessionId msg)
         (WebSocketManager.terminalManager w') = Some (ref, s')
       /\ TerminalSession.state s' = attached
       /\ TerminalSession.detachedAt s' = None
       /\ TerminalSession.scrollback s' = TerminalSession.scrollback s
       /\ (forall cols rows,
             ReattachMsg.cols msg = Some cols -> ReattachMsg.rows msg = Some rows ->
             cols <> 0 -> rows <> 0 ->
             TerminalSession.cols s' = cols /\ TerminalSession.rows s' = rows
             /\ ptyCalls (TerminalSession.pty s')
                = ptyCalls (TerminalSession.pty s) ++ [PtyResize cols rows])
       /\ (truthyZ (ReattachMsg.cols msg) && truthyZ (ReattachMsg.rows msg) = false ->
           TerminalSession.cols s' = TerminalSession.cols s
           /\ TerminalSession.rows s' = TerminalSession.rows s
           /\ TerminalSession.pty s' = TerminalSession.pty s).
Proof.
  intros Hget Hsock contents w'.
  destruct (reattach_handler_result msg w ref s Hget) as (Hget' & Hout & Hsock').
  fold w' in Hget', Hout, Hsock'.
  destruct (reattach_handler_result msg w' ref _ Hget') as (_ & Hout2 & _).
  assert (forall t x, WebSocketManager.socket t = true ->
            WebSocketManager.outbox (WebSocketManager.emit x t)
            = WebSocketManager.outbox t ++ [x]) as Hemit.
  { intros t x Ht. unfold WebSocketManager.emit. by rewrite Ht. }
  assert (TerminalSession.scrollback (Wiring.reattached msg s)
          = TerminalSession.scrollback s) as Hsb.
  { unfold Wiring.reattached. by destruct (_ && _). }
  split; [by rewrite Hout, Hemit|].
  split. { rewrite Hout2, Hemit by congruence. by rewrite Hsb. }
  exists (Wiring.reattached msg s). split; [exact Hget'|].
  unfold Wiring.reattached.
  split; [by destruct (_ && _)|]. split; [by destruct (_ && _)|].
  split; [by destruct (_ && _)|]. split.
  - intros cols rows -> -> Hc Hr. unfold truthyZ.
    destruct (Z.eqb_spec cols 0); [done|]. destruct (Z.eqb_spec rows 0); [done|].
    done.
  - intros ->. by destruct s as [[]].
Qed.

Lemma terminal_reattach_outcome_witness :
  WebSocketManager.outbox
    (WebSocketManager.onTerminalReattach (ReattachMsg.mk "s1" (Some 120) (Some 0))
       Examples.connected)
  = WebSocketManager.outbox Examples.connected ++ [TerminalScrollback "s1" ""].
Proof.
  destruct (terminal_reattach_outcome Examples.connected
              (ReattachMsg.mk "s1" (Some 120) (Some 0)) 0%nat Examples.s1)
    as (Hout & _).
  - vm_compute. reflexivity.
  - reflexivity.
  - exact Hout.
Defined.

(** ** The wiring of registered sessions is kept by every handler *)

Section WiringFacts.
Import Wiring.

Lemma keeps_wiring_write data : keeps_wiring (TerminalSession.write data).
Proof. intros sid s H. exact H. Qed.

Lemma keeps_wiring_resize cols rows : keeps_wiring (TerminalSession.resize cols rows).
Proof. intros sid s H. exact H. Qed.

Lemma keeps_wiring_kill : keeps_wiring TerminalSession.kill.
Proof. intros sid s H. exact H. Qed.

Lemma keeps_wiring_record_output data :
  keeps_wiring (TerminalSession.record_output data).
Proof.
  intros sid s (Hid & Hexit & Hacc & Hmax & Hst).
  repeat split; try done; simpl.
  - by apply accounted_write.
  - by rewrite write_unfold.
Qed.

Lemma wired_mark_detached now sessionId s :
  session_wired sessionId s ->
  session_wired sessionId (TerminalManager.mark_detached now s).
Proof. intros (Hid & Hexit & Hacc & Hmax & _). by repeat split. Qed.

Lemma wired_reattached msg s :
  session_wired (ReattachMsg.sessionId msg) s ->
  session_wired (ReattachMsg.sessionId msg) (reattached msg s).
Proof.
  intros (Hid & Hexit & Hacc & Hmax & _). unfold reattached.
  destruct (_ && _); by repeat split.
Qed.

(** A wired registry has no two ids on one session object. *)
Lemma registry_wired_inj m id1 id2 ref :
  registry_wired m ->
  TerminalManager.sessions m !! id1 = Some ref ->
  TerminalManager.sessions m !! id2 = Some ref ->
  id1 = id2.
Proof.
  intros Hm H1 H2.
  destruct (Hm _ _ H1) as (s1 & Hs1 & Hw1 & _).
  destruct (Hm _ _ H2) as (s2 & Hs2 & Hw2 & _). congruence.
Qed.

Lemma registry_wired_get m sessionId :
  registry_wired m ->
  TerminalManager.get sessionId m = None
  <-> TerminalManager.sessions m !! sessionId = None.
Proof.
  intros Hm. split; [|apply get_absent].
  intros Hget. destruct (TerminalManager.sessions m !! sessionId) as [ref|] eqn:E;
    [|done].
  destruct (Hm _ _ E) as (s & Hs & _).
  assert (TerminalManager.get sessionId m = Some (ref, s)) by by apply get_Some.
  congruence.
Qed.

Lemma registry_wired_session m sessionId ref s :
  registry_wired m ->
  TerminalManager.get sessionId m = Some (ref, s) ->
  session_wired sessionId s.
Proof.
  intros Hm [Hs Hh]%get_Some. destruct (Hm _ _ Hs) as (s' & Hs' & Hw). congruence.
Qed.

Lemma registry_wired_update_any ref f m :
  keeps_wiring f -> registry_wired m ->
  registry_wired (TerminalManager.update ref f m).
Proof.
  intros Hf Hm sid r Hs. simpl in Hs. destruct (Hm _ _ Hs) as (s & Hh & Hw).
  simpl. destruct (decide (r = ref)) as [->|Hne].
  - exists (f s). rewrite list_lookup_alter_eq, Hh. split; [done | by apply Hf].
  - exists s. by rewrite list_lookup_alter_ne.
Qed.

Lemma registry_wired_update_own sessionId ref f m :
  registry_wired m ->
  TerminalManager.sessions m !! sessionId = Some ref ->
  (forall s, session_wired sessionId s -> session_wired sessionId (f s)) ->
  registry_wired (TerminalManager.update ref f m).
Proof.
  intros Hm Hid Hf sid r Hs. simpl in Hs. destruct (Hm _ _ Hs) as (s & Hh & Hw).
  simpl. destruct (decide (r = ref)) as [->|Hne].
  - assert (sid = sessionId) as -> by by eapply registry_wired_inj.
    exists (f s). rewrite list_lookup_alter_eq, Hh. split; [done | by apply Hf].
  - exists s. by rewrite list_lookup_alter_ne.
Qed.

Lemma registry_wired_delete sessionId m :
  registry_wired m ->
  registry_wired
    (TerminalManager.mk (TerminalManager.config m) (TerminalManager.heap m)
       (delete sessionId (TerminalManager.sessions m))).
Proof.
  intros Hm sid r Hs. simpl in *.
  apply lookup_delete_Some in Hs as [_ Hs]. by apply Hm.
Qed.

Lemma registry_wired_kill sessionId m :
  registry_wired m -> registry_wired (TerminalManager.kill sessionId m).2.
Proof.
  intros Hm. unfold TerminalManager.kill.
  destruct (TerminalManager.get sessionId m) as [[ref s]|]; [|done]. simpl.
  apply (registry_wired_delete sessionId
           (TerminalManager.update ref TerminalSession.kill m)).
  by apply registry_wired_update_any, Hm; apply keeps_wiring_kill.
Qed.

Lemma registry_wired_detach now sessionId m :
  registry_wired m -> registry_wired (TerminalManager.detach now sessionId m).2.
Proof.
  intros Hm. unfold TerminalManager.detach.
  destruct (TerminalManager.get sessionId m) as [[ref s]|] eqn:Hget; [|done].
  simpl. apply get_Some in Hget as [Hs _].
  eapply registry_wired_update_own; [done | exact Hs |].
  intros s0. apply wired_mark_detached.
Qed.

Lemma registry_wired_cleanup now m :
  registry_wired m -> registry_wired (TerminalManager.cleanupIdleSessions now m).
Proof.
  intros Hm sid r Hs.
  destruct (cleanup_visits now m (TerminalManager.sessions m)) as [Hs' Hh'].
  fold (TerminalManager.cleanupIdleSessions now m) in Hs', Hh'.
  rewrite Hs' in Hs.
  destruct (TerminalManager.sessions m !! sid) as [r0|] eqn:E; simpl in Hs.
  - destruct (Hm _ _ E) as (s & Hh & Hw). rewrite Hh in Hs.
    destruct (TerminalManager.idle_expired now s) eqn:Hexp; [done|].
    injection Hs as <-. specialize (Hh' r0). rewrite Hh in Hh'.
    destruct Hh' as (s' & Hr & _ & Hsame). exists s'. split; [done|].
    by rewrite (Hsame Hexp).
  - done.
Qed.

Lemma registry_wired_applyExit exitCode callbacks w :
  registry_wired (WebSocketManager.terminalManager w) ->
  registry_wired
    (WebSocketManager.terminalManager
       (foldl (fun acc callback => WebSocketManager.applyExit callback exitCode acc)
          w callbacks)).
Proof.
  revert w. induction callbacks as [|[sid] callbacks IH]; intros w Hw; [done|].
  simpl. apply IH. simpl. rewrite terminalManager_emit.
  by apply registry_wired_delete.
Qed.

Lemma reattach_handler_tm msg w ref s :
  TerminalManager.get (ReattachMsg.sessionId msg)
    (WebSocketManager.terminalManager w) = Some (ref, s) ->
  WebSocketManager.terminalManager (WebSocketManager.onTerminalReattach msg w)
  = TerminalManager.update ref (reattached msg) (WebSocketManager.terminalManager w).
Proof.
  intros Hget. unfold WebSocketManager.onTerminalReattach, TerminalManager.reattach.
  rewrite Hget. rewrite terminalManager_emit.
  cbn [WebSocketManager.terminalManager WebSocketManager.set_terminalManager].
  rewrite (get_update _ _ (TerminalSession.set_attachment attached None) _ _ Hget).
  unfold reattached, WebSocketManager.on_session, TerminalManager.update.
  destruct (_ && _); simpl; rewrite terminalManager_emit; simpl;
    by rewrite !alter_twice.
Qed.

Lemma spawn_handler_tm env msg w :
  TerminalManager.has (SpawnMsg.sessionId msg) (WebSocketManager.terminalManager w)
  = true
  \/ (exists reason, ptyResult env = PtySpawnThrows reason)
  \/ ptyResult env = PtySpawned
     /\ TerminalManager.has (SpawnMsg.sessionId msg)
          (WebSocketManager.terminalManager w) = false.
Proof.
  destruct (TerminalManager.has _ _); [by left | right].
  destruct (ptyResult env); [by right | left; by eexists].
Qed.

Lemma registry_wired_spawn env msg w :
  registry_wired (WebSocketManager.terminalManager w) ->
  registry_wired
    (WebSocketManager.terminalManager (WebSocketManager.onTerminalSpawn env msg w)).
Proof.
  intros Hm. unfold WebSocketManager.onTerminalSpawn.
  destruct (spawn_handler_tm env msg w) as [Hhas|[[reason Hpty]|[Hpty Hhas]]].
  - unfold TerminalManager.spawn. rewrite Hhas. by rewrite terminalManager_emit.
  - unfold TerminalManager.spawn. rewrite Hpty.
    destruct (TerminalManager.has _ _); by rewrite terminalManager_emit.
  - rewrite Hpty, spawn_fresh by done. simpl.
    set (m := WebSocketManager.terminalManager w) in *.
    intros sid r Hs. simpl in Hs.
    destruct (decide (sid = SpawnMsg.sessionId msg)) as [->|Hne].
    + rewrite lookup_insert_eq in Hs. injection Hs as <-.
      eexists. split.
      * simpl. rewrite !list_lookup_alter_eq, list_lookup_middle by done. done.
      * by repeat split.
    + rewrite lookup_insert_ne in Hs by done.
      destruct (Hm _ _ Hs) as (s & Hh & Hw). exists s. split; [|done].
      assert (r < length (TerminalManager.heap m))%nat
        by by eapply lookup_lt_Some.
      simpl. rewrite !list_lookup_alter_ne by lia. by apply lookup_app_l_Some.
Qed.

(** Every handler keeps the registry wired. *)
Lemma registry_wired_handle env ev w :
  registry_wired (WebSocketManager.terminalManager w) ->
  registry_wired (WebSocketManager.terminalManager (WebSocketManager.handle env ev w)).
Proof.
  intros Hm. destruct ev; cbn [WebSocketManager.handle].
  - unfold WebSocketManager.onConnect, WebSocketManager.sendSystemInfo.
    by rewrite terminalManager_settle, terminalManager_startHeartbeat,
      terminalManager_emit.
  - unfold WebSocketManager.onConnectError. destruct (_ && _); [|done].
    by rewrite terminalManager_settle.
  - unfold WebSocketManager.onDisconnect. destruct (_ || _); simpl;
      by rewrite terminalManager_stopHeartbeat.
  - unfold WebSocketManager.onReconnect, WebSocketManager.sendSystemInfo.
    by rewrite terminalManager_startHeartbeat, terminalManager_emit.
  - unfold WebSocketManager.reconnectTimer. by destruct (_ && _).
  - unfold WebSocketManager.heartbeatTick. destruct (negb _); [done|].
    by rewrite terminalManager_emit.
  - by apply registry_wired_spawn.
  - unfold WebSocketManager.onTerminalInput.
    destruct (TerminalManager.get _ _) as [[ref s]|]; [|done].
    apply registry_wired_update_any; [apply keeps_wiring_write | done].
  - unfold WebSocketManager.onTerminalResize.
    destruct (TerminalManager.get _ _) as [[ref s]|]; [|done].
    apply registry_wired_update_any; [apply keeps_wiring_resize | done].
  - by apply registry_wired_kill.
  - by apply registry_wired_detach.
  - destruct (TerminalManager.get (ReattachMsg.sessionId msg)
                (WebSocketManager.terminalManager w)) as [[ref s]|] eqn:Hget.
    + rewrite (reattach_handler_tm msg w ref s Hget).
      apply get_Some in Hget as [Hs _].
      eapply registry_wired_update_own; [done | exact Hs |].
      intros s0. apply wired_reattached.
    + unfold WebSocketManager.onTerminalReattach, TerminalManager.reattach.
      rewrite Hget. by rewrite terminalManager_emit.
  - by apply registry_wired_cleanup.
  - unfold WebSocketManager.ptyOnData.
    destruct (_ !! _); [|done]. rewrite terminalManager_applyData.
    apply registry_wired_update_any; [apply keeps_wiring_record_output | done].
  - unfold WebSocketManager.ptyOnExit.
    destruct (_ !! _); [|done]. by apply registry_wired_applyExit.
Qed.

Lemma registry_wired_run evs w :
  registry_wired (WebSocketManager.terminalManager w) ->
  registry_wired (WebSocketManager.terminalManager (WebSocketManager.run evs w)).
Proof.
  revert w. induction evs as [|[env ev] evs IH]; intros w Hw; [done|].
  unfold WebSocketManager.run in *. simpl. by apply IH, registry_wired_handle.
Qed.

Lemma registry_wired_fresh config evs :
  registry_wired
    (WebSocketManager.terminalManager (WebSocketManager.run evs (fresh config))).
Proof. apply registry_wired_run. intros sid r Hs. done. Qed.

End WiringFacts.

(** ** Reachable states: attachment, output and exit *)

Section Reachable.
Import Wiring.

Lemma socket_run evs w :
  WebSocketManager.socket (WebSocketManager.run evs w) = WebSocketManager.socket w.
Proof.
  revert w. induction evs as [|[env ev] evs IH]; intros w; [done|].
  unfold WebSocketManager.run in *. simpl. by rewrite IH, handle_socket.
Qed.

Lemma emit_outbox msg w :
  WebSocketManager.socket w = true ->
  WebSocketManager.outbox (WebSocketManager.emit msg w)
  = WebSocketManager.outbox w ++ [msg].
Proof. intros Hsock. unfold WebSocketManager.emit. by rewrite Hsock. Qed.

(** The PTY's data listener on a session without data callbacks only
    records the output. *)
Lemma ptyOnData_unsubscribed ref s data w :
  TerminalManager.heap (WebSocketManager.terminalManager w) !! ref = Some s ->
  TerminalSession.dataCallbacks s = [] ->
  WebSocketManager.ptyOnData ref data w
  = WebSocketManager.on_session ref (TerminalSession.record_output data) w.
Proof.
  intros Hs Hcb. unfold WebSocketManager.ptyOnData. by rewrite Hs, Hcb.
Qed.

Lemma unsubscribed_outputs_run ref s chunks w :
  TerminalManager.heap (WebSocketManager.terminalManager w) !! ref = Some s ->
  TerminalSession.dataCallbacks s = [] ->
  foldl (fun acc data => WebSocketManager.ptyOnData ref data acc) w chunks
  = WebSocketManager.on_session ref
      (fun s0 => foldl (fun acc data => TerminalSession.record_output data acc)
                   s0 chunks) w.
Proof.
  revert w s. induction chunks as [|data chunks IH]; intros w s Hs Hcb.
  - simpl. unfold WebSocketManager.on_session, TerminalManager.update.
    rewrite list_alter_id by done. by destruct w as [? ? []].
  - simpl. rewrite (ptyOnData_unsubscribed ref s data w Hs Hcb).
    rewrite (IH _ (TerminalSession.record_output data s)).
    + unfold WebSocketManager.on_session, TerminalManager.update. simpl.
      by rewrite alter_twice.
    + simpl. by rewrite list_lookup_alter_eq, Hs.
    + done.
Qed.

Lemma recorded_outputs chunks s :
  let s' := foldl (fun acc data => TerminalSession.record_output data acc) s chunks in
  TerminalSession.scrollback s'
  = foldl (fun b c => ScrollbackBuffer.write c b) (TerminalSession.scrollback s) chunks
  /\ TerminalSession.state s' = TerminalSession.state s
  /\ TerminalSession.dataCallbacks s' = TerminalSession.dataCallbacks s
  /\ TerminalSession.detachedAt s' = TerminalSession.detachedAt s
  /\ TerminalSession.pty s' = TerminalSession.pty s.
Proof.
  revert s. induction chunks as [|data chunks IH]; intros s; simpl; [done|].
  destruct (IH (TerminalSession.record_output data s)) as (-> & -> & -> & -> & ->).
  done.
Qed.

End Reachable.

(** X6. In every state reached from a fresh manager by any events (socket
    events, messages of the server, timers, PTY events), each session of the
    registry carries the id it is registered under, has exactly one exit
    forwarder, has exactly one data callback, its output forwarder, when it is
    attached, and none, with [detachedAt] set, when it is detached; no two ids
    of the registry share a session object. *)
Theorem reachable_sessions_wired
    (config : AgentConfig) (evs : list (Env * WebSocketManager.Event))
    (sessionId : string) (ref : nat) (s : TerminalSession.t) :
  let m := WebSocketManager.terminalManager
             (WebSocketManager.run evs (Wiring.fresh config)) in
  TerminalManager.get sessionId m = Some (ref, s) ->
  TerminalSession.sessionId s = sessionId
  /\ TerminalSession.exitCallbacks s = [ForwardClosed sessionId]
  /\ (TerminalSession.state s = attached ->
      TerminalSession.dataCallbacks s = [ForwardOutput sessionId]
      /\ TerminalSession.detachedAt s = None)
  /\ (TerminalSession.state s = detached ->
      TerminalSession.dataCallbacks s = []
      /\ is_Some (TerminalSession.detachedAt s))
  /\ (forall other s',
        TerminalManager.get other m = Some (ref, s') -> other = sessionId).
Proof.
  intros m Hget.
  pose proof (registry_wired_fresh config evs) as Hm. fold m in Hm.
  destruct (registry_wired_session m sessionId ref s Hm Hget)
    as (Hid & Hexit & _ & _ & Hst).
  split; [done|]. split; [done|].
  split. { intros E. by rewrite E in Hst. }
  split. { intros E. by rewrite E in Hst. }
  intros other s' [Ho _]%get_Some. apply get_Some in Hget as [Hs _].
  by eapply registry_wired_inj.
Qed.

Lemma reachable_sessions_wired_witness :
  let evs := [(Examples.at_time 1000, WebSocketManager.Connect);
              (Examples.at_time 1000, WebSocketManager.TerminalSpawn Examples.spawn_s1);
              (Examples.at_time 2000, WebSocketManager.TerminalDetach "s1");
              (Examples.at_time 3000, WebSocketManager.PtyData 0%nat "hi")] in
  let s := TerminalSession.record_output "hi"
             (TerminalManager.mark_detached 2000 Examples.s1) in
  TerminalSession.sessionId s = "s1"
  /\ TerminalSession.exitCallbacks s = [ForwardClosed "s1"]
  /\ (TerminalSession.state s = attached ->
      TerminalSession.dataCallbacks s = [ForwardOutput "s1"]
      /\ TerminalSession.detachedAt s = None)
  /\ (TerminalSession.state s = detached ->
      TerminalSession.dataCallbacks s = []
      /\ is_Some (TerminalSession.detachedAt s))
  /\ (forall other s',
        TerminalManager.get other
          (WebSocketManager.terminalManager
             (WebSocketManager.run evs (Wiring.fresh Examples.cfg)))
        = Some (0%nat, s') -> other = "s1").
Proof.
  intros evs s.
  apply (reachable_sessions_wired Examples.cfg evs "s1" 0%nat s).
  vm_compute. reflexivity.
Defined.

(** X7. In every state reached from a fresh manager, a chunk of output of
    the PTY of a registered session is written to its scrollback and emitted
    as [terminal:output] exactly once when the session is attached, and not
    emitted at all when it is detached; nothing else of the session
    changes. *)
Theorem pty_output_forwarded_iff_attached
    (config : AgentConfig) (evs : list (Env * WebSocketManager.Event))
    (sessionId : string) (ref : nat) (s : TerminalSession.t) (data : string) :
  let w := WebSocketManager.run evs (Wiring.fresh config) in
  TerminalManager.get sessionId (WebSocketManager.terminalManager w)
  = Some (ref, s) ->
  let w' := WebSocketManager.ptyOnData ref data w in
  WebSocketManager.outbox w'
  = WebSocketManager.outbox w
    ++ match TerminalSession.state s with
       | attached => [TerminalOutput sessionId data]
       | detached => []
       end
  /\ TerminalManager.get sessionId (WebSocketManager.terminalManager w')
     = Some (ref, TerminalSession.record_output data s)
  /\ TerminalSession.scrollback (TerminalSession.record_output data s)
     = ScrollbackBuffer.write data (TerminalSession.scrollback s).
Proof.
  intros w Hget w'.
  assert (WebSocketManager.socket w = true) as Hsock.
  { subst w. by rewrite socket_run. }
  pose proof (registry_wired_fresh config evs) as Hm. fold w in Hm.
  destruct (registry_wired_session _ sessionId ref s Hm Hget)
    as (_ & _ & _ & _ & Hst).
  pose proof Hget as [_ Hh]%get_Some.
  split; [|split; [|done]].
  - subst w'. rewrite (outbox_ptyOnData ref data w s Hsock Hh).
    destruct (TerminalSession.state s); destruct Hst as [-> _]; done.
  - subst w'. unfold WebSocketManager.ptyOnData. rewrite Hh.
    rewrite terminalManager_applyData. by apply get_on_session.
Qed.

Lemma pty_output_forwarded_iff_attached_witness :
  let w := WebSocketManager.run
             [(Examples.at_time 1000, WebSocketManager.Connect);
              (Examples.at_time 1000, WebSocketManager.TerminalSpawn Examples.spawn_s1)]
             (Wiring.fresh Examples.cfg) in
  WebSocketManager.outbox (WebSocketManager.ptyOnData 0%nat "hi" w)
  = WebSocketManager.outbox w ++ [TerminalOutput "s1" "hi"].
Proof.
  intros w.
  destruct (pty_output_forwarded_iff_attached Examples.cfg
              [(Examples.at_time 1000, WebSocketManager.Connect);
               (Examples.at_time 1000, WebSocketManager.TerminalSpawn Examples.spawn_s1)]
              "s1" 0%nat Examples.s1 "hi") as (Hout & _).
  - vm_compute. reflexivity.
  - exact Hout.
Defined.

(** X8. Output produced while a session is detached is not lost: from any
    reachable state, after [terminal:detach] the chunks the PTY delivers are
    not emitted, and the next [reattach] returns (and the [terminal:reattach]
    handler emits, once) the contents of the scrollback with these chunks
    written to it: the contents before the detach followed by the chunks, as
    long as the buffer has room for them. *)
Theorem detached_output_replayed
    (config : AgentConfig) (evs : list (Env * WebSocketManager.Event)) (env : Env)
    (sessionId : string) (ref : nat) (s : TerminalSession.t)
    (chunks : list string) :
  let w := WebSocketManager.run evs (Wiring.fresh config) in
  TerminalManager.get sessionId (WebSocketManager.terminalManager w)
  = Some (ref, s) ->
  let w1 := WebSocketManager.onTerminalDetach env sessionId w in
  let w2 := foldl (fun acc data => WebSocketManager.ptyOnData ref data acc) w1 chunks in
  let b := foldl (fun b c => ScrollbackBuffer.write c b)
             (TerminalSession.scrollback s) chunks in
  WebSocketManager.outbox w2 = WebSocketManager.outbox w
  /\ (TerminalManager.reattach sessionId (WebSocketManager.terminalManager w2)).1
     = Some (ScrollbackBuffer.getContents b)
  /\ (forall msg,
        ReattachMsg.sessionId msg = sessionId ->
        WebSocketManager.outbox (WebSocketManager.onTerminalReattach msg w2)
        = WebSocketManager.outbox w
          ++ [TerminalScrollback sessionId (ScrollbackBuffer.getContents b)])
  /\ (ScrollbackBuffer.retained (TerminalSession.scrollback s)
      + chunks_size chunks <= ScrollbackBuffer.default_maxSize ->
      ScrollbackBuffer.getContents b
      = ScrollbackBuffer.getContents (TerminalSession.scrollback s) +:+ join chunks).
Proof.
  intros w Hget w1 w2 b.
  assert (WebSocketManager.socket w = true) as Hsock.
  { subst w. by rewrite socket_run. }
  pose proof (registry_wired_fresh config evs) as Hm. fold w in Hm.
  destruct (registry_wired_session _ sessionId ref s Hm Hget)
    as (_ & _ & Hacc & Hmax & _).
  set (s1 := TerminalManager.mark_detached (now env) s).
  assert (w1 = WebSocketManager.on_session ref
                 (TerminalManager.mark_detached (now env)) w) as Hw1.
  { subst w1. unfold WebSocketManager.onTerminalDetach.
    by rewrite (detach_present _ _ _ _ _ Hget). }
  assert (TerminalManager.get sessionId (WebSocketManager.terminalManager w1)
          = Some (ref, s1)) as Hget1.
  { rewrite Hw1. by apply get_on_session. }
  pose proof Hget1 as [_ Hh1]%get_Some.
  assert (w2 = WebSocketManager.on_session ref
                 (fun s0 => foldl (fun acc data => TerminalSession.record_output data acc)
                              s0 chunks) w1) as Hw2.
  { subst w2. exact (unsubscribed_outputs_run ref s1 chunks w1 Hh1 eq_refl). }
  set (s2 := foldl (fun acc data => TerminalSession.record_output data acc) s1 chunks).
  assert (TerminalManager.get sessionId (WebSocketManager.terminalManager w2)
          = Some (ref, s2)) as Hget2.
  { rewrite Hw2.
    exact (get_on_session sessionId ref
             (fun s0 => foldl (fun acc data => TerminalSession.record_output data acc)
                          s0 chunks) w1 s1 Hget1). }
  assert (TerminalSession.scrollback s2 = b) as Hb.
  { subst s2. by destruct (recorded_outputs chunks s1) as (-> & _). }
  assert (WebSocketManager.outbox w2 = WebSocketManager.outbox w) as Hout.
  { by rewrite Hw2, Hw1. }
  split; [exact Hout|]. split.
  { unfold TerminalManager.reattach. rewrite Hget2. simpl. by rewrite Hb. }
  split.
  { intros msg <-.
    destruct (reattach_handler_result msg w2 ref s2 Hget2) as (_ & -> & _).
    rewrite emit_outbox, Hb, Hout; [done|]. by rewrite Hw2, Hw1. }
  intros Hfit. unfold ScrollbackBuffer.getContents. subst b.
  rewrite writes_under_cap, join_app; [done | done |]. by rewrite Hmax.
Qed.

Lemma detached_output_replayed_witness :
  let w := WebSocketManager.run
             [(Examples.at_time 1000, WebSocketManager.Connect);
              (Examples.at_time 1000, WebSocketManager.TerminalSpawn Examples.spawn_s1);
              (Examples.at_time 1500, WebSocketManager.PtyData 0%nat "a$ ")]
             (Wiring.fresh Examples.cfg) in
  let w2 := foldl (fun acc data => WebSocketManager.ptyOnData 0%nat data acc)
              (WebSocketManager.onTerminalDetach (Examples.at_time 2000) "s1" w)
              ["hi"; "!"] in
  WebSocketManager.outbox w2 = WebSocketManager.outbox w
  /\ (TerminalManager.reattach "s1" (WebSocketManager.terminalManager w2)).1
     = Some "a$ hi!".
Proof.
  intros w w2.
  destruct (detached_output_replayed Examples.cfg
              [(Examples.at_time 1000, WebSocketManager.Connect);
               (Examples.at_time 1000, WebSocketManager.TerminalSpawn Examples.spawn_s1);
               (Examples.at_time 1500, WebSocketManager.PtyData 0%nat "a$ ")]
              (Examples.at_time 2000) "s1" 0%nat
              (TerminalSession.record_output "a$ " Examples.s1) ["hi"; "!"])
    as (Hout & Hre & _).
  - vm_compute. reflexivity.
  - split; [exact Hout|]. etrans; [exact Hre|]. vm_compute. reflexivity.
Defined.

(** X9. In every state reached from a fresh manager, when the PTY of a
    registered session exits, [terminal:closed] with the exit code is emitted
    exactly once and the session leaves the registry; its PTY receives no
    call and no other session object or registry entry is touched. *)
Theorem pty_exit_closes_session
    (config : AgentConfig) (evs : list (Env * WebSocketManager.Event))
    (sessionId : string) (ref : nat) (s : TerminalSession.t) (exitCode : Z) :
  let w := WebSocketManager.run evs (Wiring.fresh config) in
  TerminalManager.get sessionId (WebSocketManager.terminalManager w)
  = Some (ref, s) ->
  let w' := WebSocketManager.ptyOnExit ref exitCode w in
  WebSocketManager.outbox w'
  = WebSocketManager.outbox w ++ [TerminalClosed sessionId exitCode]
  /\ TerminalManager.get sessionId (WebSocketManager.terminalManager w') = None
  /\ TerminalManager.sessions (WebSocketManager.terminalManager w')
     = delete sessionId
         (TerminalManager.sessions (WebSocketManager.terminalManager w))
  /\ TerminalManager.heap (WebSocketManager.terminalManager w')
     = TerminalManager.heap (WebSocketManager.terminalManager w).
Proof.
  intros w Hget w'.
  assert (WebSocketManager.socket w = true) as Hsock.
  { subst w. by rewrite socket_run. }
  pose proof (registry_wired_fresh config evs) as Hm. fold w in Hm.
  destruct (registry_wired_session _ sessionId ref s Hm Hget)
    as (_ & Hexit & _).
  pose proof Hget as [_ Hh]%get_Some.
  assert (WebSocketManager.terminalManager w'
          = TerminalManager.mk
              (TerminalManager.config (WebSocketManager.terminalManager w))
              (TerminalManager.heap (WebSocketManager.terminalManager w))
              (delete sessionId
                 (TerminalManager.sessions (WebSocketManager.terminalManager w))))
    as Htm.
  { subst w'. unfold WebSocketManager.ptyOnExit. rewrite Hh, Hexit. simpl.
    by rewrite terminalManager_emit. }
  split; [|rewrite Htm; split; [|done]].
  - subst w'. by rewrite (outbox_ptyOnExit ref exitCode w s Hsock Hh), Hexit.
  - apply get_absent. simpl. apply lookup_delete_eq.
Qed.

Lemma pty_exit_closes_session_witness :
  WebSocketManager.outbox (WebSocketManager.ptyOnExit 0%nat 130 Examples.connected)
  = WebSocketManager.outbox Examples.connected ++ [TerminalClosed "s1" 130].
Proof.
  destruct (pty_exit_closes_session Examples.cfg
              [(Examples.at_time 1000, WebSocketManager.Connect);
               (Examples.at_time 1000, WebSocketManager.TerminalSpawn Examples.spawn_s1)]
              "s1" 0%nat Examples.s1 130) as (Hout & _).
  - vm_compute. reflexivity.
  - exact Hout.
Defined.

(** ** Shutting down *)

Section Shutdown.
Import Wiring.

(** [killAll] calls [kill()] once on the object of each entry, when no two
    entries share an object. *)
Lemma killAll_heap (h0 : list TerminalSession.t) (visited : gmap string nat) :
  (forall id1 id2 r,
     visited !! id1 = Some r -> visited !! id2 = Some r -> id1 = id2) ->
  forall ref,
    ((exists id, visited !! id = Some ref)
     /\ map_fold (fun _ r h => alter TerminalSession.kill r h) h0 visited !! ref
        = TerminalSession.kill <$> h0 !! ref)
    \/ ((forall id, visited !! id <> Some ref)
        /\ map_fold (fun _ r h => alter TerminalSession.kill r h) h0 visited !! ref
           = h0 !! ref).
Proof.
  apply (map_fold_weak_ind (fun h visited =>
    (forall id1 id2 r,
       visited !! id1 = Some r -> visited !! id2 = Some r -> id1 = id2) ->
    forall ref,
      ((exists id, visited !! id = Some ref)
       /\ h !! ref = TerminalSession.kill <$> h0 !! ref)
      \/ ((forall id, visited !! id <> Some ref) /\ h !! ref = h0 !! ref))).
  - intros _ ref. right. split; [|done]. intros id. by rewrite lookup_empty.
  - intros i x visited' h Hi IH Hinj ref.
    assert (forall id, visited' !! id <> Some x) as Hfresh.
    { intros id Hid. assert (id = i) as ->; [|congruence].
      apply (Hinj id i x); [|apply lookup_insert_eq].
      rewrite lookup_insert_ne; [done|]. intros ->. congruence. }
    assert (forall id1 id2 r,
              visited' !! id1 = Some r -> visited' !! id2 = Some r -> id1 = id2)
      as Hinj'.
    { intros id1 id2 r H1 H2. apply (Hinj id1 id2 r);
        (rewrite lookup_insert_ne; [done|]; intros ->; congruence). }
    destruct (decide (ref = x)) as [->|Hne].
    + left. split; [exists i; apply lookup_insert_eq|].
      rewrite list_lookup_alter_eq.
      destruct (IH Hinj' x) as [[[id Hid] _]|[_ ->]]; [|done].
      by destruct (Hfresh id).
    + rewrite list_lookup_alter_ne by done.
      destruct (IH Hinj' ref) as [[[id Hid] Hh]|[Hno Hh]].
      * left. split; [|done]. exists id. rewrite lookup_insert_ne; [done|].
        intros ->. congruence.
      * right. split; [|done]. intros id.
        destruct (decide (id = i)) as [->|Hni].
        -- rewrite lookup_insert_eq. congruence.
        -- rewrite lookup_insert_ne by done. apply Hno.
Qed.

(** Without a socket nothing is emitted, whatever happens. *)
Lemma emit_silent msg w :
  WebSocketManager.socket w = false -> WebSocketManager.emit msg w = w.
Proof. intros Hsock. unfold WebSocketManager.emit. by rewrite Hsock. Qed.

Lemma applyData_silent data callbacks w :
  WebSocketManager.socket w = false ->
  foldl (fun acc callback => WebSocketManager.applyData callback data acc) w callbacks
  = w.
Proof.
  intros Hsock. induction callbacks as [|[sid] callbacks IH]; [done|].
  simpl. by rewrite emit_silent.
Qed.

Lemma applyExit_silent exitCode callbacks w :
  WebSocketManager.socket w = false ->
  WebSocketManager.outbox
    (foldl (fun acc callback => WebSocketManager.applyExit callback exitCode acc)
       w callbacks)
  = WebSocketManager.outbox w.
Proof.
  revert w. induction callbacks as [|[sid] callbacks IH]; intros w Hsock; [done|].
  simpl. rewrite IH; rewrite emit_silent by done; done.
Qed.

Lemma handle_silent env ev w :
  WebSocketManager.socket w = false ->
  WebSocketManager.outbox (WebSocketManager.handle env ev w)
  = WebSocketManager.outbox w.
Proof.
  intros Hsock. destruct ev; cbn [WebSocketManager.handle].
  - destruct (onConnect_link w) as (_ & _ & _ & ->). by rewrite Hsock.
  - unfold WebSocketManager.onConnectError, WebSocketManager.settle. simpl.
    destruct (_ && _); [|done]. by destruct (WebSocketManager.connectPromise w).
  - by destruct (onDisconnect_link reason w) as (_ & _ & ->).
  - destruct (onReconnect_link w) as (_ & _ & ->). by rewrite Hsock.
  - unfold WebSocketManager.reconnectTimer. by destruct (_ && _).
  - unfold WebSocketManager.heartbeatTick. destruct (negb _); [done|].
    by rewrite emit_silent.
  - unfold WebSocketManager.onTerminalSpawn.
    destruct (TerminalManager.spawn _ _ _ _ _ _ _ _ _) as [[err|session] tm];
      [|done].
    by rewrite emit_silent.
  - unfold WebSocketManager.onTerminalInput.
    by destruct (TerminalManager.get _ _) as [[ref s]|].
  - unfold WebSocketManager.onTerminalResize.
    by destruct (TerminalManager.get _ _) as [[ref s]|].
  - done.
  - done.
  - unfold WebSocketManager.onTerminalReattach.
    destruct (TerminalManager.reattach _ _) as [[scrollback|] tm].
    + rewrite emit_silent by done.
      destruct (TerminalManager.get _ _) as [[ref s]|]; [|done].
      by destruct (_ && _).
    + by rewrite emit_silent.
  - done.
  - unfold WebSocketManager.ptyOnData. destruct (_ !! _); [|done].
    by rewrite applyData_silent.
  - unfold WebSocketManager.ptyOnExit. destruct (_ !! _); [|done].
    by apply applyExit_silent.
Qed.

Lemma run_silent evs w :
  WebSocketManager.socket w = false ->
  WebSocketManager.outbox (WebSocketManager.run evs w) = WebSocketManager.outbox w.
Proof.
  revert w. induction evs as [|[env ev] evs IH]; intros w Hsock; [done|].
  unfold WebSocketManager.run in *. simpl.
  rewrite IH by by rewrite handle_socket. by apply handle_silent.
Qed.

(** [disconnect()] leaves the terminal manager and the outbox alone, also
    when the socket was connected and its ['disconnect'] listener runs. *)
Lemma disconnect_state (w : WebSocketManager.t) :
  WebSocketManager.terminalManager (WebSocketManager.disconnect w)
  = WebSocketManager.terminalManager w
  /\ WebSocketManager.socket (WebSocketManager.disconnect w) = false
  /\ WebSocketManager.isConnected (WebSocketManager.disconnect w) = false
  /\ WebSocketManager.heartbeatTimer (WebSocketManager.disconnect w) = false
  /\ WebSocketManager.outbox (WebSocketManager.disconnect w)
     = WebSocketManager.outbox w.
Proof.
  destruct w as [c sk tm ra hb ic ob cp rt sc].
  unfold WebSocketManager.disconnect, WebSocketManager.socket_disconnect,
    WebSocketManager.onDisconnect, WebSocketManager.stopHeartbeat.
  destruct hb, sk, ic; repeat split; reflexivity.
Qed.

End Shutdown.

(** X10. The shutdown of index.ts ([terminalManager.killAll()] then
    [wsManager.disconnect()]) from any reachable state: the registry is
    empty, the PTY of every session that was registered has received exactly
    one more call, [kill()], and no other session object is touched; the
    socket is dropped, the manager is disconnected and the heartbeat stopped;
    whatever happens afterwards (the exits of the killed PTYs included),
    nothing more is emitted. *)
Theorem shutdown_kills_and_silences
    (config : AgentConfig) (evs later : list (Env * WebSocketManager.Event)) :
  let w := WebSocketManager.run evs (Wiring.fresh config) in
  let m := WebSocketManager.terminalManager w in
  let w' := Wiring.shutdown w in
  let m' := WebSocketManager.terminalManager w' in
  TerminalManager.sessions m' = ∅
  /\ (forall sessionId ref s,
        TerminalManager.get sessionId m = Some (ref, s) ->
        TerminalManager.heap m' !! ref = Some (TerminalSession.kill s)
        /\ ptyCalls (TerminalSession.pty (TerminalSession.kill s))
           = ptyCalls (TerminalSession.pty s) ++ [PtyKill])
  /\ (forall ref,
        (forall sessionId, TerminalManager.sessions m !! sessionId <> Some ref) ->
        TerminalManager.heap m' !! ref = TerminalManager.heap m !! ref)
  /\ WebSocketManager.socket w' = false
  /\ WebSocketManager.isConnected w' = false
  /\ WebSocketManager.heartbeatTimer w' = false
  /\ WebSocketManager.outbox (WebSocketManager.run later w')
     = WebSocketManager.outbox w.
Proof.
  intros w m w' m'.
  pose proof (registry_wired_fresh config evs) as Hm. fold w in Hm. fold m in Hm.
  assert (m' = TerminalManager.killAll m) as Hm'.
  { subst m' w'. unfold Wiring.shutdown.
    by rewrite (proj1 (disconnect_state _)). }
  assert (forall id1 id2 r,
            TerminalManager.sessions m !! id1 = Some r ->
            TerminalManager.sessions m !! id2 = Some r -> id1 = id2) as Hinj.
  { intros id1 id2 r. by apply registry_wired_inj. }
  assert (WebSocketManager.socket w' = false
          /\ WebSocketManager.isConnected w' = false
          /\ WebSocketManager.heartbeatTimer w' = false
          /\ WebSocketManager.outbox w' = WebSocketManager.outbox w) as Hlink.
  { subst w'. unfold Wiring.shutdown.
    destruct (disconnect_state
                (WebSocketManager.set_terminalManager
                   (TerminalManager.killAll (WebSocketManager.terminalManager w)) w))
      as (_ & Hsock & Hconn & Hhb & Hout).
    by rewrite Hsock, Hconn, Hhb, Hout. }
  destruct Hlink as (Hsock & Hconn & Hhb & Hout).
  split; [by rewrite Hm'|]. split; [|split].
  - intros sessionId ref s [Hs Hh]%get_Some. split; [|done].
    rewrite Hm'. simpl.
    destruct (killAll_heap (TerminalManager.heap m) (TerminalManager.sessions m)
                Hinj ref) as [[_ ->]|[Hno _]].
    + by rewrite Hh.
    + by destruct (Hno sessionId).
  - intros ref Hno. rewrite Hm'. simpl.
    destruct (killAll_heap (TerminalManager.heap m) (TerminalManager.sessions m)
                Hinj ref) as [[[id Hid] _]|[_ ->]]; [|done].
    by destruct (Hno id).
  - split; [done|]. split; [done|]. split; [done|].
    by rewrite run_silent.
Qed.

Lemma shutdown_kills_and_silences_witness :
  let evs := [(Examples.at_time 1000, WebSocketManager.Connect);
              (Examples.at_time 1000, WebSocketManager.TerminalSpawn Examples.spawn_s1)] in
  let later := [(Examples.at_time 2000, WebSocketManager.PtyExit 0%nat 0);
                (Examples.at_time 3000, WebSocketManager.HeartbeatTick)] in
  let w := WebSocketManager.run evs (Wiring.fresh Examples.cfg) in
  (TerminalManager.heap (WebSocketManager.terminalManager (Wiring.shutdown w)) !! 0%nat
   = Some (TerminalSession.kill Examples.s1)
   /\ ptyCalls (TerminalSession.pty (TerminalSession.kill Examples.s1))
      = ptyCalls (TerminalSession.pty Examples.s1) ++ [PtyKill])
  /\ WebSocketManager.outbox (WebSocketManager.run later (Wiring.shutdown w))
     = WebSocketManager.outbox w.
Proof.
  intros evs later w.
  destruct (shutdown_kills_and_silences Examples.cfg evs later)
    as (_ & Hkill & _ & _ & _ & _ & Hout).
  split; [|exact Hout].
  apply (Hkill "s1" 0%nat Examples.s1). vm_compute. reflexivity.
Defined.

(** ** Listing the sessions *)

Section Listing.
Import Wiring TerminalQueries.

Lemma entries_Permutation m :
  entries m ≡ₚ map_to_list (TerminalManager.sessions m).
Proof. apply merge_sort_Permutation. Qed.

Lemma elem_of_entries m sessionId ref :
  (sessionId, ref) ∈ entries m
  <-> TerminalManager.sessions m !! sessionId = Some ref.
Proof. by rewrite entries_Permutation, elem_of_map_to_list. Qed.

Lemma wired_infos m (l : list (string * nat)) :
  registry_wired m ->
  (forall e, e ∈ l -> TerminalManager.sessions m !! e.1 = Some e.2) ->
  SessionInfo.sessionId
    <$> omap (fun e => info_of <$> TerminalManager.heap m !! e.2) l
  = l.*1.
Proof.
  intros Hm. induction l as [|e l IH]; intros Hl; [done|].
  destruct (Hm e.1 e.2) as (s & Hs & Hid & _); [apply Hl; by left|].
  simpl. rewrite Hs. simpl. f_equal; [exact Hid|].
  apply IH. intros e' He'. apply Hl. by right.
Qed.

End Listing.

(** X11. In every state reached from a fresh manager, [listSessions()] has
    exactly one entry for each session of the registry, carrying its current
    id, state, shell, size and timestamps, and nothing else: its length is
    [count], its ids are [sessionIds] in the same order, and no id is listed
    twice. *)
Theorem listSessions_lists_registry
    (config : AgentConfig) (evs : list (Env * WebSocketManager.Event)) :
  let m := WebSocketManager.terminalManager
             (WebSocketManager.run evs (Wiring.fresh config)) in
  (forall info,
     info ∈ TerminalQueries.listSessions m
     <-> exists sessionId ref s,
           TerminalManager.get sessionId m = Some (ref, s)
           /\ info = TerminalQueries.info_of s)
  /\ length (TerminalQueries.listSessions m) = TerminalQueries.count m
  /\ SessionInfo.sessionId <$> TerminalQueries.listSessions m
     = TerminalQueries.sessionIds m
  /\ NoDup (TerminalQueries.sessionIds m)
  /\ (forall sessionId,
        sessionId ∈ TerminalQueries.sessionIds m
        <-> TerminalManager.has sessionId m = true).
Proof.
  intros m.
  pose proof (registry_wired_fresh config evs) as Hm. fold m in Hm.
  assert (SessionInfo.sessionId <$> TerminalQueries.listSessions m
          = TerminalQueries.sessionIds m) as Hids.
  { apply wired_infos; [done|]. intros [sid r] He. by apply elem_of_entries. }
  split; [|split; [|split; [done|split]]].
  - intros info. unfold TerminalQueries.listSessions.
    rewrite list_elem_of_omap. split.
    + intros ([sid r] & He & Hinfo). apply elem_of_entries in He. simpl in Hinfo.
      destruct (TerminalManager.heap m !! r) as [s|] eqn:Hh; [|done].
      injection Hinfo as <-. exists sid, r, s. split; [by apply get_Some | done].
    + intros (sid & r & s & [Hs Hh]%get_Some & ->). exists (sid, r).
      split; [by apply elem_of_entries|]. simpl. by rewrite Hh.
  - rewrite <- (length_fmap SessionInfo.sessionId), Hids.
    unfold TerminalQueries.sessionIds, TerminalQueries.count.
    rewrite length_fmap, entries_Permutation. apply length_map_to_list.
  - unfold TerminalQueries.sessionIds. rewrite entries_Permutation.
    apply NoDup_fst_map_to_list.
  - intros sid. unfold TerminalQueries.sessionIds. rewrite list_elem_of_fmap.
    rewrite has_true. split.
    + intros ([sid' r] & -> & He). apply elem_of_entries in He. simpl.
      destruct (Hm _ _ He) as (s & Hs & _). exists r, s. by apply get_Some.
    + intros (r & s & [Hs _]%get_Some). exists (sid, r).
      split; [done | by apply elem_of_entries].
Qed.

Lemma listSessions_lists_registry_witness :
  let evs := [(Examples.at_time 1000, WebSocketManager.Connect);
              (Examples.at_time 1000, WebSocketManager.TerminalSpawn Examples.spawn_s1)] in
  TerminalQueries.info_of Examples.s1
  ∈ TerminalQueries.listSessions
      (WebSocketManager.terminalManager
         (WebSocketManager.run evs (Wiring.fresh Examples.cfg))).
Proof.
  intros evs.
  destruct (listSessions_lists_registry Examples.cfg evs) as (Hin & _).
  apply Hin. exists "s1", 0%nat, Examples.s1.
  split; [vm_compute; reflexivity | reflexivity].
Defined.

(** ** The idle reaper and the PTYs *)

Section ReaperKills.

Variable now : Z.

(** The reaper calls [kill()] once on the object of each entry it removes,
    when no two entries share an object, and on no other object. *)
Lemma cleanup_heap (m : TerminalManager.t) (visited : gmap string nat) :
  (forall id1 id2 r,
     visited !! id1 = Some r -> visited !! id2 = Some r -> id1 = id2) ->
  forall ref,
    ((exists id s,
        visited !! id = Some ref /\ TerminalManager.heap m !! ref = Some s
        /\ TerminalManager.idle_expired now s = true)
     /\ TerminalManager.heap (map_fold (TerminalManager.cleanup_entry now) m visited)
        !! ref
        = TerminalSession.kill <$> TerminalManager.heap m !! ref)
    \/ ((forall id s,
           visited !! id = Some ref -> TerminalManager.heap m !! ref = Some s ->
           TerminalManager.idle_expired now s = false)
        /\ TerminalManager.heap (map_fold (TerminalManager.cleanup_entry now) m visited)
           !! ref
           = TerminalManager.heap m !! ref).
Proof.
  apply (map_fold_weak_ind (fun r visited =>
    (forall id1 id2 r0,
       visited !! id1 = Some r0 -> visited !! id2 = Some r0 -> id1 = id2) ->
    forall ref,
      ((exists id s,
          visited !! id = Some ref /\ TerminalManager.heap m !! ref = Some s
          /\ TerminalManager.idle_expired now s = true)
       /\ TerminalManager.heap r !! ref
          = TerminalSession.kill <$> TerminalManager.heap m !! ref)
      \/ ((forall id s,
             visited !! id = Some ref -> TerminalManager.heap m !! ref = Some s ->
             TerminalManager.idle_expired now s = false)
          /\ TerminalManager.heap r !! ref = TerminalManager.heap m !! ref))).
  - intros _ ref. right. split; [|done]. intros id s. by rewrite lookup_empty.
  - intros i x visited' r Hi IH Hinj ref.
    assert (forall id, visited' !! id <> Some x) as Hfresh.
    { intros id Hid. assert (id = i) as ->; [|congruence].
      apply (Hinj id i x); [|apply lookup_insert_eq].
      rewrite lookup_insert_ne; [done|]. intros ->. congruence. }
    assert (forall id1 id2 r0,
              visited' !! id1 = Some r0 -> visited' !! id2 = Some r0 -> id1 = id2)
      as Hinj'.
    { intros id1 id2 r0 H1 H2. apply (Hinj id1 id2 r0);
        (rewrite lookup_insert_ne; [done|]; intros ->; congruence). }
    assert (TerminalManager.heap r !! x = TerminalManager.heap m !! x) as Hx.
    { destruct (IH Hinj' x) as [[(id & s & Hid & _) _]|[_ ->]]; [|done].
      by destruct (Hfresh id). }
    assert (forall ref0, ref0 <> x ->
              ((exists id s,
                  <[i:=x]> visited' !! id = Some ref0
                  /\ TerminalManager.heap m !! ref0 = Some s
                  /\ TerminalManager.idle_expired now s = true)
               /\ TerminalManager.heap r !! ref0
                  = TerminalSession.kill <$> TerminalManager.heap m !! ref0)
              \/ ((forall id s,
                     <[i:=x]> visited' !! id = Some ref0 ->
                     TerminalManager.heap m !! ref0 = Some s ->
                     TerminalManager.idle_expired now s = false)
                  /\ TerminalManager.heap r !! ref0 = TerminalManager.heap m !! ref0))
      as Hother.
    { intros ref0 Hne.
      destruct (IH Hinj' ref0) as [[(id & s & Hid & Hs & He) Hh]|[Hno Hh]].
      - left. split; [|done]. exists id, s. split; [|done].
        rewrite lookup_insert_ne; [done|]. intros ->. congruence.
      - right. split; [|done]. intros id s Hid.
        destruct (decide (id = i)) as [->|Hni].
        + rewrite lookup_insert_eq in Hid. congruence.
        + rewrite lookup_insert_ne in Hid by done. by apply (Hno id). }
    unfold TerminalManager.cleanup_entry. rewrite Hx.
    destruct (TerminalManager.heap m !! x) as [s|] eqn:Hmx.
    + destruct (TerminalManager.idle_expired now s) eqn:Hexp.
      * simpl. destruct (decide (ref = x)) as [->|Hne].
        -- left. split; [exists i, s; by rewrite lookup_insert_eq|].
           by rewrite list_lookup_alter_eq, Hx, Hmx.
        -- rewrite list_lookup_alter_ne by done. by apply Hother.
      * destruct (decide (ref = x)) as [->|Hne]; [|by apply Hother].
        right. split; [|by rewrite Hx]. intros id s' _ Hs'. congruence.
    + destruct (decide (ref = x)) as [->|Hne]; [|by apply Hother].
      right. split; [|by rewrite Hx]. intros id s' _ Hs'. congruence.
Qed.

End ReaperKills.

(** X12. A tick of the idle reaper in any state reached from a fresh
    manager: the PTY of each session it removes has received exactly one more
    call, [kill()]; every session it keeps, and every session object that is
    not in the registry, is left exactly as it was. *)
Theorem reaper_kills_what_it_removes
    (config : AgentConfig) (evs : list (Env * WebSocketManager.Event)) (now : Z) :
  let m := WebSocketManager.terminalManager
             (WebSocketManager.run evs (Wiring.fresh config)) in
  let m' := TerminalManager.cleanupIdleSessions now m in
  (forall sessionId ref s,
     TerminalManager.get sessionId m = Some (ref, s) ->
     (TerminalManager.get sessionId m' = None
      /\ TerminalManager.heap m' !! ref = Some (TerminalSession.kill s)
      /\ ptyCalls (TerminalSession.pty (TerminalSession.kill s))
         = ptyCalls (TerminalSession.pty s) ++ [PtyKill])
     \/ TerminalManager.get sessionId m' = Some (ref, s))
  /\ (forall ref,
        (forall sessionId, TerminalManager.sessions m !! sessionId <> Some ref) ->
        TerminalManager.heap m' !! ref = TerminalManager.heap m !! ref).
Proof.
  intros m m'.
  pose proof (registry_wired_fresh config evs) as Hm. fold m in Hm.
  assert (forall id1 id2 r,
            TerminalManager.sessions m !! id1 = Some r ->
            TerminalManager.sessions m !! id2 = Some r -> id1 = id2) as Hinj.
  { intros id1 id2 r. by apply registry_wired_inj. }
  split.
  - intros sessionId ref s Hget.
    pose proof (cleanup_get now m sessionId ref s Hget) as Hget'. fold m' in Hget'.
    pose proof Hget as [Hs Hh]%get_Some.
    destruct (TerminalManager.idle_expired now s) eqn:Hexp; [left | by right].
    split; [done|]. split; [|done].
    destruct (cleanup_heap now m (TerminalManager.sessions m) Hinj ref)
      as [[_ Hk]|[Hno _]].
    + subst m'. unfold TerminalManager.cleanupIdleSessions. by rewrite Hk, Hh.
    + specialize (Hno sessionId s Hs Hh). congruence.
  - intros ref Hno.
    destruct (cleanup_heap now m (TerminalManager.sessions m) Hinj ref)
      as [[(id & s & Hid & _) _]|[_ Hk]]; [by destruct (Hno id) | exact Hk].
Qed.

Lemma reaper_kills_what_it_removes_witness :
  let evs := [(Examples.at_time 1000, WebSocketManager.Connect);
              (Examples.at_time 1000, WebSocketManager.TerminalSpawn Examples.spawn_s1);
              (Examples.at_time 2000, WebSocketManager.TerminalDetach "s1")] in
  let m := WebSocketManager.terminalManager
             (WebSocketManager.run evs (Wiring.fresh Examples.cfg)) in
  let s := TerminalManager.mark_detached 2000 Examples.s1 in
  TerminalManager.get "s1" (TerminalManager.cleanupIdleSessions 8000 m) = None
  /\ TerminalManager.heap (TerminalManager.cleanupIdleSessions 8000 m) !! 0%nat
     = Some (TerminalSession.kill s)
  /\ ptyCalls (TerminalSession.pty (TerminalSession.kill s))
     = ptyCalls (TerminalSession.pty s) ++ [PtyKill].
Proof.
  intros evs m s.
  destruct (reaper_kills_what_it_removes Examples.cfg evs 8000) as (Heach & _).
  destruct (Heach "s1" 0%nat s) as [Hremoved | Hkept].
  - vm_compute. reflexivity.
  - exact Hremoved.
  - vm_compute in Hkept. discriminate Hkept.
Defined.

(** X13. Expiry of a detached session, in terms of the time of the detach:
    for a session of the registry detached at clock reading [t], a tick of
    the reaper at clock reading [now] removes it exactly when its idle
    timeout is positive, [t] is not 0 and [now - t] exceeds the timeout; once
    it has been reattached no tick removes it, however late. *)
Theorem detached_session_expiry
    (m : TerminalManager.t) (sessionId : string) (ref : nat)
    (s : TerminalSession.t) (t now : Z) :
  TerminalManager.get sessionId m = Some (ref, s) ->
  let m1 := (TerminalManager.detach t sessionId m).2 in
  let m2 := (TerminalManager.reattach sessionId m1).2 in
  (TerminalManager.get sessionId (TerminalManager.cleanupIdleSessions now m1) = None
   <-> TerminalSession.idleTimeoutMs s > 0 /\ t <> 0
       /\ now - t > TerminalSession.idleTimeoutMs s)
  /\ (TerminalManager.get sessionId (TerminalManager.cleanupIdleSessions now m1)
      = None
      \/ TerminalManager.get sessionId (TerminalManager.cleanupIdleSessions now m1)
         = Some (ref, TerminalManager.mark_detached t s))
  /\ TerminalManager.get sessionId (TerminalManager.cleanupIdleSessions now m2)
     = Some (ref, TerminalSession.set_attachment attached None
                    (TerminalManager.mark_detached t s)).
Proof.
  intros Hget m1 m2.
  assert (TerminalManager.get sessionId m1
          = Some (ref, TerminalManager.mark_detached t s)) as Hget1.
  { subst m1. rewrite (detach_present _ _ _ _ _ Hget). simpl. by apply get_update. }
  assert (TerminalManager.get sessionId m2
          = Some (ref, TerminalSession.set_attachment attached None
                         (TerminalManager.mark_detached t s))) as Hget2.
  { subst m2. unfold TerminalManager.reattach. rewrite Hget1. simpl.
    by apply get_update. }
  rewrite (cleanup_get now m1 _ _ _ Hget1), (cleanup_get now m2 _ _ _ Hget2).
  split; [|split; [|done]].
  - destruct (TerminalManager.idle_expired now (TerminalManager.mark_detached t s))
      eqn:Hexp.
    + apply idle_expired_true in Hexp as (_ & Hidle & at_ & [= <-] & Hne & Hlate).
      by split.
    + split; [done|]. intros (Hidle & Hne & Hlate).
      assert (TerminalManager.idle_expired now (TerminalManager.mark_detached t s)
              = true); [|congruence].
      apply idle_expired_true. split; [done|]. split; [done|]. by exists t.
  - destruct (TerminalManager.idle_expired _ _); [by left | by right].
Qed.

Lemma detached_session_expiry_witness :
  let m1 := (TerminalManager.detach 10000 "s1" Examples.one_session).2 in
  (TerminalManager.get "s1" (TerminalManager.cleanupIdleSessions 14000 m1) = None
   <-> TerminalSession.idleTimeoutMs Examples.s1 > 0 /\ 10000 <> 0
       /\ 14000 - 10000 > TerminalSession.idleTimeoutMs Examples.s1)
  /\ (TerminalManager.get "s1" (TerminalManager.cleanupIdleSessions 16000 m1) = None
      <-> TerminalSession.idleTimeoutMs Examples.s1 > 0 /\ 10000 <> 0
          /\ 16000 - 10000 > TerminalSession.idleTimeoutMs Examples.s1).
Proof.
  intros m1. split.
  - apply (detached_session_expiry Examples.one_session "s1" 0%nat Examples.s1
             10000 14000). vm_compute. reflexivity.
  - apply (detached_session_expiry Examples.one_session "s1" 0%nat Examples.s1
             10000 16000). vm_compute. reflexivity.
Defined.

(** ** Connection and sessions are independent *)

Section LinkFacts.
Import Link.

Lemma connection_state_emit msg w :
  connection_state (WebSocketManager.emit msg w) = connection_state w.
Proof. unfold WebSocketManager.emit. by destruct (WebSocketManager.socket w) eqn:E. Qed.

Lemma connection_state_applyData data callbacks w :
  connection_state
    (foldl (fun acc callback => WebSocketManager.applyData callback data acc)
       w callbacks)
  = connection_state w.
Proof.
  revert w. induction callbacks as [|[sid] callbacks IH]; intros w; [done|].
  simpl. by rewrite IH, connection_state_emit.
Qed.

Lemma connection_state_applyExit exitCode callbacks w :
  connection_state
    (foldl (fun acc callback => WebSocketManager.applyExit callback exitCode acc)
       w callbacks)
  = connection_state w.
Proof.
  revert w. induction callbacks as [|[sid] callbacks IH]; intros w; [done|].
  simpl. rewrite IH.
  change (connection_state
            (WebSocketManager.emit (TerminalClosed sid exitCode) w)
          = connection_state w).
  apply connection_state_emit.
Qed.

Lemma handle_keeps_connection env ev w :
  is_connection_event ev = false ->
  connection_state (WebSocketManager.handle env ev w) = connection_state w.
Proof.
  intros Hev. destruct ev; try done; cbn [WebSocketManager.handle].
  - unfold WebSocketManager.onTerminalSpawn.
    destruct (TerminalManager.spawn _ _ _ _ _ _ _ _ _) as [[err|session] tm];
      [|done].
    by rewrite connection_state_emit.
  - unfold WebSocketManager.onTerminalInput.
    by destruct (TerminalManager.get _ _) as [[ref s]|].
  - unfold WebSocketManager.onTerminalResize.
    by destruct (TerminalManager.get _ _) as [[ref s]|].
  - unfold WebSocketManager.onTerminalReattach.
    destruct (TerminalManager.reattach _ _) as [[scrollback|] tm].
    + set (w1 := WebSocketManager.emit _ _).
      assert (connection_state w1 = connection_state w) as H1.
      { subst w1. by rewrite connection_state_emit. }
      destruct (TerminalManager.get _ _) as [[ref s]|]; [|done].
      by destruct (_ && _).
    + by rewrite connection_state_emit.
  - unfold WebSocketManager.ptyOnData. destruct (_ !! _); [|done].
    by rewrite connection_state_applyData.
  - unfold WebSocketManager.ptyOnExit. destruct (_ !! _); [|done].
    by rewrite connection_state_applyExit.
Qed.

Lemma handle_keeps_terminalManager env ev w :
  is_connection_event ev = true ->
  WebSocketManager.terminalManager (WebSocketManager.handle env ev w)
  = WebSocketManager.terminalManager w.
Proof.
  intros Hev. destruct ev; try done; cbn [WebSocketManager.handle].
  - unfold WebSocketManager.onConnect, WebSocketManager.sendSystemInfo.
    by rewrite terminalManager_settle, terminalManager_startHeartbeat,
      terminalManager_emit.
  - unfold WebSocketManager.onConnectError. destruct (_ && _); [|done].
    by rewrite terminalManager_settle.
  - unfold WebSocketManager.onDisconnect. destruct (_ || _); simpl;
      by rewrite terminalManager_stopHeartbeat.
  - unfold WebSocketManager.onReconnect, WebSocketManager.sendSystemInfo.
    by rewrite terminalManager_startHeartbeat, terminalManager_emit.
  - unfold WebSocketManager.reconnectTimer. by destruct (_ && _).
  - unfold WebSocketManager.heartbeatTick. destruct (negb _); [done|].
    by rewrite terminalManager_emit.
Qed.

End LinkFacts.

(** X14. Connection and sessions do not interfere. A socket event
    ([connect], [connect_error], [disconnect], [reconnect]) or a connection
    timer leaves the terminal manager exactly as it is: sessions, their
    attachment, scrollback and callbacks survive a disconnect and a
    reconnect. A terminal message, a tick of the reaper or a PTY event
    leaves the connection flag, the heartbeat timer, the promise of
    [connect()] and the reconnect bookkeeping exactly as they are. *)
Theorem connection_and_sessions_independent
    (env : Env) (ev : WebSocketManager.Event) (w : WebSocketManager.t) :
  if Link.is_connection_event ev
  then WebSocketManager.terminalManager (WebSocketManager.handle env ev w)
       = WebSocketManager.terminalManager w
  else Link.connection_state (WebSocketManager.handle env ev w)
       = Link.connection_state w.
Proof.
  destruct (Link.is_connection_event ev) eqn:Hev.
  - by apply handle_keeps_terminalManager.
  - by apply handle_keeps_connection.
Qed.

(** ** The promise of [connect()], reconnection and the heartbeat *)

Section Connection.
Import Link.

Lemma settle_promise p w :
  WebSocketManager.connectPromise (WebSocketManager.settle p w)
  = match WebSocketManager.connectPromise w with
    | Pending => p
    | settled => settled
    end.
Proof.
  unfold WebSocketManager.settle.
  by destruct (WebSocketManager.connectPromise w) eqn:E.
Qed.

Lemma onConnectError_state err w :
  WebSocketManager.reconnectAttempts (WebSocketManager.onConnectError err w)
  = WebSocketManager.reconnectAttempts w + 1
  /\ WebSocketManager.isConnected (WebSocketManager.onConnectError err w)
     = WebSocketManager.isConnected w
  /\ WebSocketManager.heartbeatTimer (WebSocketManager.onConnectError err w)
     = WebSocketManager.heartbeatTimer w
  /\ WebSocketManager.outbox (WebSocketManager.onConnectError err w)
     = WebSocketManager.outbox w
  /\ WebSocketManager.connectPromise (WebSocketManager.onConnectError err w)
     = match WebSocketManager.connectPromise w with
       | Pending =>
           if (WebSocketManager.reconnectAttempts w + 1 >=? 5)
              && negb (WebSocketManager.isConnected w)
           then Rejected (WebSocketManager.reconnectAttempts w + 1) err
           else Pending
       | settled => settled
       end.
Proof.
  unfold WebSocketManager.onConnectError, WebSocketManager.settle.
  destruct w as [c sock tm n hb conn out pr timers k]. simpl.
  destruct (_ && _); by destruct pr.
Qed.

(** Connect errors before any connection: the promise is rejected by the
    error that brings the count to 5. *)
Lemma connect_errors_pending errs w :
  WebSocketManager.isConnected w = false ->
  WebSocketManager.connectPromise w = Pending ->
  0 <= WebSocketManager.reconnectAttempts w < 5 ->
  let w' := connect_errors errs w in
  WebSocketManager.reconnectAttempts w'
  = WebSocketManager.reconnectAttempts w + Z.of_nat (length errs)
  /\ WebSocketManager.isConnected w' = false
  /\ WebSocketManager.outbox w' = WebSocketManager.outbox w
  /\ WebSocketManager.connectPromise w'
     = match errs !! Z.to_nat (4 - WebSocketManager.reconnectAttempts w) with
       | Some err => Rejected 5 err
       | None => Pending
       end.
Proof.
  assert (forall errs w,
            WebSocketManager.isConnected w = false ->
            let w' := connect_errors errs w in
            WebSocketManager.reconnectAttempts w'
            = WebSocketManager.reconnectAttempts w + Z.of_nat (length errs)
            /\ WebSocketManager.isConnected w' = false
            /\ WebSocketManager.outbox w' = WebSocketManager.outbox w
            /\ (WebSocketManager.connectPromise w <> Pending ->
                WebSocketManager.connectPromise w'
                = WebSocketManager.connectPromise w)) as Hsettled.
  { clear. intros errs. induction errs as [|err errs IH]; intros w Hconn.
    { unfold connect_errors. simpl. split; [lia | done]. }
    destruct (onConnectError_state err w) as (Hn & Hc & _ & Ho & Hp).
    destruct (IH (WebSocketManager.onConnectError err w)) as (Hn' & Hc' & Ho' & Hp');
      [congruence|].
    unfold connect_errors in *. simpl.
    rewrite Hn', Hc', Ho', Hn, Ho. split; [rewrite Nat2Z.inj_succ; lia|].
    split; [done|]. split; [done|]. intros Hne. rewrite Hp'.
    - rewrite Hp. by destruct (WebSocketManager.connectPromise w).
    - rewrite Hp. by destruct (WebSocketManager.connectPromise w). }
  revert w. induction errs as [|err errs IH]; intros w Hconn Hpend Hrange w'.
  { subst w'. unfold connect_errors. simpl. split; [lia | done]. }
  destruct (onConnectError_state err w) as (Hn & Hc & _ & Ho & Hp).
  rewrite Hpend, Hconn in Hp. simpl in Hp. rewrite andb_true_r in Hp.
  subst w'. unfold connect_errors. simpl.
  fold (connect_errors errs (WebSocketManager.onConnectError err w)).
  destruct (Z.geb_spec (WebSocketManager.reconnectAttempts w + 1) 5) as [Hge|Hlt].
  - destruct (Hsettled errs (WebSocketManager.onConnectError err w))
      as (Hn' & Hc' & Ho' & Hp'); [congruence|].
    rewrite Hn', Hc', Ho', Hn, Ho, Hp' by by rewrite Hp.
    split; [rewrite Nat2Z.inj_succ; lia|]. split; [done|]. split; [done|].
    rewrite Hp.
    replace (Z.to_nat (4 - WebSocketManager.reconnectAttempts w)) with 0%nat by lia.
    simpl. f_equal. lia.
  - destruct (IH (WebSocketManager.onConnectError err w)) as (Hn' & Hc' & Ho' & Hp');
      [congruence | done | lia |].
    rewrite Hn', Hc', Ho', Hn, Ho, Hp'.
    split; [rewrite Nat2Z.inj_succ; lia|]. split; [done|]. split; [done|].
    rewrite Hn.
    replace (Z.to_nat (4 - WebSocketManager.reconnectAttempts w))
      with (S (Z.to_nat (4 - (WebSocketManager.reconnectAttempts w + 1)))) by lia.
    done.
Qed.

Lemma onConnect_promise w :
  WebSocketManager.connectPromise (WebSocketManager.onConnect w)
  = match WebSocketManager.connectPromise w with
    | Pending => Resolved
    | settled => settled
    end.
Proof.
  unfold WebSocketManager.onConnect. rewrite settle_promise.
  unfold WebSocketManager.startHeartbeat, WebSocketManager.stopHeartbeat,
    WebSocketManager.sendSystemInfo, WebSocketManager.emit.
  destruct w as [c sock tm n hb conn out pr timers k]. simpl.
  by destruct sock, hb.
Qed.

Lemma connection_state_promise w w' :
  connection_state w' = connection_state w ->
  WebSocketManager.connectPromise w' = WebSocketManager.connectPromise w
  /\ WebSocketManager.isConnected w' = WebSocketManager.isConnected w
  /\ WebSocketManager.heartbeatTimer w' = WebSocketManager.heartbeatTimer w.
Proof. unfold connection_state. intros [= _ ? ? ? _ _ _]. done. Qed.

(** A settled promise stays as it is. *)
Lemma handle_promise_settled env ev w :
  WebSocketManager.connectPromise w <> Pending ->
  WebSocketManager.connectPromise (WebSocketManager.handle env ev w)
  = WebSocketManager.connectPromise w.
Proof.
  intros Hset. destruct (is_connection_event ev) eqn:Hev.
  - destruct ev; try done; cbn [WebSocketManager.handle].
    + rewrite onConnect_promise. by destruct (WebSocketManager.connectPromise w).
    + destruct (onConnectError_state errMessage w) as (_ & _ & _ & _ & ->).
      by destruct (WebSocketManager.connectPromise w).
    + unfold WebSocketManager.onDisconnect, WebSocketManager.stopHeartbeat.
      destruct w as [c sock tm n hb conn out pr timers k]. simpl.
      by destruct (_ || _), hb.
    + unfold WebSocketManager.onReconnect, WebSocketManager.startHeartbeat,
        WebSocketManager.stopHeartbeat, WebSocketManager.sendSystemInfo,
        WebSocketManager.emit.
      destruct w as [c sock tm n hb conn out pr timers k]. simpl.
      by destruct sock, hb.
    + unfold WebSocketManager.reconnectTimer. by destruct (_ && _).
    + unfold WebSocketManager.heartbeatTick, WebSocketManager.emit.
      by destruct (negb _), (WebSocketManager.socket w).
  - by destruct (connection_state_promise _ _ (handle_keeps_connection env ev w Hev)).
Qed.

Lemma run_promise_settled evs w :
  WebSocketManager.connectPromise w <> Pending ->
  WebSocketManager.connectPromise (WebSocketManager.run evs w)
  = WebSocketManager.connectPromise w.
Proof.
  revert w. induction evs as [|[env ev] evs IH]; intros w Hset; [done|].
  unfold WebSocketManager.run in *. simpl.
  rewrite IH; rewrite handle_promise_settled; done.
Qed.

(** While connected the heartbeat timer is armed: kept by every event. *)
Lemma handle_beating env ev w :
  (WebSocketManager.isConnected w = true -> WebSocketManager.heartbeatTimer w = true) ->
  WebSocketManager.isConnected (WebSocketManager.handle env ev w) = true ->
  WebSocketManager.heartbeatTimer (WebSocketManager.handle env ev w) = true.
Proof.
  intros Hw. destruct (is_connection_event ev) eqn:Hev.
  - destruct ev; try discriminate Hev; cbn [WebSocketManager.handle].
    + intros _. by destruct (onConnect_link w) as (_ & _ & -> & _).
    + destruct (onConnectError_state errMessage w) as (_ & -> & -> & _). exact Hw.
    + destruct (onDisconnect_link reason w) as (_ & -> & _). done.
    + intros _. reflexivity.
    + unfold WebSocketManager.reconnectTimer. by destruct (_ && _).
    + unfold WebSocketManager.heartbeatTick, WebSocketManager.emit.
      by destruct (negb _), (WebSocketManager.socket w).
  - destruct (connection_state_promise _ _ (handle_keeps_connection env ev w Hev))
      as (_ & -> & ->). exact Hw.
Qed.

Lemma run_beating evs w :
  (WebSocketManager.isConnected w = true -> WebSocketManager.heartbeatTimer w = true) ->
  WebSocketManager.isConnected (WebSocketManager.run evs w) = true ->
  WebSocketManager.heartbeatTimer (WebSocketManager.run evs w) = true.
Proof.
  revert w. induction evs as [|[env ev] evs IH]; intros w Hw; [done|].
  unfold WebSocketManager.run in *. simpl. apply IH. by apply handle_beating.
Qed.

End Connection.

(** X15. The promise returned by [connect()]. Before any connection,
    [connect_error] events are counted and nothing is emitted; the promise
    stays pending through the first four and is rejected by the fifth, with
    the message of that fifth error; a [connect] event resolves it if it is
    still pending. Once settled it never changes again, whatever happens
    (a later run of five errors after a disconnect does not reject a resolved
    promise). *)
Theorem connect_promise_settles_once
    (config : AgentConfig) (errs : list string) :
  (let w := Link.connect_errors errs (Wiring.fresh config) in
   WebSocketManager.reconnectAttempts w = Z.of_nat (length errs)
   /\ WebSocketManager.outbox w = []
   /\ WebSocketManager.connectPromise w
      = match errs !! 4%nat with
        | Some err => Rejected 5 err
        | None => Pending
        end
   /\ WebSocketManager.connectPromise (WebSocketManager.onConnect w)
      = match errs !! 4%nat with
        | Some err => Rejected 5 err
        | None => Resolved
        end)
  /\ (forall evs w,
        WebSocketManager.connectPromise w <> Pending ->
        WebSocketManager.connectPromise (WebSocketManager.run evs w)
        = WebSocketManager.connectPromise w).
Proof.
  split; [|intros evs w; apply run_promise_settled].
  intros w.
  destruct (connect_errors_pending errs (Wiring.fresh config))
    as (Hn & _ & Ho & Hp);
    [reflexivity | reflexivity | unfold Wiring.fresh; simpl; lia |].
  fold w in Hn, Ho, Hp.
  change (Z.to_nat (4 - WebSocketManager.reconnectAttempts (Wiring.fresh config)))
    with 4%nat in Hp.
  change (WebSocketManager.reconnectAttempts (Wiring.fresh config)) with 0 in Hn.
  split; [lia|]. split; [exact Ho|]. split; [exact Hp|].
  rewrite onConnect_promise, Hp. by destruct (errs !! 4%nat).
Qed.

Lemma connect_promise_settles_once_witness :
  let evs := [(Examples.at_time 1000, WebSocketManager.Disconnect "transport close");
              (Examples.at_time 2000, WebSocketManager.ConnectError "refused");
              (Examples.at_time 3000, WebSocketManager.ConnectError "refused");
              (Examples.at_time 4000, WebSocketManager.ConnectError "refused");
              (Examples.at_time 5000, WebSocketManager.ConnectError "refused");
              (Examples.at_time 6000, WebSocketManager.ConnectError "refused")] in
  WebSocketManager.connectPromise
    (WebSocketManager.run evs (WebSocketManager.onConnect (Wiring.fresh Examples.cfg)))
  = Resolved.
Proof.
  intros evs.
  destruct (connect_promise_settles_once Examples.cfg []) as (_ & Hsettled).
  etrans; [apply Hsettled; vm_compute; discriminate | reflexivity].
Defined.

(** X16. The [disconnect] listener marks the manager disconnected, stops
    the heartbeat and emits nothing. It schedules a manual reconnect only for
    the reasons "io server disconnect" (after 1000 ms) and
    "io client disconnect" (after 2000 ms). When the scheduled timer fires it
    calls [socket.connect()] only if the manager is still disconnected and
    still has its socket: not after the connection came back, and not after
    [disconnect()]. *)
Theorem disconnect_schedules_reconnect
    (reason : string) (w : WebSocketManager.t) :
  let w' := WebSocketManager.onDisconnect reason w in
  WebSocketManager.isConnected w' = false
  /\ WebSocketManager.heartbeatTimer w' = false
  /\ WebSocketManager.outbox w' = WebSocketManager.outbox w
  /\ WebSocketManager.reconnectTimers w'
     = WebSocketManager.reconnectTimers w
       ++ (if bool_decide (reason = "io server disconnect") then [1000]
           else if bool_decide (reason = "io client disconnect") then [2000]
           else [])
  /\ WebSocketManager.socketConnects (WebSocketManager.reconnectTimer w')
     = (if WebSocketManager.socket w
        then S (WebSocketManager.socketConnects w)
        else WebSocketManager.socketConnects w)
  /\ WebSocketManager.socketConnects
       (WebSocketManager.reconnectTimer (WebSocketManager.onConnect w'))
     = WebSocketManager.socketConnects w
  /\ WebSocketManager.socketConnects
       (WebSocketManager.reconnectTimer (WebSocketManager.disconnect w'))
     = WebSocketManager.socketConnects w.
Proof.
  intros w'. subst w'.
  unfold WebSocketManager.onDisconnect, WebSocketManager.reconnectTimer,
    WebSocketManager.onConnect, WebSocketManager.disconnect,
    WebSocketManager.settle, WebSocketManager.startHeartbeat,
    WebSocketManager.stopHeartbeat, WebSocketManager.sendSystemInfo,
    WebSocketManager.emit.
  destruct w as [c sock tm n hb conn out pr timers k]. simpl.
  destruct (bool_decide (reason = "io server disconnect")) eqn:Es;
    destruct (bool_decide (reason = "io client disconnect")) eqn:Ec;
    destruct hb, sock, pr; simpl; rewrite ?app_nil_r; try done.
  all: apply bool_decide_eq_true in Es, Ec; congruence.
Qed.

(** X17. In every state reached from a fresh manager the heartbeat timer
    is armed whenever the manager is connected, and a tick of that timer
    emits exactly one [heartbeat] when the manager is connected and nothing
    when it is not. *)
Theorem heartbeat_only_while_connected
    (config : AgentConfig) (evs : list (Env * WebSocketManager.Event)) :
  let w := WebSocketManager.run evs (Wiring.fresh config) in
  (WebSocketManager.isConnected w = true ->
   WebSocketManager.heartbeatTimer w = true)
  /\ WebSocketManager.outbox (WebSocketManager.heartbeatTick w)
     = WebSocketManager.outbox w
       ++ (if WebSocketManager.isConnected w then [Heartbeat] else []).
Proof.
  intros w. split.
  - subst w. by apply run_beating.
  - assert (WebSocketManager.socket w = true) as Hsock.
    { subst w. by rewrite socket_run. }
    unfold WebSocketManager.heartbeatTick.
    destruct (WebSocketManager.isConnected w); simpl.
    + by rewrite emit_outbox.
    + by rewrite app_nil_r.
Qed.

Lemma heartbeat_only_while_connected_witness :
  WebSocketManager.heartbeatTimer
    (WebSocketManager.run [(Examples.at_time 1000, WebSocketManager.Connect)]
       (Wiring.fresh Examples.cfg))
  = true.
Proof.
  destruct (heartbeat_only_while_connected Examples.cfg
              [(Examples.at_time 1000, WebSocketManager.Connect)]) as (Harmed & _).
  apply Harmed. vm_compute. reflexivity.
Defined.

(** ** JavaScript strings: splitting and replacing *)

Section JsStringFacts.
Import JsString.

Lemma split_no_sep sep s : includes sep s = false -> split sep s = [s].
Proof.
  induction s as [|c s IH]; [done|]. simpl.
  destruct (Ascii.eqb c sep); [done|]. simpl. intros H. by rewrite IH.
Qed.

Lemma split_app sep s rest :
  includes sep s = false ->
  split sep (s +:+ String sep rest) = s :: split sep rest.
Proof.
  induction s as [|c s IH]; intros H.
  - change (EmptyString +:+ String sep rest) with (String sep rest).
    simpl. by rewrite Ascii.eqb_refl.
  - rewrite append_cons. simpl in *.
    destruct (Ascii.eqb c sep); [done|]. simpl in H. by rewrite IH.
Qed.

Lemma substitution_plain matched before after replacement :
  includes "$" replacement = false ->
  substitution matched before after replacement = replacement.
Proof.
  induction replacement as [|c r IH]; [done|]. simpl.
  destruct (Ascii.eqb c "$"); [done|]. simpl. intros H. by rewrite IH.
Qed.

Lemma replace_at_start c replacement rest :
  includes "$" replacement = false ->
  replace c replacement (String c rest) = replacement +:+ rest.
Proof.
  intros H. unfold replace. simpl. rewrite Ascii.eqb_refl.
  by rewrite substitution_plain.
Qed.

Lemma append_empty_r s : s +:+ EmptyString = s.
Proof. induction s as [|c s IH]; [done|]. by rewrite append_cons, IH. Qed.

Lemma startsWith_cons a p b s :
  startsWith (String a p) (String b s)
  = if ascii_dec a b then startsWith p s else false.
Proof. reflexivity. Qed.

Lemma startsWith_empty s : startsWith EmptyString s = true.
Proof. by destruct s. Qed.

Lemma startsWith_tilde_slash s :
  startsWith "~/" s = true <-> exists rest, s = "~/" +:+ rest.
Proof.
  split.
  - destruct s as [|a [|b rest]]; [done| |].
    + rewrite startsWith_cons. by destruct (ascii_dec "~" a).
    + rewrite !startsWith_cons.
      destruct (ascii_dec "~" a) as [<-|]; [|done].
      destruct (ascii_dec "/" b) as [<-|]; [|done]. intros _. by exists rest.
  - intros [rest ->]. change ("~/" +:+ rest) with (String "~" (String "/" rest)).
    rewrite !startsWith_cons.
    destruct (ascii_dec "~" "~"); [|done]. destruct (ascii_dec "/" "/"); [|done].
    apply startsWith_empty.
Qed.

End JsStringFacts.

(** With a home directory that holds no dollar sign, the expansion of the
    [terminal:spawn] handler puts the home directory in place of the leading
    ['~'] of ['~'] and ['~/rest'], and leaves every other directory as it
    is. *)
Lemma expand_home_plain (home cwd : string) :
  JsString.includes "$" home = false ->
  WebSocketManager.expand_home home cwd
  = match cwd with
    | String "~"%char EmptyString => home
    | String "~"%char (String "/"%char rest) => home +:+ String "/"%char rest
    | _ => cwd
    end.
Proof.
  intros Hhome. unfold WebSocketManager.expand_home.
  destruct cwd as [|a rest]; [done|].
  destruct (ascii_dec a "~") as [->|Hne].
  - rewrite replace_at_start by done.
    destruct rest as [|b rest]; [by rewrite append_empty_r|].
    rewrite bool_decide_eq_false_2 by done.
    rewrite !startsWith_cons.
    destruct (ascii_dec "~" "~"); [|done].
    destruct (ascii_dec "/" b) as [<-|Hne]; [by rewrite startsWith_empty|].
    simpl. destruct b as [[] [] [] [] [] [] [] []]; try done.
  - assert (String a rest <> "~") by congruence.
    rewrite bool_decide_eq_false_2 by done.
    rewrite startsWith_cons. destruct (ascii_dec "~" a); [congruence|].
    simpl. destruct a as [[] [] [] [] [] [] [] []]; try done.
Qed.

(** ** The working directory of the git handlers *)

(** X18. [resolveGitCwd] takes [msg.cwd], else [msg.path], else the home
    directory, an empty string counting as missing. With a home directory
    that holds no dollar sign, ['~'] becomes the home directory and
    ['~/rest'] becomes the home directory followed by ['/rest']; whatever the
    home directory, a directory that is neither ['~'] nor starts with ['~/']
    is returned unchanged. *)
Theorem resolveGitCwd_expands_home (home : string) (cwd path : option string) :
  JsString.includes "$" home = false ->
  let c := GitCwd.chosen home cwd path in
  let r := GitCwd.resolveGitCwd home cwd path in
  (forall v, cwd = Some v -> v <> EmptyString -> c = v)
  /\ (cwd = None \/ cwd = Some EmptyString ->
      forall v, path = Some v -> v <> EmptyString -> c = v)
  /\ (cwd = None \/ cwd = Some EmptyString ->
      path = None \/ path = Some EmptyString -> c = home)
  /\ (c = "~" -> r = home)
  /\ (forall rest, c = "~/" +:+ rest -> r = home +:+ "/" +:+ rest)
  /\ (c <> "~" -> JsString.startsWith "~/" c = false -> r = c).
Proof.
  intros Hhome c r. subst c r. unfold GitCwd.resolveGitCwd, GitCwd.chosen.
  repeat split.
  - intros v -> Hv. by destruct v.
  - intros Hc v -> Hv. destruct v; [done|]. by destruct Hc as [->| ->].
  - intros [->| ->] [->| ->]; reflexivity.
  - intros ->. unfold GitCwd.is_home_relative.
    rewrite bool_decide_eq_true_2 by done. simpl orb. cbv iota.
    rewrite replace_at_start by done. apply append_empty_r.
  - intros rest ->. unfold GitCwd.is_home_relative.
    rewrite (proj2 (startsWith_tilde_slash _)) by by exists rest.
    rewrite orb_true_r.
    change ("~/" +:+ rest) with (String "~" (String "/" rest)).
    by rewrite replace_at_start.
  - intros Hne Hpre. unfold GitCwd.is_home_relative.
    rewrite bool_decide_eq_false_2 by done. by rewrite Hpre.
Qed.

Lemma resolveGitCwd_expands_home_witness :
  GitCwd.resolveGitCwd "/home/u" (Some EmptyString) (Some "~/proj")
  = "/home/u/proj".
Proof.
  destruct (resolveGitCwd_expands_home "/home/u" (Some EmptyString)
              (Some "~/proj") eq_refl) as (_ & Hpath & _ & _ & Hrest & _).
  apply (Hrest "proj").
  apply (Hpath (or_intror eq_refl) "~/proj" eq_refl). discriminate.
Defined.

(** ** The configuration *)

Section ConfigFacts.
Import Config.

Lemma is_token_char_spec (c : ascii) :
  is_token_char c = true
  <-> In c (String.list_ascii_of_string "0123456789abcdef").
Proof.
  destruct c as [[] [] [] [] [] [] [] []]; vm_compute;
    (split; [intros H; first [discriminate H | tauto] | intros H; first [reflexivity | repeat (destruct H as [H|H]; [discriminate H|]); destruct H]]).
Qed.

Lemma valid_token_spec (token : string) :
  valid_token token = true
  <-> exists rest,
        token = "cf_" +:+ rest
        /\ String.length rest = 32%nat
        /\ forall ch, In ch (String.list_ascii_of_string rest) ->
                      In ch (String.list_ascii_of_string "0123456789abcdef").
Proof.
  split.
  - intros H. unfold valid_token in H.
    destruct token as [|a [|b [|c rest]]]; try done.
    + by destruct a as [[] [] [] [] [] [] [] []].
    + by destruct a as [[] [] [] [] [] [] [] []]; destruct b as [[] [] [] [] [] [] [] []].
    + destruct a as [[] [] [] [] [] [] [] []]; try done;
      destruct b as [[] [] [] [] [] [] [] []]; try done;
      destruct c as [[] [] [] [] [] [] [] []]; try done.
      apply andb_true_iff in H as [Hlen Hall]. exists rest. split; [done|].
      split; [by apply Nat.eqb_eq|].
      intros ch Hch. apply is_token_char_spec.
      rewrite forallb_forall in Hall. by apply Hall.
  - intros (rest & -> & Hlen & Hall).
    change ("cf_" +:+ rest) with (String "c" (String "f" (String "_" rest))).
    unfold valid_token. apply andb_true_iff. split; [by apply Nat.eqb_eq|].
    apply forallb_forall. intros ch Hch. apply is_token_char_spec. by apply Hall.
Qed.

Lemma getDefaultShell_nonempty host : getDefaultShell host <> EmptyString.
Proof.
  unfold getDefaultShell.
  destruct (bool_decide _).
  - by destruct (COMSPEC host) as [[|]|].
  - by destruct (SHELL host) as [[|]|].
Qed.

End ConfigFacts.

(** X19. [createConfig] takes the token of the command line, else the one of
    the environment, an empty string counting as missing. It returns a
    configuration exactly when that token is [cf_] followed by 32 characters
    among [0-9a-f]; the configuration then carries this token, a non-empty
    shell and server URL, and the fixed delays. A malformed token of the
    command line is not replaced by a well-formed one of the environment: the
    call throws the format error. With no token at all it throws the
    token-required error. *)
Theorem createConfig_validates_token (options : Config.Options) (host : Config.Host) :
  let effective :=
    JsString.or_else (Config.optToken options) (Config.CLOUDFORGE_TOKEN host) in
  (forall t, Config.optToken options = Some t -> t <> EmptyString ->
             effective = Some t)
  /\ (Config.optToken options = None \/ Config.optToken options = Some EmptyString ->
      effective = Config.CLOUDFORGE_TOKEN host)
  /\ (forall t, Config.valid_token t = true
      <-> exists rest,
            t = "cf_" +:+ rest
            /\ String.length rest = 32%nat
            /\ forall ch, In ch (String.list_ascii_of_string rest) ->
                          In ch (String.list_ascii_of_string "0123456789abcdef"))
  /\ (forall t, effective = Some t -> Config.valid_token t = true ->
      exists c,
        Config.createConfig options host = inr c
        /\ Config.token c = t
        /\ Config.serverUrl c <> EmptyString
        /\ Config.shell c <> EmptyString
        /\ Config.homeDir c = Config.homedir host
        /\ Config.heartbeatInterval c = 30000
        /\ Config.reconnectDelay c = 1000
        /\ Config.maxReconnectDelay c = 30000)
  /\ (forall t, effective = Some t -> t <> EmptyString ->
      Config.valid_token t = false ->
      exists e,
        Config.createConfig options host = inl e
        /\ JsString.startsWith "Invalid token format." (message e) = true)
  /\ (effective = None \/ effective = Some EmptyString ->
      exists e,
        Config.createConfig options host = inl e
        /\ JsString.startsWith "Agent token is required." (message e) = true).
Proof.
  intros effective. subst effective. repeat split.
  - intros t -> Ht. by destruct t.
  - by intros [->| ->].
  - by apply valid_token_spec.
  - by apply valid_token_spec.
  - intros t Heff Hvalid. unfold Config.createConfig. rewrite Heff.
    destruct t as [|a rest]; [done|]. rewrite Hvalid.
    eexists. split; [reflexivity|]. simpl. repeat split.
    + destruct (Config.optServerUrl options) as [[|]|]; simpl; try done;
        by destruct (Config.CLOUDFORGE_SERVER_URL host) as [[|]|].
    + apply getDefaultShell_nonempty.
  - intros t Heff Ht Hvalid. unfold Config.createConfig. rewrite Heff.
    destruct t as [|a rest]; [done|]. rewrite Hvalid.
    eexists. split; reflexivity.
  - intros Heff. unfold Config.createConfig.
    destruct Heff as [->| ->]; eexists; split; reflexivity.
Qed.

Lemma createConfig_validates_token_witness :
  let good := "cf_0123456789abcdef0123456789abcdef" in
  let host := Config.mkHost (Some good) None None (Some "/bin/zsh") None
                "linux" "/home/u" in
  (exists c,
     Config.createConfig (Config.mkOptions None None None) host = inr c
     /\ Config.token c = good)
  /\ (exists e,
        Config.createConfig (Config.mkOptions (Some "cf_ABC") None None) host
        = inl e
        /\ JsString.startsWith "Invalid token format." (message e) = true).
Proof.
  intros good host. split.
  - destruct (createConfig_validates_token (Config.mkOptions None None None) host)
      as (_ & _ & _ & Hok & _).
    destruct (Hok good eq_refl eq_refl) as (c & Hc & Htoken & _).
    exists c. split; [exact Hc | exact Htoken].
  - destruct (createConfig_validates_token
                (Config.mkOptions (Some "cf_ABC") None None) host)
      as (_ & _ & _ & _ & Hbad & _).
    apply (Hbad "cf_ABC"); [reflexivity | discriminate | reflexivity].
Defined.

(** ** Parsing the output of git *)

Section GitFacts.
Import Git.

Lemma lines_cons (line out : string) :
  line <> EmptyString ->
  JsString.includes JsString.newline line = false ->
  lines (line +:+ String JsString.newline out) = line :: lines out.
Proof.
  intros Hne Hline. unfold lines. rewrite split_app by done.
  simpl. by destruct line.
Qed.

Lemma lines_porcelain_cons (e : Entry) (entries : list Entry) :
  index_letter e <> JsString.newline ->
  worktree_letter e <> JsString.newline ->
  JsString.includes JsString.newline (path e) = false ->
  lines (porcelain (e :: entries))
  = String (index_letter e) (String (worktree_letter e) (String " " (path e)))
    :: lines (porcelain entries).
Proof.
  intros Hx Hy Hpath. simpl. unfold render. rewrite append_assoc.
  change (String JsString.newline EmptyString +:+ porcelain entries)
    with (String JsString.newline (porcelain entries)).
  apply lines_cons; [done|]. simpl. rewrite Hpath.
  apply Ascii.eqb_neq in Hx, Hy. by rewrite Hx, Hy.
Qed.

Lemma classify_entry (acc : StatusLists) (e : Entry) :
  classify acc
    (String (index_letter e) (String (worktree_letter e) (String " " (path e))))
  = mkLists
      (modified acc ++ (if is_modified e then [path e] else []))
      (staged acc ++ (if is_staged e then [path e] else []))
      (untracked acc ++ (if is_untracked e then [path e] else [])).
Proof.
  unfold classify, is_modified, is_staged, is_untracked. simpl.
  destruct (Ascii.eqb (index_letter e) " "), (Ascii.eqb (index_letter e) "?"),
    (Ascii.eqb (worktree_letter e) "M"), (Ascii.eqb (worktree_letter e) "D"),
    (Ascii.eqb (worktree_letter e) "?"); simpl; by rewrite ?app_nil_r.
Qed.

Lemma filter_paths (f : Entry -> bool) (e : Entry) (entries : list Entry) :
  path <$> List.filter f (e :: entries)
  = (if f e then [path e] else []) ++ (path <$> List.filter f entries).
Proof. simpl. by destruct (f e). Qed.

Lemma status_fold (entries : list Entry) (acc : StatusLists) :
  Forall (fun e => index_letter e <> JsString.newline
                   /\ worktree_letter e <> JsString.newline
                   /\ JsString.includes JsString.newline (path e) = false)
    entries ->
  foldl classify acc (lines (porcelain entries))
  = mkLists
      (modified acc ++ (path <$> List.filter is_modified entries))
      (staged acc ++ (path <$> List.filter is_staged entries))
      (untracked acc ++ (path <$> List.filter is_untracked entries)).
Proof.
  intros Hall. revert acc.
  induction Hall as [|e entries (Hx & Hy & Hp) _ IH]; intros acc.
  - destruct acc. simpl. by rewrite !app_nil_r.
  - rewrite lines_porcelain_cons by done.
    cbn [foldl]. rewrite classify_entry, IH. cbn [modified staged untracked].
    rewrite !filter_paths, !app_assoc. reflexivity.
Qed.

End GitFacts.

(** X20. On the output of [git status --porcelain -u] (one line per entry:
    index letter, working-tree letter, a space, the path), [status] puts a
    path in [staged] exactly when its index letter is neither a space nor
    [?], in [modified] exactly when its working-tree letter is [M] or [D],
    and in [untracked] exactly when both letters are [?]; each list keeps the
    order of the output, and the path is the whole rest of the line (for a
    rename this is the text [old -> new]). *)
Theorem status_lists_of_porcelain (entries : list Git.Entry) :
  Forall (fun e => Git.index_letter e <> JsString.newline
                   /\ Git.worktree_letter e <> JsString.newline
                   /\ JsString.includes JsString.newline (Git.path e) = false)
    entries ->
  Git.status_lists (Git.porcelain entries)
  = Git.mkLists
      (Git.path <$> List.filter Git.is_modified entries)
      (Git.path <$> List.filter Git.is_staged entries)
      (Git.path <$> List.filter Git.is_untracked entries).
Proof.
  intros Hall. unfold Git.status_lists. by rewrite status_fold.
Qed.

Lemma status_lists_of_porcelain_witness :
  Git.status_lists
    (Git.porcelain
       [Git.mkEntry "M" " " "a.txt"; Git.mkEntry "R" "D" "x -> y";
        Git.mkEntry "?" "?" "new file"; Git.mkEntry " " "M" "b.txt"])
  = Git.mkLists ["x -> y"; "b.txt"] ["a.txt"; "x -> y"] ["new file"].
Proof.
  etrans; [apply status_lists_of_porcelain|reflexivity].
  repeat constructor; vm_compute; discriminate.
Defined.

(** X21. A line of [git log --format=%H|%h|%an|%aI|%s] is cut at every
    vertical bar: when hash, short hash, author and date hold none, [log]
    returns them as they are, and [message] is the subject up to its first
    vertical bar, hence the whole subject only when it holds none. *)
Theorem log_message_cut_at_bar (h sh a d subject : string) :
  JsString.includes "|" h = false ->
  JsString.includes "|" sh = false ->
  JsString.includes "|" a = false ->
  JsString.includes "|" d = false ->
  let commit := Git.parse_log_line (Git.log_line h sh a d subject) in
  Git.hash commit = Some h
  /\ Git.shortHash commit = Some sh
  /\ Git.author commit = Some a
  /\ Git.date commit = Some d
  /\ (JsString.includes "|" subject = false -> Git.message commit = Some subject)
  /\ (forall before after,
        subject = before +:+ String "|" after ->
        JsString.includes "|" before = false ->
        Git.message commit = Some before).
Proof.
  intros Hh Hsh Ha Hd commit. subst commit.
  unfold Git.parse_log_line, Git.log_line.
  rewrite !split_app by done. cbn [lookup list_lookup Git.hash Git.shortHash Git.author Git.date Git.message].
  repeat split.
  - intros Hs. by rewrite split_no_sep.
  - intros before after -> Hb. by rewrite split_app.
Qed.

Lemma log_message_cut_at_bar_witness :
  Git.message
    (Git.parse_log_line
       (Git.log_line "9fceb02d" "9fceb02" "Ann" "2024-05-01T10:00:00+02:00"
          "fix a|b parsing"))
  = Some "fix a".
Proof.
  destruct (log_message_cut_at_bar "9fceb02d" "9fceb02" "Ann"
              "2024-05-01T10:00:00+02:00" "fix a|b parsing"
              eq_refl eq_refl eq_refl eq_refl) as (_ & _ & _ & _ & _ & Hcut).
  apply (Hcut "fix a" "b parsing"); reflexivity.
Defined.

(** ** Closing the connection, and the directory of a new terminal *)

(** X23. [disconnect()] drops the socket, marks the manager disconnected,
    stops the heartbeat, emits nothing and leaves the sessions alone. When
    the socket was connected, closing it runs the ['disconnect'] listener
    with the reason "io client disconnect", which schedules a reconnect after
    2000 ms; with no socket or a socket that is not connected nothing is
    scheduled. When that timer fires the socket is gone and no
    [socket.connect()] is made. *)
Theorem disconnect_closes_connected_socket (w : WebSocketManager.t) :
  let w' := WebSocketManager.disconnect w in
  WebSocketManager.socket w' = false
  /\ WebSocketManager.isConnected w' = false
  /\ WebSocketManager.heartbeatTimer w' = false
  /\ WebSocketManager.outbox w' = WebSocketManager.outbox w
  /\ WebSocketManager.terminalManager w' = WebSocketManager.terminalManager w
  /\ WebSocketManager.reconnectTimers w'
     = WebSocketManager.reconnectTimers w
       ++ (if WebSocketManager.socket w && WebSocketManager.isConnected w
           then [2000] else [])
  /\ WebSocketManager.reconnectTimer w' = w'.
Proof.
  intros w'. subst w'.
  destruct (disconnect_state w) as (Htm & Hsock & Hconn & Hhb & Hout).
  split; [done|]. split; [done|]. split; [done|]. split; [done|].
  split; [done|]. split.
  - destruct w as [c sk tm ra hb ic ob cp rt sc].
    unfold WebSocketManager.disconnect, WebSocketManager.socket_disconnect,
      WebSocketManager.onDisconnect, WebSocketManager.stopHeartbeat.
    destruct hb, sk, ic; cbn; by rewrite ?app_nil_r.
  - unfold WebSocketManager.reconnectTimer. by rewrite Hsock, andb_false_r.
Qed.

(** X24. The working directory the [terminal:spawn] handler gives to the
    PTY of the session it registers: the configured home directory (when it
    is not empty) when the message has no [cwd] or an empty one; the directory of the message, as
    it is, when it is neither ['~'] nor starts with ['~/']; and, with a home
    directory of the host that holds no dollar sign, that home directory
    for ['~'] (when it is not empty) and the home directory followed by
    ['/rest'] for ['~/rest']. *)
Theorem terminal_spawn_cwd
    (env : Env) (msg : SpawnMsg.t) (w : WebSocketManager.t) :
  TerminalManager.has (SpawnMsg.sessionId msg)
    (WebSocketManager.terminalManager w) = false ->
  ptyResult env = PtySpawned ->
  exists s,
    TerminalManager.get (SpawnMsg.sessionId msg)
      (WebSocketManager.terminalManager
         (WebSocketManager.onTerminalSpawn env msg w))
    = Some (length (TerminalManager.heap (WebSocketManager.terminalManager w)), s)
    /\ (SpawnMsg.cwd msg = None \/ SpawnMsg.cwd msg = Some EmptyString ->
        cfgHomeDir (WebSocketManager.config w) <> EmptyString ->
        ptyCwd (TerminalSession.pty s) = cfgHomeDir (WebSocketManager.config w))
    /\ (forall given,
          SpawnMsg.cwd msg = Some given -> given <> EmptyString ->
          given <> "~" -> JsString.startsWith "~/" given = false ->
          ptyCwd (TerminalSession.pty s) = given)
    /\ (JsString.includes "$" (osHomedir env) = false ->
        (SpawnMsg.cwd msg = Some "~" -> osHomedir env <> EmptyString ->
         ptyCwd (TerminalSession.pty s) = osHomedir env)
        /\ (forall rest,
              SpawnMsg.cwd msg = Some ("~/" +:+ rest) ->
              ptyCwd (TerminalSession.pty s) = osHomedir env +:+ "/" +:+ rest)).
Proof.
  intros Hhas Hpty. unfold WebSocketManager.onTerminalSpawn.
  rewrite Hpty, spawn_fresh by done.
  eexists. split.
  - apply get_Some. simpl. rewrite lookup_insert_eq. split; [done|].
    rewrite !list_lookup_alter_eq, list_lookup_middle by done. done.
  - simpl. split; [|split].
    + intros [->| ->] Hne; simpl;
        by destruct (cfgHomeDir (WebSocketManager.config w)).
    + intros given -> Hne Htilde Hpre.
      destruct given as [|a rest]; [done|].
      unfold WebSocketManager.expand_home.
      rewrite bool_decide_eq_false_2, Hpre by done. done.
    + intros Hhome. split.
      * intros -> Hne. rewrite expand_home_plain by done.
        by destruct (osHomedir env).
      * intros rest ->.
        change ("~/" +:+ rest) with (String "~" (String "/" rest)).
        cbv iota. rewrite expand_home_plain by done.
        by destruct (osHomedir env).
Qed.

Lemma terminal_spawn_cwd_witness :
  exists s,
    TerminalManager.get "s2"
      (WebSocketManager.terminalManager
         (WebSocketManager.onTerminalSpawn (Examples.at_time 2000)
            (SpawnMsg.mk "s2" None None None (Some "~/proj") None)
            Examples.connected))
    = Some (1%nat, s)
    /\ ptyCwd (TerminalSession.pty s) = "/home/u/proj".
Proof.
  destruct (terminal_spawn_cwd (Examples.at_time 2000)
              (SpawnMsg.mk "s2" None None None (Some "~/proj") None)
              Examples.connected) as (s & Hget & _ & _ & Hhome).
  - vm_compute. reflexivity.
  - reflexivity.
  - exists s. split; [exact Hget|].
    destruct (Hhome eq_refl) as (_ & Hrest). apply (Hrest "proj"). reflexivity.
Defined.
